(** * antibeaver: governance engine

    A shallow embedding of the governance engine of the antibeaver plugin
    (latency tracker, buffering decision, thought store, synthesizer and
    input validation) together with the properties its specification states,
    followed by further properties of the engine, of the commands and tools
    of the plugin, and of the plugin as it was before the rewrite (v0.2.0).

    Conventions of the embedding.
    - A JavaScript string is the list of its UTF-16 code units ([jsstring]),
      so that [length], [trim], [substring] and the regular-expression
      replacements act on the same units as the engine does.
    - Latencies, thresholds and timestamps are integer milliseconds ([Z]);
      the only fractional number the engine produces, the window average, is
      an exact rational ([Q]).  Values of type [unknown] reaching the
      validators are [JsValue]s, whose numbers may be fractional or
      non-finite.  The code itself computes in doubles and can hold
      fractions and NaN where no validator stands in front; a property
      that holds only for whole numbers says so in its statement.
    - [Date.now()] is an effect: a [Clock] holds the wall-clock readings and
      counts how many were taken. *)

From Stdlib Require Import Ascii String.
From Stdlib Require Import ZArith QArith Qround Qminmax Lqa List Lia Permutation Sorted DecimalString DecimalPos.
From stdpp Require Import gmap list.

(* ===================================================================== *)
(** ** JavaScript values                                                  *)
(* ===================================================================== *)

(** A UTF-16 code unit. *)
Definition char16 : Type := N.

(** A JavaScript string: its sequence of code units. *)
Definition jsstring : Type := list char16.

(** An ASCII literal of the source, as code units. *)
Definition lit (s : String.string) : jsstring :=
  List.map Ascii.N_of_ascii (String.list_ascii_of_string s).
Arguments lit s%_string.

Definition BACKSLASH : char16 := 92%N.
Definition DQUOTE : char16 := 34%N.
Definition LF : char16 := 10%N.
Definition LETTER_n : char16 := 110%N.
Definition EM_DASH : char16 := 8212%N.

(** Template-literal conversion of an integer number: its decimal digits. *)
Definition Number_toString (z : Z) : jsstring :=
  lit (NilZero.string_of_int (Z.to_int z)).

(** [String(n)] for an array length or index. *)
Definition nat_toString (n : nat) : jsstring := Number_toString (Z.of_nat n).

(** [Array.prototype.join]. *)
Fixpoint join (sep : jsstring) (parts : list jsstring) : jsstring :=
  match parts with
  | [] => []
  | [p] => p
  | p :: rest => p ++ sep ++ join sep rest
  end.

(** A JavaScript number as the validators may receive it. *)
Inductive JsNumber : Type :=
| NaN
| PosInfinity
| NegInfinity
| Finite (q : Q).

(** A value of TypeScript type [unknown]. *)
Inductive JsValue : Type :=
| JsUndefined
| JsNull
| JsBoolean (b : bool)
| JsNum (n : JsNumber)
| JsString (s : jsstring)
| JsObject.

(** [Math.round]: the nearest integer, halves towards plus infinity. *)
Definition Math_round (q : Q) : Z := Qfloor (q + (1 # 2)).

(** White space and line terminators stripped by [String.prototype.trim]. *)
Definition is_trim_space (c : char16) : bool :=
  ((9 <=? c) && (c <=? 13) || (c =? 32) || (c =? 160) || (c =? 5760)
   || (8192 <=? c) && (c <=? 8202) || (c =? 8232) || (c =? 8233)
   || (c =? 8239) || (c =? 8287) || (c =? 12288) || (c =? 65279))%N.

Fixpoint trimStart (s : jsstring) : jsstring :=
  match s with
  | [] => []
  | c :: rest => if is_trim_space c then trimStart rest else s
  end.

Definition trimEnd (s : jsstring) : jsstring := rev (trimStart (rev s)).

Definition trim (s : jsstring) : jsstring := trimEnd (trimStart s).

(** [s.length]. *)
Definition js_length (s : jsstring) : Z := Z.of_nat (length s).

(** [s.substring(0, n)]. *)
Definition substring0 (n : Z) (s : jsstring) : jsstring := take (Z.to_nat n) s.

(** Lexicographic comparison of two texts, unit by unit. *)
Fixpoint text_compare (a b : jsstring) : comparison :=
  match a, b with
  | [], [] => Eq
  | [], _ :: _ => Lt
  | _ :: _, [] => Gt
  | x :: a', y :: b' =>
      match N.compare x y with
      | Eq => text_compare a' b'
      | c => c
      end
  end.

Definition text_leb (a b : jsstring) : bool :=
  match text_compare a b with Gt => false | _ => true end.

(* ===================================================================== *)
(** ** Wall clock                                                         *)
(* ===================================================================== *)

(** The wall clock: [wall k] is what the [k]-th call of [Date.now()]
    returns, [reads] how many calls were made so far. *)
Record Clock : Type := { wall : nat -> Z; reads : nat }.

(** Computations that may read the clock. *)
Definition IO (A : Type) : Type := Clock -> A * Clock.

Global Instance IO_ret : MRet IO := fun A a c => (a, c).

Global Instance IO_bind : MBind IO :=
  fun A B k m c => let '(a, c') := m c in k a c'.

Definition Date_now : IO Z :=
  fun c => (wall c (reads c), {| wall := wall c; reads := S (reads c) |}).

(* ===================================================================== *)
(** ** Stable sorting                                                     *)
(* ===================================================================== *)

(** A stable sort by a "not after" test: [leb x y = true] when [x] may stay
    in front of [y].  Both [Array.prototype.sort] with a comparator and the
    store's [ORDER BY] are sorts of this kind. *)
Section StableSort.
Context {A : Type} (leb : A -> A -> bool).

Fixpoint insert_sorted (x : A) (l : list A) : list A :=
  match l with
  | [] => [x]
  | y :: l' => if leb x y then x :: l else y :: insert_sorted x l'
  end.

Definition stable_sort (l : list A) : list A :=
  List.fold_right insert_sorted [] l.
End StableSort.

(* ===================================================================== *)
(** ** Core: pure functions and types (core.ts)                           *)
(* ===================================================================== *)

Inductive Priority : Type := P0 | P1 | P2.

(** The [status] column: the three texts the schema documents. *)
Inductive Status : Type := pending | synthesized | discarded.

Record BufferedThought : Type := {
  id : Z;
  agent_id : jsstring;
  channel : jsstring;
  target : jsstring;
  content : jsstring;
  priority : Priority;
  created_at : jsstring;
  status : Status
}.

Definition Priority_eqb (a b : Priority) : bool :=
  match a, b with
  | P0, P0 | P1, P1 | P2, P2 => true
  | _, _ => false
  end.

Definition Status_eqb (a b : Status) : bool :=
  match a, b with
  | pending, pending | synthesized, synthesized | discarded, discarded => true
  | _, _ => false
  end.

Definition jsstring_eqb (a b : jsstring) : bool :=
  match text_compare a b with Eq => true | _ => false end.

Module Core.

Record LatencySample : Type := { ts : Z; sample_latencyMs : Z }.

Record BufferStatus : Type := {
  buffering : bool;
  reason : jsstring;
  latencyMs : Q
}.

Record SystemState : Type := {
  globalForcedBuffering : bool;
  simulatedLatencyMs : Z;
  systemHalted : bool
}.

(** *** LatencyTracker *)

Record LatencyTracker : Type := {
  samples : list LatencySample;
  maxSamples : nat
}.

(** [new LatencyTracker(maxSamples)]; the capacity, a count of samples,
    is 100 when the argument is left out. *)
Definition new_LatencyTracker (maxSamples : nat) : LatencyTracker :=
  {| samples := []; maxSamples := maxSamples |}.

(** [this.samples.push(s); if (this.samples.length > this.maxSamples)
    this.samples.shift();] *)
Definition push_shift (s : LatencySample) (t : LatencyTracker) : LatencyTracker :=
  let pushed := samples t ++ [s] in
  {| samples := if (maxSamples t <? length pushed)%nat then tail pushed else pushed;
     maxSamples := maxSamples t |}.

Definition record (latency : Z) (t : LatencyTracker) : IO LatencyTracker :=
  let clamped := Z.max 0 latency in
  now ← Date_now;
  mret (push_shift {| ts := now; sample_latencyMs := clamped |} t).

(** A sequence of [record] calls, one after the other. *)
Fixpoint record_all (latencies : list Z) (t : LatencyTracker) : IO LatencyTracker :=
  match latencies with
  | [] => mret t
  | x :: rest =>
      t' ← record x t;
      record_all rest t'
  end.

Definition _injectSample (ts0 latency : Z) (t : LatencyTracker) : LatencyTracker :=
  push_shift {| ts := ts0; sample_latencyMs := Z.max 0 latency |} t.

Definition in_window (now windowMs : Z) (s : LatencySample) : bool :=
  (now - ts s <? windowMs)%Z.

Definition recent_samples (now windowMs : Z) (t : LatencyTracker) : list LatencySample :=
  List.filter (in_window now windowMs) (samples t).

Definition getAverage (windowMs fallback : Z) (t : LatencyTracker) : IO Q :=
  now ← Date_now;
  let recent := recent_samples now windowMs t in
  if (length recent =? 0)%nat then mret (inject_Z fallback)
  else
    mret (inject_Z (List.fold_left (fun sum s => sum + sample_latencyMs s)%Z recent 0%Z)
         / inject_Z (Z.of_nat (length recent)))%Q.

(** [Math.max(...xs)] for a non-empty argument list [x :: xs]. *)
Definition Math_max (x : Z) (xs : list Z) : Z := List.fold_left Z.max xs x.

Definition getMax (windowMs fallback : Z) (t : LatencyTracker) : IO Z :=
  now ← Date_now;
  match List.map sample_latencyMs (recent_samples now windowMs t) with
  | [] => mret fallback
  | x :: xs => mret (Math_max x xs)
  end.

Definition getSampleCount (t : LatencyTracker) : nat := length (samples t).

Definition clear (t : LatencyTracker) : LatencyTracker :=
  {| samples := []; maxSamples := maxSamples t |}.

(** *** Buffer logic *)

Definition shouldBuffer (tracker : LatencyTracker) (threshold : Z) (state : SystemState)
  : IO BufferStatus :=
  if systemHalted state then
    mret {| buffering := true; reason := lit "SYSTEM HALTED"; latencyMs := 0 |}
  else if globalForcedBuffering state then
    avg ← getAverage 60000 (simulatedLatencyMs state) tracker;
    mret {| buffering := true; reason := lit "manual override"; latencyMs := avg |}
  else if (threshold <? simulatedLatencyMs state)%Z then
    mret {| buffering := true;
           reason := lit "simulated " ++ Number_toString (simulatedLatencyMs state) ++ lit "ms";
           latencyMs := inject_Z (simulatedLatencyMs state) |}
  else
    maxLatency ← getMax 60000 (simulatedLatencyMs state) tracker;
    if (threshold <? maxLatency)%Z then
      mret {| buffering := true;
             reason := lit "latency " ++ Number_toString (Math_round (inject_Z maxLatency))
                       ++ lit "ms > " ++ Number_toString threshold ++ lit "ms";
             latencyMs := inject_Z maxLatency |}
    else
      avg ← getAverage 60000 (simulatedLatencyMs state) tracker;
      mret {| buffering := false; reason := lit "healthy"; latencyMs := avg |}.

(** *** Synthesis prompt *)

(** [content.replace(/c/g, by)] for a one-unit pattern [c]. *)
Definition replace_all (c : char16) (by_ : jsstring) (s : jsstring) : jsstring :=
  List.flat_map (fun x => if (x =? c)%N then by_ else [x]) s.

Definition escapeContent (content : jsstring) : jsstring :=
  replace_all LF [BACKSLASH; LETTER_n]
    (replace_all DQUOTE [BACKSLASH; DQUOTE]
      (replace_all BACKSLASH [BACKSLASH; BACKSLASH] content)).

(** [priorityOrder]: [{ P0: 0, P1: 1, P2: 2 }].  The [?? 1] default of the
    source is unreachable at the declared type ['P0' | 'P1' | 'P2']. *)
Definition priorityOrder (p : Priority) : Z :=
  match p with P0 => 0 | P1 => 1 | P2 => 2 end.

Definition tag_of (p : Priority) : jsstring :=
  match p with
  | P0 => lit " [CRITICAL]"
  | P2 => lit " [low]"
  | P1 => []
  end.

Definition is_P0 (t : BufferedThought) : bool := Priority_eqb (priority t) P0.

Definition NO_THOUGHTS : jsstring :=
  lit "**SYSTEM: No buffered thoughts to synthesize.**".

Section Synthesis.
(** [new Date(s).getTime()], a function of the JavaScript runtime:
    [None] stands for the [NaN] of an unparsable date. *)
Variable Date_getTime : jsstring -> option Z.

(** The comparator handed to [sort]; [None] is a [NaN] result. *)
Definition compareThoughts (a b : BufferedThought) : option Z :=
  let pDiff := (priorityOrder (priority a) - priorityOrder (priority b))%Z in
  if negb (pDiff =? 0)%Z then Some pDiff
  else
    match Date_getTime (created_at a), Date_getTime (created_at b) with
    | Some ta, Some tb => Some (ta - tb)%Z
    | _, _ => None
    end.

(** [sort] keeps [a] in front of [b] unless the comparator is positive;
    a [NaN] result counts as [+0]. *)
Definition notAfter (a b : BufferedThought) : bool :=
  match compareThoughts a b with
  | Some v => (v <=? 0)%Z
  | None => true
  end.

Definition formatThought (i : nat) (t : BufferedThought) : jsstring :=
  nat_toString (i + 1) ++ lit ". [" ++ created_at t ++ lit "]" ++ tag_of (priority t)
  ++ lit " " ++ [DQUOTE] ++ escapeContent (content t) ++ [DQUOTE].

Definition criticalNote (p0Count : nat) : jsstring :=
  if (0 <? p0Count)%nat then
    [LF; LF] ++ lit "**Note:** " ++ nat_toString p0Count ++ lit " CRITICAL thought(s) "
    ++ [EM_DASH] ++ lit " preserve unless clearly obsolete."
  else [].

(** The prompt for an array already sorted. *)
Definition renderPrompt (count : nat) (sorted : list BufferedThought) : jsstring :=
  let formatted := join [LF] (imap formatThought sorted) in
  let p0Count := length (List.filter is_P0 sorted) in
  lit "**SYSTEM: NETWORK RECOVERED**" ++ [LF; LF]
  ++ lit "While congested, you drafted " ++ nat_toString count ++ lit " messages:"
  ++ [LF; LF] ++ formatted ++ [LF] ++ criticalNote p0Count ++ [LF; LF]
  ++ lit "**TASK:** Review against current channel state." ++ [LF]
  ++ lit "- Discard obsolete/superseded thoughts" ++ [LF]
  ++ lit "- Synthesize remaining into ONE coherent message" ++ [LF]
  ++ lit "- Do not apologize or mention delays".

(** [generateSynthesisPrompt] on the value of its argument array. *)
Definition generateSynthesisPrompt (thoughts : list BufferedThought) : jsstring :=
  if (length thoughts =? 0)%nat then NO_THOUGHTS
  else
    let sorted := stable_sort notAfter thoughts in
    renderPrompt (length thoughts) sorted.
End Synthesis.

(** Reading an escaped segment back, as the specification words it: a
    backslash followed by a backslash, a double quote or the letter n
    stands for a backslash, a double quote or a newline. *)
Fixpoint unescape (s : jsstring) : jsstring :=
  match s with
  | [] => []
  | c :: rest =>
      if (c =? BACKSLASH)%N then
        match rest with
        | d :: rest' =>
            if (d =? BACKSLASH)%N then BACKSLASH :: unescape rest'
            else if (d =? DQUOTE)%N then DQUOTE :: unescape rest'
            else if (d =? LETTER_n)%N then LF :: unescape rest'
            else c :: d :: unescape rest'
        | [] => [c]
        end
      else c :: unescape rest
  end.

(** *** Validation *)

Definition validatePriority (p : JsValue) : Priority :=
  match p with
  | JsString s =>
      if decide (s = lit "P0") then P0
      else if decide (s = lit "P1") then P1
      else if decide (s = lit "P2") then P2
      else P1
  | _ => P1
  end.

Definition MAX_THOUGHT_LENGTH : Z := 50000.

Definition validateThought (thought : JsValue) : option jsstring :=
  match thought with
  | JsString s =>
      if (js_length (trim s) =? 0)%Z then None
      else if (MAX_THOUGHT_LENGTH <? js_length s)%Z
           then Some (substring0 MAX_THOUGHT_LENGTH s)
      else Some s
  | _ => None
  end.

Definition validateLatency (latency : JsValue) : Z :=
  match latency with
  | JsNum n =>
      match n with
      | Finite q => Z.max 0 (Math_round q)
      | _ => 0%Z
      end
  | _ => 0%Z
  end.

End Core.

(* ===================================================================== *)
(** ** Plugin: store helpers and globals (index.ts, v0.2.1)               *)
(* ===================================================================== *)

Module Plugin.

(** A row of [synthesis_events]; [final_output] is a nullable column. *)
Record SynthesisEvent : Type := {
  event_id : Z;
  event_agent_id : jsstring;
  thoughts_count : Z;
  final_output : option jsstring;
  triggered_at : jsstring
}.

(** The SQLite database: each table is the list of its rows in rowid
    order, with the AUTOINCREMENT sequence of the table beside it.  The
    [CHECK] on [priority] is carried by the type [Priority]. *)
Record Database : Type := {
  buffered_thoughts : list BufferedThought;
  buffered_thoughts_seq : Z;
  synthesis_events : list SynthesisEvent;
  synthesis_events_seq : Z
}.

Record Sample : Type := { ts : Z; latencyMs : Z }.

(** The module-level variables of the plugin. *)
Record Globals : Type := {
  db : option Database;
  globalForcedBuffering : bool;
  simulatedLatencyMs : Z;
  systemHalted : bool;
  samples : list Sample;
  maxSamples : nat
}.

Definition set_db (d : Database) (g : Globals) : Globals :=
  {| db := Some d;
     globalForcedBuffering := globalForcedBuffering g;
     simulatedLatencyMs := simulatedLatencyMs g;
     systemHalted := systemHalted g;
     samples := samples g;
     maxSamples := maxSamples g |}.

(** What a call leaves behind: a returned value or a thrown error. *)
Inductive Outcome (A : Type) : Type :=
| Returned (a : A)
| Threw (message : jsstring).
Arguments Returned {A} a.
Arguments Threw {A} message.

(** *** latencyTracker *)

Definition recent (now windowMs : Z) (g : Globals) : list Sample :=
  List.filter (fun s => (now - ts s <? windowMs)%Z) (samples g).

Definition getAverage (windowMs : Z) (g : Globals) : IO Q :=
  now ← Date_now;
  let recent := recent now windowMs g in
  if (length recent =? 0)%nat then mret (inject_Z (simulatedLatencyMs g))
  else
    mret (Qmax
           (inject_Z (List.fold_left (fun sum s => sum + latencyMs s)%Z recent 0%Z)
            / inject_Z (Z.of_nat (length recent)))
           (inject_Z (simulatedLatencyMs g))).

Definition getMax (windowMs : Z) (g : Globals) : IO Z :=
  now ← Date_now;
  let recent := recent now windowMs g in
  if (length recent =? 0)%nat then mret (simulatedLatencyMs g)
  else mret (List.fold_left Z.max (List.map latencyMs recent) (simulatedLatencyMs g)).

(** *** Store helpers *)

Definition priority_text (p : Priority) : jsstring :=
  match p with P0 => lit "P0" | P1 => lit "P1" | P2 => lit "P2" end.

Definition parse_priority (s : jsstring) : option Priority :=
  if decide (s = lit "P0") then Some P0
  else if decide (s = lit "P1") then Some P1
  else if decide (s = lit "P2") then Some P2
  else None.

(** [WHERE agent_id = ? AND status = 'pending']. *)
Definition is_pending_of (agentId : jsstring) (r : BufferedThought) : bool :=
  jsstring_eqb (agent_id r) agentId && Status_eqb (status r) pending.

(** [ORDER BY priority ASC, created_at ASC], both columns compared as
    text. *)
Definition order_by (a b : BufferedThought) : bool :=
  match text_compare (priority_text (priority a)) (priority_text (priority b)) with
  | Lt => true
  | Gt => false
  | Eq => text_leb (created_at a) (created_at b)
  end.

Definition select_pending (agentId : jsstring) (d : Database) : list BufferedThought :=
  stable_sort order_by (List.filter (is_pending_of agentId) (buffered_thoughts d)).

Definition getPendingThoughts (g : Globals) (agentId : jsstring) : list BufferedThought :=
  match db g with
  | None => []
  | Some d => select_pending agentId d
  end.

Section Store.
(** SQLite's [datetime('now')]: the text of a wall-clock reading. *)
Variable datetime : Z -> jsstring.

Definition CHECK_FAILED : jsstring := lit "CHECK constraint failed: buffered_thoughts".

Definition insertThought (g : Globals)
    (agentId channel0 target0 content0 priority0 : jsstring)
  : IO (Outcome Z * Globals) :=
  match db g with
  | None => mret (Returned (-1)%Z, g)
  | Some d =>
      let priority1 := if (length priority0 =? 0)%nat then lit "P1" else priority0 in
      match parse_priority priority1 with
      | None => mret (Threw CHECK_FAILED, g)
      | Some p =>
          now ← Date_now;
          let rowid := (buffered_thoughts_seq d + 1)%Z in
          let row := {| id := rowid; agent_id := agentId; channel := channel0;
                        target := target0; content := content0; priority := p;
                        created_at := datetime now; status := pending |} in
          mret (Returned rowid,
               set_db {| buffered_thoughts := buffered_thoughts d ++ [row];
                         buffered_thoughts_seq := rowid;
                         synthesis_events := synthesis_events d;
                         synthesis_events_seq := synthesis_events_seq d |} g)
      end
  end.

Definition set_status (st : Status) (r : BufferedThought) : BufferedThought :=
  {| id := id r; agent_id := agent_id r; channel := channel r; target := target r;
     content := content r; priority := priority r; created_at := created_at r;
     status := st |}.

(** [UPDATE buffered_thoughts SET status = 'synthesized' WHERE id IN (ids)]. *)
Definition update_synthesized (ids : list Z) (rows : list BufferedThought)
  : list BufferedThought :=
  List.map (fun r => if bool_decide (id r ∈ ids) then set_status synthesized r else r) rows.

(** [output || null]. *)
Definition or_null (output : option jsstring) : option jsstring :=
  match output with
  | Some [] => None
  | Some s => Some s
  | None => None
  end.

Definition markSynthesized (g : Globals) (agentId : jsstring) (output : option jsstring)
  : IO Globals :=
  match db g with
  | None => mret g
  | Some d =>
      let thoughts := getPendingThoughts g agentId in
      if (length thoughts =? 0)%nat then mret g
      else
        let ids := List.map id thoughts in
        let rows := update_synthesized ids (buffered_thoughts d) in
        now ← Date_now;
        let rowid := (synthesis_events_seq d + 1)%Z in
        let event := {| event_id := rowid; event_agent_id := agentId;
                        thoughts_count := Z.of_nat (length ids);
                        final_output := or_null output;
                        triggered_at := datetime now |} in
        mret (set_db {| buffered_thoughts := rows;
                       buffered_thoughts_seq := buffered_thoughts_seq d;
                       synthesis_events := synthesis_events d ++ [event];
                       synthesis_events_seq := rowid |} g)
  end.
End Store.

(** *** Decision and prompt *)

Definition shouldBuffer (g : Globals) (threshold : Z) : IO Core.BufferStatus :=
  if systemHalted g then
    mret {| Core.buffering := true; Core.reason := lit "SYSTEM HALTED"; Core.latencyMs := 0 |}
  else if globalForcedBuffering g then
    avg ← getAverage 60000 g;
    mret {| Core.buffering := true; Core.reason := lit "manual override";
           Core.latencyMs := avg |}
  else if (threshold <? simulatedLatencyMs g)%Z then
    mret {| Core.buffering := true;
           Core.reason := lit "simulated " ++ Number_toString (simulatedLatencyMs g) ++ lit "ms";
           Core.latencyMs := inject_Z (simulatedLatencyMs g) |}
  else
    maxLatency ← getMax 60000 g;
    if (threshold <? maxLatency)%Z then
      mret {| Core.buffering := true;
             Core.reason := lit "latency "
                            ++ Number_toString (Math_round (inject_Z maxLatency))
                            ++ lit "ms > " ++ Number_toString threshold ++ lit "ms";
             Core.latencyMs := inject_Z maxLatency |}
    else
      avg ← getAverage 60000 g;
      mret {| Core.buffering := false; Core.reason := lit "healthy"; Core.latencyMs := avg |}.

(** The plugin's own copy of the prompt builder. *)
Definition formatThought (i : nat) (t : BufferedThought) : jsstring :=
  nat_toString (i + 1) ++ lit ". [" ++ created_at t ++ lit "]" ++ Core.tag_of (priority t)
  ++ lit " " ++ [DQUOTE] ++ content t ++ [DQUOTE].

Definition generateSynthesisPrompt (thoughts : list BufferedThought) : jsstring :=
  let formatted := join [LF] (imap formatThought thoughts) in
  lit "**SYSTEM: NETWORK RECOVERED**" ++ [LF; LF]
  ++ lit "While congested, you drafted " ++ nat_toString (length thoughts) ++ lit " messages:"
  ++ [LF; LF] ++ formatted ++ [LF; LF]
  ++ lit "**TASK:** Review against current channel state." ++ [LF]
  ++ lit "- Discard obsolete/superseded thoughts" ++ [LF]
  ++ lit "- Synthesize remaining into ONE coherent message" ++ [LF]
  ++ lit "- Do not apologize or mention delays".

(** One turn of the loop of the [/flush] handler. *)
Definition flushAgent (datetime : Z -> jsstring) (g : Globals) (agentId : jsstring)
  : IO (option jsstring * Globals) :=
  let thoughts := getPendingThoughts g agentId in
  if (length thoughts =? 0)%nat then mret (None, g)
  else
    let prompt := generateSynthesisPrompt thoughts in
    g' ← markSynthesized datetime g agentId (Some prompt);
    mret (Some (lit "### " ++ agentId ++ lit " (" ++ nat_toString (length thoughts)
                ++ lit " thoughts)" ++ [LF; LF] ++ prompt), g').

(** *** The rest of the plugin: tracker, queries, tools and commands *)

(** [latencyTracker.record]: the plugin's own tracker stores the latency as
    it is given. *)
Definition record (latency : Z) (g : Globals) : IO Globals :=
  now ← Date_now;
  let pushed := samples g ++ [{| ts := now; latencyMs := latency |}] in
  mret {| db := db g;
          globalForcedBuffering := globalForcedBuffering g;
          simulatedLatencyMs := simulatedLatencyMs g;
          systemHalted := systemHalted g;
          samples := if (maxSamples g <? length pushed)%nat then tail pushed else pushed;
          maxSamples := maxSamples g |}.

(** [SELECT DISTINCT]: every value once, at its first occurrence. *)
Fixpoint distinct (l : list jsstring) : list jsstring :=
  match l with
  | [] => []
  | x :: rest => x :: List.filter (fun y => negb (jsstring_eqb y x)) (distinct rest)
  end.

Definition is_pending (r : BufferedThought) : bool := Status_eqb (status r) pending.

Definition getAllPendingAgents (g : Globals) : list jsstring :=
  match db g with
  | None => []
  | Some d => distinct (List.map agent_id (List.filter is_pending (buffered_thoughts d)))
  end.

(** [getPendingCount(agentId?)]: an absent or empty [agentId] counts the
    pending rows of all agents. *)
Definition getPendingCount (g : Globals) (agentId : option jsstring) : Z :=
  match db g with
  | None => 0
  | Some d =>
      match agentId with
      | None => Z.of_nat (length (List.filter is_pending (buffered_thoughts d)))
      | Some a =>
          if (length a =? 0)%nat
          then Z.of_nat (length (List.filter is_pending (buffered_thoughts d)))
          else Z.of_nat (length (List.filter (is_pending_of a) (buffered_thoughts d)))
      end
  end.

(** [x || fallback] for an optional string. *)
Definition or_default (x : option jsstring) (fallback : jsstring) : jsstring :=
  match x with
  | None => fallback
  | Some [] => fallback
  | Some s => s
  end.

(** The object that the [buffer_thought] tool serializes as its answer. *)
Record BufferAnswer : Type := {
  ok : bool;
  buffered : bool;
  answer_id : Z;
  answer_pending : Z;
  hint : jsstring
}.

(** The [execute] function of the [buffer_thought] tool; [maxBuffer] is the
    configured [maxBufferSize]. *)
Definition buffer_thought (datetime : Z -> jsstring) (maxBuffer : Z) (g : Globals)
    (thought0 : jsstring) (channel0 target0 priority0 : option jsstring)
  : IO (Outcome BufferAnswer * Globals) :=
  let agentId := lit "main" in
  inserted ← insertThought datetime g agentId (or_default channel0 (lit "unknown"))
                (or_default target0 []) thought0 (or_default priority0 (lit "P1"));
  match inserted with
  | (Threw e, g') => mret (Threw e, g')
  | (Returned rowid, g') =>
      let count := getPendingCount g' (Some agentId) in
      let warning :=
        if (maxBuffer <=? count)%Z
        then lit " Buffer at capacity (" ++ Number_toString maxBuffer ++ lit ")."
        else [] in
      mret (Returned {| ok := true; buffered := true; answer_id := rowid;
                        answer_pending := count;
                        hint := lit "Thought buffered. Do not retry." ++ warning |}, g')
  end.

(** The loop of the [/flush] handler over the agents chosen before it. *)
Fixpoint flushLoop (datetime : Z -> jsstring) (agents : list jsstring) (g : Globals)
    (results : list jsstring) : IO (list jsstring * Globals) :=
  match agents with
  | [] => mret (results, g)
  | agentId :: rest =>
      turn ← flushAgent datetime g agentId;
      match turn with
      | (Some block, g') => flushLoop datetime rest g' (results ++ [block])
      | (None, g') => flushLoop datetime rest g' results
      end
  end.

Definition NO_PENDING : jsstring := [55357%N; 56557%N] ++ lit " No pending thoughts.".

Definition SYNTHESIS_HEADER : jsstring :=
  [55357%N; 56580%N] ++ lit " **SYNTHESIS**" ++ [LF; LF].

(** The [/flush] handler; [flushAll] tells whether its argument, trimmed and
    in lower case, is the word all. *)
Definition flushHandler (datetime : Z -> jsstring) (flushAll : bool) (g : Globals)
  : IO (jsstring * Globals) :=
  let agents := if flushAll then getAllPendingAgents g else [lit "main"] in
  if (length agents =? 0)%nat || (getPendingCount g None =? 0)%Z then mret (NO_PENDING, g)
  else
    done ← flushLoop datetime agents g [];
    mret (SYNTHESIS_HEADER ++ join ([LF; LF] ++ lit "---" ++ [LF; LF]) (fst done), snd done).

(** [parseInt(s, 10)]: leading white space, an optional sign, then the
    longest run of decimal digits; [None] is [NaN]. *)
Definition is_digit (c : char16) : bool := ((48 <=? c) && (c <=? 57))%N.

Fixpoint leading_digits (s : jsstring) : jsstring :=
  match s with
  | c :: rest => if is_digit c then c :: leading_digits rest else []
  | [] => []
  end.

Definition digits_value (ds : jsstring) : Z :=
  List.fold_left (fun acc d => acc * 10 + (Z.of_N d - 48))%Z ds 0%Z.

Definition parseInt10 (s : jsstring) : option Z :=
  let body := trimStart s in
  let signed :=
    match body with
    | c :: rest =>
        if (c =? 45)%N then (true, rest)
        else if (c =? 43)%N then (false, rest)
        else (false, body)
    | [] => (false, body)
    end in
  match leading_digits (snd signed) with
  | [] => None
  | ds => Some (if fst signed then - digits_value ds else digits_value ds)%Z
  end.

Definition set_overrides (forced : bool) (simulated : Z) (halted : bool) (g : Globals)
  : Globals :=
  {| db := db g;
     globalForcedBuffering := forced;
     simulatedLatencyMs := simulated;
     systemHalted := halted;
     samples := samples g;
     maxSamples := maxSamples g |}.

Definition PAUSE : jsstring := [9208%N; 65039%N].
Definition PLAY : jsstring := [9654%N; 65039%N].
Definition SIREN : jsstring := [55357%N; 57000%N].
Definition TEST_TUBE : jsstring := [55358%N; 56810%N].
Definition CHART : jsstring := [55357%N; 56522%N].
Definition BULLET : char16 := 8226%N.
Definition BACKTICK : char16 := 96%N.


(** The mode line of the status report. *)
Definition mode_text (g : Globals) (status : Core.BufferStatus) : jsstring :=
  if systemHalted g then SIREN ++ lit " HALTED"
  else if Core.buffering status then PAUSE ++ lit " BUFFERING"
  else PLAY ++ lit " NORMAL".

(** The status report of [/buffer] without a subcommand. *)
Definition statusReport (g : Globals) (threshold : Z) : IO jsstring :=
  status ← shouldBuffer g threshold;
  let agents := getAllPendingAgents g in
  let agentLines :=
    List.map (fun a => lit "  " ++ [BULLET] ++ lit " **" ++ a ++ lit "**: "
                       ++ Number_toString (getPendingCount g (Some a)) ++ lit " thoughts")
             agents in
  avg ← getAverage 60000 g;
  max ← getMax 60000 g;
  mret (CHART ++ lit " **Antibeaver Status**" ++ [LF; LF]
        ++ lit "**Mode:** " ++ mode_text g status ++ [LF]
        ++ lit "**Reason:** " ++ Core.reason status ++ [LF; LF]
        ++ lit "**Queue Health:**" ++ [LF]
        ++ lit "  " ++ [BULLET] ++ lit " Avg: " ++ Number_toString (Math_round avg) ++ lit "ms" ++ [LF]
        ++ lit "  " ++ [BULLET] ++ lit " Max: " ++ Number_toString (Math_round (inject_Z max))
        ++ lit "ms" ++ [LF]
        ++ lit "  " ++ [BULLET] ++ lit " Threshold: " ++ Number_toString threshold ++ lit "ms"
        ++ [LF; LF]
        ++ lit "**Pending (" ++ Number_toString (getPendingCount g None) ++ lit " total):**" ++ [LF]
        ++ (if (0 <? length agentLines)%nat then join [LF] agentLines else lit "  (none)")
        ++ [LF; LF]
        ++ lit "**Commands:** " ++ [BACKTICK] ++ lit "/buffer on|off" ++ [BACKTICK] ++ lit ", "
        ++ [BACKTICK] ++ lit "/buffer simulate <ms>" ++ [BACKTICK] ++ lit ", "
        ++ [BACKTICK] ++ lit "/flush" ++ [BACKTICK] ++ lit ", "
        ++ [BACKTICK] ++ lit "/halt" ++ [BACKTICK]).

(** The [/buffer] handler on the words of its argument (trimmed, in lower
    case, split at white space).  [None] is the one case that leaves the
    integers: [simulate] with an argument that [parseInt] reads as [NaN]. *)
Definition bufferHandler (threshold : Z) (args : list jsstring) (g : Globals)
  : IO (option (jsstring * Globals)) :=
  let cmd := List.hd [] args in
  if decide (cmd = lit "on") then
    mret (Some (PAUSE ++ lit " **Buffering ENABLED**" ++ [LF; LF]
                ++ lit "All agents will buffer until " ++ [BACKTICK] ++ lit "/buffer off"
                ++ [BACKTICK] ++ lit ".",
                set_overrides true (simulatedLatencyMs g) false g))
  else if decide (cmd = lit "off") then
    mret (Some (PLAY ++ lit " **Buffering DISABLED**" ++ [LF; LF]
                ++ lit "Resumed automatic mode.",
                set_overrides false 0 false g))
  else if decide (cmd = lit "simulate") then
    match parseInt10 (or_default (List.nth_error args 1) (lit "0")) with
    | None => mret None
    | Some ms =>
        let simulated := Z.max 0 ms in
        let g' := set_overrides (globalForcedBuffering g) simulated false g in
        if (0 <? simulated)%Z then
          mret (Some (TEST_TUBE ++ lit " **Simulating " ++ Number_toString simulated
                      ++ lit "ms latency**", g'))
        else mret (Some (TEST_TUBE ++ lit " **Simulation off**", g'))
    end
  else
    report ← statusReport g threshold;
    mret (Some (report, g)).



End Plugin.

(* ===================================================================== *)
(** ** Thought Buffer: the plugin before the rewrite (index.ts, v0.2.0)   *)
(* ===================================================================== *)

Module ThoughtBuffer.

(** The column [priority] under its [CHECK]. *)
Inductive Level : Type := low | normal | high.

Record Thought : Type := {
  id : Z;
  agent_id : jsstring;
  channel : jsstring;
  target : jsstring;
  content : jsstring;
  priority : Level;
  created_at : jsstring;
  synthesized_at : option jsstring;
  discarded : Z;
  metadata : option jsstring
}.

Record LogRow : Type := {
  log_id : Z;
  log_agent_id : jsstring;
  triggered_at : jsstring;
  thought_count : Z;
  result : jsstring;
  output_content : option jsstring
}.

(** The tables [buffered_thoughts] and [synthesis_log], each with its
    AUTOINCREMENT sequence. *)
Record Database : Type := {
  buffered_thoughts : list Thought;
  buffered_thoughts_seq : Z;
  synthesis_log : list LogRow;
  synthesis_log_seq : Z
}.

Record Sample : Type := { ts : Z; latencyMs : Z; sample_channel : option jsstring }.

Record Globals : Type := {
  db : option Database;
  globalForcedBuffering : bool;
  simulatedLatencyMs : Z;
  samples : list Sample;
  maxSamples : nat
}.

Definition set_db (d : Database) (g : Globals) : Globals :=
  {| db := Some d;
     globalForcedBuffering := globalForcedBuffering g;
     simulatedLatencyMs := simulatedLatencyMs g;
     samples := samples g;
     maxSamples := maxSamples g |}.

(** *** latencyTracker *)

Definition record (latency : Z) (channel0 : option jsstring) (g : Globals) : IO Globals :=
  now ← Date_now;
  let pushed := samples g ++ [{| ts := now; latencyMs := latency; sample_channel := channel0 |}] in
  mret {| db := db g;
          globalForcedBuffering := globalForcedBuffering g;
          simulatedLatencyMs := simulatedLatencyMs g;
          samples := if (maxSamples g <? length pushed)%nat then tail pushed else pushed;
          maxSamples := maxSamples g |}.

(** [if (channel) recent = recent.filter(s => s.channel === channel)]. *)
Definition of_channel (channel0 : option jsstring) (l : list Sample) : list Sample :=
  match channel0 with
  | None => l
  | Some [] => l
  | Some ch => List.filter (fun s => bool_decide (sample_channel s = Some ch)) l
  end.

Definition recent (now windowMs : Z) (channel0 : option jsstring) (g : Globals)
  : list Sample :=
  of_channel channel0 (List.filter (fun s => (now - ts s <? windowMs)%Z) (samples g)).

Definition getAverage (windowMs : Z) (channel0 : option jsstring) (g : Globals) : IO Q :=
  now ← Date_now;
  let recent := recent now windowMs channel0 g in
  if (length recent =? 0)%nat then mret (inject_Z (simulatedLatencyMs g))
  else
    mret (Qmax
           (inject_Z (List.fold_left (fun sum s => sum + latencyMs s)%Z recent 0%Z)
            / inject_Z (Z.of_nat (length recent)))
           (inject_Z (simulatedLatencyMs g))).

Definition getMax (windowMs : Z) (channel0 : option jsstring) (g : Globals) : IO Z :=
  now ← Date_now;
  let recent := recent now windowMs channel0 g in
  if (length recent =? 0)%nat then mret (simulatedLatencyMs g)
  else mret (List.fold_left Z.max (List.map latencyMs recent) (simulatedLatencyMs g)).

(** *** Store helpers *)

Definition parse_level (s : jsstring) : option Level :=
  if decide (s = lit "low") then Some low
  else if decide (s = lit "normal") then Some normal
  else if decide (s = lit "high") then Some high
  else None.

(** [synthesized_at IS NULL AND discarded = 0]. *)
Definition is_pending (r : Thought) : bool :=
  match synthesized_at r with
  | None => (discarded r =? 0)%Z
  | Some _ => false
  end.

Definition is_pending_of (agentId : jsstring) (r : Thought) : bool :=
  jsstring_eqb (agent_id r) agentId && is_pending r.

(** [ORDER BY created_at ASC], the column compared as text. *)
Definition order_by (a b : Thought) : bool := text_leb (created_at a) (created_at b).

Definition select_pending (agentId : jsstring) (d : Database) : list Thought :=
  stable_sort order_by (List.filter (is_pending_of agentId) (buffered_thoughts d)).

Definition getPendingThoughts (g : Globals) (agentId : jsstring) : list Thought :=
  match db g with
  | None => []
  | Some d => select_pending agentId d
  end.

Definition getAllPendingAgents (g : Globals) : list jsstring :=
  match db g with
  | None => []
  | Some d =>
      Plugin.distinct (List.map agent_id (List.filter is_pending (buffered_thoughts d)))
  end.

Definition getPendingCount (g : Globals) (agentId : option jsstring) : Z :=
  match db g with
  | None => 0
  | Some d =>
      match agentId with
      | None => Z.of_nat (length (List.filter is_pending (buffered_thoughts d)))
      | Some a =>
          if (length a =? 0)%nat
          then Z.of_nat (length (List.filter is_pending (buffered_thoughts d)))
          else Z.of_nat (length (List.filter (is_pending_of a) (buffered_thoughts d)))
      end
  end.

Section Store.
(** SQLite's [datetime('now')]: the text of a wall-clock reading. *)
Variable datetime : Z -> jsstring.

Definition LOG_CHECK_FAILED : jsstring := lit "CHECK constraint failed: synthesis_log".

(** [metadata0] is the JSON text of the metadata, when some is given. *)
Definition insertThought (g : Globals)
    (agentId channel0 target0 content0 priority0 : jsstring) (metadata0 : option jsstring)
  : IO (Plugin.Outcome Z * Globals) :=
  match db g with
  | None => mret (Plugin.Returned (-1)%Z, g)
  | Some d =>
      let priority1 := if (length priority0 =? 0)%nat then lit "normal" else priority0 in
      match parse_level priority1 with
      | None => mret (Plugin.Threw Plugin.CHECK_FAILED, g)
      | Some p =>
          now ← Date_now;
          let rowid := (buffered_thoughts_seq d + 1)%Z in
          let row := {| id := rowid; agent_id := agentId; channel := channel0;
                        target := target0; content := content0; priority := p;
                        created_at := datetime now; synthesized_at := None;
                        discarded := 0; metadata := metadata0 |} in
          mret (Plugin.Returned rowid,
               set_db {| buffered_thoughts := buffered_thoughts d ++ [row];
                         buffered_thoughts_seq := rowid;
                         synthesis_log := synthesis_log d;
                         synthesis_log_seq := synthesis_log_seq d |} g)
      end
  end.

Definition set_synthesized_at (stamp : jsstring) (r : Thought) : Thought :=
  {| id := id r; agent_id := agent_id r; channel := channel r; target := target r;
     content := content r; priority := priority r; created_at := created_at r;
     synthesized_at := Some stamp; discarded := discarded r; metadata := metadata r |}.

(** [UPDATE buffered_thoughts SET synthesized_at = datetime('now')
    WHERE id IN (ids)]. *)
Definition update_synthesized (ids : list Z) (stamp : jsstring) (rows : list Thought)
  : list Thought :=
  List.map (fun r => if bool_decide (id r ∈ ids) then set_synthesized_at stamp r else r) rows.

(** The [CHECK] on the column [result] of the log. *)
Definition accepted_result (s : jsstring) : bool :=
  bool_decide (s ∈ [lit "sent"; lit "discarded"; lit "partial"; lit "pending"]).

(** The two statements run one after the other, each committed on its own:
    when the second one fails its [CHECK], the first one stays. *)
Definition markSynthesized (g : Globals) (agentId result0 : jsstring)
    (output : option jsstring) : IO (Plugin.Outcome unit * Globals) :=
  match db g with
  | None => mret (Plugin.Returned tt, g)
  | Some d =>
      let thoughts := getPendingThoughts g agentId in
      let thoughtIds := List.map id thoughts in
      if (length thoughtIds =? 0)%nat then mret (Plugin.Returned tt, g)
      else
        now ← Date_now;
        let rows := update_synthesized thoughtIds (datetime now) (buffered_thoughts d) in
        if accepted_result result0 then
          logged ← Date_now;
          let rowid := (synthesis_log_seq d + 1)%Z in
          let row := {| log_id := rowid; log_agent_id := agentId;
                        triggered_at := datetime logged;
                        thought_count := Z.of_nat (length thoughtIds);
                        result := result0;
                        output_content := Plugin.or_null output |} in
          mret (Plugin.Returned tt,
               set_db {| buffered_thoughts := rows;
                         buffered_thoughts_seq := buffered_thoughts_seq d;
                         synthesis_log := synthesis_log d ++ [row];
                         synthesis_log_seq := rowid |} g)
        else
          mret (Plugin.Threw LOG_CHECK_FAILED,
               set_db {| buffered_thoughts := rows;
                         buffered_thoughts_seq := buffered_thoughts_seq d;
                         synthesis_log := synthesis_log d;
                         synthesis_log_seq := synthesis_log_seq d |} g)
  end.
End Store.

(** *** Decision *)

Definition shouldBuffer (g : Globals) (latencyThreshold : Z) : IO Core.BufferStatus :=
  avgLatency ← getAverage 60000 None g;
  maxLatency ← getMax 60000 None g;
  if globalForcedBuffering g then
    mret {| Core.buffering := true; Core.reason := lit "manual override (/buffer on)";
           Core.latencyMs := avgLatency |}
  else if (latencyThreshold <? simulatedLatencyMs g)%Z then
    mret {| Core.buffering := true;
           Core.reason := lit "simulated latency " ++ Number_toString (simulatedLatencyMs g)
                          ++ lit "ms";
           Core.latencyMs := inject_Z (simulatedLatencyMs g) |}
  else if (latencyThreshold <? maxLatency)%Z then
    mret {| Core.buffering := true;
           Core.reason := lit "latency " ++ Number_toString (Math_round (inject_Z maxLatency))
                          ++ lit "ms > " ++ Number_toString latencyThreshold
                          ++ lit "ms threshold";
           Core.latencyMs := inject_Z maxLatency |}
  else
    mret {| Core.buffering := false; Core.reason := lit "queue healthy";
           Core.latencyMs := avgLatency |}.


(** *** Priorities *)

(** [const priorityOrder = { high: 0, normal: 1, low: 2 }], the ranks by
    which the prompt builder of this version sorts. *)
Definition priorityOrder (p : Level) : Z :=
  match p with high => 0 | normal => 1 | low => 2 end.

End ThoughtBuffer.

(* ===================================================================== *)
(** ** The synthesizer on the object heap                                 *)
(* ===================================================================== *)

(** [generateSynthesisPrompt] receives a reference to an array of references
    to thought objects.  Here the arrays and the objects live in a heap, so
    that the in-place [sort] and the sharing of the elements between the
    argument and its copy are explicit.  The arrays that [map] and [filter]
    build from the sorted copy are new and never leave the call; their
    contents are rendered on values by [Core.renderPrompt]. *)
Module Heap.

Definition ref : Type := positive.

Record heap : Type := {
  arrays : gmap ref (list ref);
  objects : gmap ref BufferedThought
}.

(** Heap computations; [None] is a dangling reference, which a well-typed
    caller never supplies. *)
Definition M (A : Type) : Type := heap -> option (A * heap).

Global Instance M_ret : MRet M := fun A a h => Some (a, h).

Global Instance M_bind : MBind M :=
  fun A B k m h =>
    match m h with
    | Some (a, h') => k a h'
    | None => None
    end.

Definition read_array (a : ref) : M (list ref) :=
  fun h => match arrays h !! a with Some l => Some (l, h) | None => None end.

Definition read_object (r : ref) : M BufferedThought :=
  fun h => match objects h !! r with Some o => Some (o, h) | None => None end.

Definition write_array (a : ref) (l : list ref) : M unit :=
  fun h => Some (tt, {| arrays := <[a := l]> (arrays h); objects := objects h |}).

(** Allocation of a new array at a location not in use. *)
Definition new_array (l : list ref) : M ref :=
  fun h =>
    let a := fresh (dom (arrays h)) in
    Some (a, {| arrays := <[a := l]> (arrays h); objects := objects h |}).

Fixpoint read_objects (rs : list ref) : M (list BufferedThought) :=
  match rs with
  | [] => mret []
  | r :: rs' =>
      o ← read_object r;
      os ← read_objects rs';
      mret (o :: os)
  end.

(** [[...a]]: a new array with the same element references. *)
Definition spread (a : ref) : M ref :=
  l ← read_array a;
  new_array l.

(** [a.sort(cmp)]: sorts the array at [a] in place and returns [a]. *)
Definition Array_sort (notAfter : BufferedThought -> BufferedThought -> bool) (a : ref)
  : M ref :=
  l ← read_array a;
  os ← read_objects l;
  let sorted := stable_sort (fun x y => notAfter (snd x) (snd y)) (combine l os) in
  _ ← write_array a (List.map fst sorted);
  mret a.

Section Synthesis.
Variable Date_getTime : jsstring -> option Z.

Definition generateSynthesisPrompt (thoughts : ref) : M jsstring :=
  input ← read_array thoughts;
  if (length input =? 0)%nat then mret Core.NO_THOUGHTS
  else
    copy ← spread thoughts;
    sorted ← Array_sort (Core.notAfter Date_getTime) copy;
    elems ← read_array sorted;
    os ← read_objects elems;
    mret (Core.renderPrompt (length input) os).

(** The same body with the copy left out: [thoughts.sort(...)]. *)
Definition generateSynthesisPrompt_in_place (thoughts : ref) : M jsstring :=
  input ← read_array thoughts;
  if (length input =? 0)%nat then mret Core.NO_THOUGHTS
  else
    sorted ← Array_sort (Core.notAfter Date_getTime) thoughts;
    elems ← read_array sorted;
    os ← read_objects elems;
    mret (Core.renderPrompt (length input) os).
End Synthesis.

(** Every element of the array at [a] refers to an object. *)
Definition well_formed (h : heap) (a : ref) : Prop :=
  exists l, arrays h !! a = Some l /\ Forall (fun r => is_Some (objects h !! r)) l.

(** The value of the array at [a]: the objects it refers to, in order. *)
Definition array_value (h : heap) (a : ref) : option (list BufferedThought) :=
  match arrays h !! a with
  | Some l => mapM (fun r => objects h !! r) l
  | None => None
  end.

End Heap.

(* ===================================================================== *)
(** ** Auxiliary definitions used in the statements                       *)
(* ===================================================================== *)

(** The status returned while the kill switch is on. *)
Definition HALTED_STATUS : Core.BufferStatus :=
  {| Core.buffering := true; Core.reason := lit "SYSTEM HALTED"; Core.latencyMs := 0 |}.

(** A clock that always shows the same instant. *)
Definition frozen_clock (now : Z) : Clock := {| wall := fun _ => now; reads := 0 |}.

(** A tracker holding the given latencies, all stamped [0]. *)
Definition tracker_of (latencies : list Z) : Core.LatencyTracker :=
  {| Core.samples := List.map (fun x => {| Core.ts := 0; Core.sample_latencyMs := x |}) latencies;
     Core.maxSamples := 100 |}.

Definition all_overrides_on : Core.SystemState :=
  {| Core.globalForcedBuffering := true;
     Core.simulatedLatencyMs := 99999;
     Core.systemHalted := true |}.

Definition no_override : Core.SystemState :=
  {| Core.globalForcedBuffering := false;
     Core.simulatedLatencyMs := 0;
     Core.systemHalted := false |}.

Definition halted_globals : Plugin.Globals :=
  {| Plugin.db := None;
     Plugin.globalForcedBuffering := true;
     Plugin.simulatedLatencyMs := 99999;
     Plugin.systemHalted := true;
     Plugin.samples := [ {| Plugin.ts := 0; Plugin.latencyMs := 99999 |} ];
     Plugin.maxSamples := 100 |}.

(** The clock after one more reading. *)
Definition tick (c : Clock) : Clock := {| wall := wall c; reads := S (reads c) |}.

(** The samples that a sequence of [record] calls starting at clock [c]
    produces, in call order: the [i]-th carries the [i]-th next reading of
    the clock and its latency clamped at 0. *)
Definition recorded (c : Clock) (latencies : list Z) : list Core.LatencySample :=
  imap (fun i x => {| Core.ts := wall c (reads c + i);
                      Core.sample_latencyMs := Z.max 0 x |}) latencies.

(** A clock that advances by 100 seconds between readings. *)
Definition slow_clock : Clock := {| wall := fun k => (Z.of_nat k * 100000)%Z; reads := 0 |}.

(** A thought of 50,001 letters. *)
Definition long_thought : jsstring := repeat 97%N (Z.to_nat 50001).

(** The escape of one code unit. *)
Definition escape_unit (u : char16) : jsstring :=
  if (u =? BACKSLASH)%N then [BACKSLASH; BACKSLASH]
  else if (u =? DQUOTE)%N then [BACKSLASH; DQUOTE]
  else if (u =? LF)%N then [BACKSLASH; LETTER_n]
  else [u].

(** [whole] contains [segment] as a run of consecutive units. *)
Definition embeds (segment whole : jsstring) : Prop :=
  exists pre post, whole = pre ++ segment ++ post.

(** A date parser for examples: the text is its own timestamp in decimal
    digits, anything else is not a date. *)
Fixpoint digits_value (acc : Z) (s : jsstring) : option Z :=
  match s with
  | [] => Some acc
  | d :: rest =>
      if ((48 <=? d) && (d <=? 57))%N
      then digits_value (acc * 10 + (Z.of_N d - 48))%Z rest
      else None
  end.

Definition toy_getTime (s : jsstring) : option Z :=
  match s with
  | [] => None
  | _ => digits_value 0 s
  end.

Definition thought (i : Z) (p : Priority) (at_ : jsstring) (text : jsstring) : BufferedThought :=
  {| id := i; agent_id := lit "main"; channel := lit "slack"; target := [];
     content := text; priority := p; created_at := at_; status := pending |}.

(** He said "hi"\ then a line break, then a beaver (U+1F9AB as a surrogate
    pair). *)
Definition tricky_content : jsstring :=
  lit "He said " ++ [DQUOTE] ++ lit "hi" ++ [DQUOTE; BACKSLASH; LF; 55358%N; 56747%N].

Definition tricky_thought : BufferedThought := thought 1 P1 (lit "100") tricky_content.

(** A small heap: the array at 1 refers to the objects at 10 (a low-priority
    thought) and 11 (a critical one), in that order. *)
Definition demo_heap : Heap.heap :=
  {| Heap.arrays := {[ 1%positive := [10%positive; 11%positive] ]};
     Heap.objects := {[ 10%positive := thought 1 P2 (lit "100") (lit "later");
                        11%positive := thought 2 P0 (lit "200") (lit "first") ]} |}.

Definition empty_array_heap : Heap.heap :=
  {| Heap.arrays := {[ 1%positive := [] ]}; Heap.objects := ∅ |}.

(** The order of [pending]: a more urgent priority first; within one
    priority, the earlier [created_at] text first. *)
Definition pending_order (a b : BufferedThought) : Prop :=
  (Core.priorityOrder (priority a) < Core.priorityOrder (priority b))%Z
  \/ (priority a = priority b /\ text_leb (created_at a) (created_at b) = true).

(** Rows that [ORDER BY] cannot tell apart. *)
Definition same_sort_key (k r : BufferedThought) : bool :=
  Priority_eqb (priority r) (priority k) && jsstring_eqb (created_at r) (created_at k).

(** Globals around a database, with no override and no samples. *)
Definition globals_of (d : Plugin.Database) : Plugin.Globals :=
  {| Plugin.db := Some d;
     Plugin.globalForcedBuffering := false;
     Plugin.simulatedLatencyMs := 0;
     Plugin.systemHalted := false;
     Plugin.samples := [];
     Plugin.maxSamples := 100 |}.

(** Three thoughts of agent "main" inserted with priorities P2, P0, P1, and
    one of another agent. *)
Definition demo_rows : list BufferedThought :=
  [ thought 1 P2 (lit "2026-02-07 12:00:00") (lit "low");
    thought 2 P0 (lit "2026-02-07 12:00:01") (lit "critical");
    {| id := 3; agent_id := lit "other"; channel := lit "slack"; target := [];
       content := lit "elsewhere"; priority := P0;
       created_at := lit "2026-02-07 12:00:01"; status := pending |};
    thought 4 P1 (lit "2026-02-07 12:00:02") (lit "normal") ].

Definition demo_db : Plugin.Database :=
  {| Plugin.buffered_thoughts := demo_rows;
     Plugin.buffered_thoughts_seq := 4;
     Plugin.synthesis_events := [];
     Plugin.synthesis_events_seq := 0 |}.

(** What [PRIMARY KEY AUTOINCREMENT] maintains: row ids are unique and none
    exceeds the sequence of the table. *)
Definition store_ok (d : Plugin.Database) : Prop :=
  NoDup (List.map id (Plugin.buffered_thoughts d))
  /\ Forall (fun r => (id r <= Plugin.buffered_thoughts_seq d)%Z) (Plugin.buffered_thoughts d).

(** The transition of [markSynthesized] on one row. *)
Definition synthesize_if_pending (agentId : jsstring) (r : BufferedThought) : BufferedThought :=
  if Plugin.is_pending_of agentId r then Plugin.set_status synthesized r else r.

Definition demo_datetime (now : Z) : jsstring := lit "t" ++ Number_toString now.

(** An operation on a tracker. *)
Inductive TrackerOp : Type :=
| OpRecord (latency : Z)
| OpInject (ts0 latency : Z)
| OpClear.

Definition apply_op (op : TrackerOp) (t : Core.LatencyTracker) : IO Core.LatencyTracker :=
  match op with
  | OpRecord x => Core.record x t
  | OpInject ts0 x => mret (Core._injectSample ts0 x t)
  | OpClear => mret (Core.clear t)
  end.

Fixpoint apply_ops (ops : list TrackerOp) (t : Core.LatencyTracker) : IO Core.LatencyTracker :=
  match ops with
  | [] => mret t
  | op :: rest =>
      t' ← apply_op op t;
      apply_ops rest t'
  end.

(** The core state and tracker that hold what the plugin's globals hold. *)
Definition state_of (g : Plugin.Globals) : Core.SystemState :=
  {| Core.globalForcedBuffering := Plugin.globalForcedBuffering g;
     Core.simulatedLatencyMs := Plugin.simulatedLatencyMs g;
     Core.systemHalted := Plugin.systemHalted g |}.

Definition tracker_view (g : Plugin.Globals) : Core.LatencyTracker :=
  {| Core.samples :=
       List.map (fun s => {| Core.ts := Plugin.ts s; Core.sample_latencyMs := Plugin.latencyMs s |})
                (Plugin.samples g);
     Core.maxSamples := Plugin.maxSamples g |}.

(** Reading a quoted segment: the units up to the first double quote that
    is not part of an escape, and what follows that quote; [None] when no
    such quote comes. *)
Fixpoint read_quoted (s : jsstring) : option (jsstring * jsstring) :=
  match s with
  | [] => None
  | c :: rest =>
      if (c =? BACKSLASH)%N then
        match rest with
        | d :: rest' =>
            match read_quoted rest' with
            | Some (segment, after) => Some (c :: d :: segment, after)
            | None => None
            end
        | [] => None
        end
      else if (c =? DQUOTE)%N then Some ([], rest)
      else
        match read_quoted rest with
        | Some (segment, after) => Some (c :: segment, after)
        | None => None
        end
  end.

(** A unit that [escapeContent] rewrites. *)
Definition needs_escape (u : char16) : bool :=
  ((u =? BACKSLASH) || (u =? DQUOTE) || (u =? LF))%N.

(** What every operation of the tracker keeps: the window is within
    capacity and holds no negative latency. *)
Definition tracker_ok (t : Core.LatencyTracker) : Prop :=
  length (Core.samples t) <= Core.maxSamples t
  /\ Forall (fun s => 0 <= Core.sample_latencyMs s)%Z (Core.samples t).

(** A tracker whose only sample, a spike of 99999 ms, was taken at instant 0. *)
Definition old_spike : Core.LatencyTracker := tracker_of [99999%Z].

(** Globals with samples and every override given. *)
Definition plugin_state (forced : bool) (simulated : Z) (halted : bool)
    (latencies : list Z) : Plugin.Globals :=
  {| Plugin.db := None;
     Plugin.globalForcedBuffering := forced;
     Plugin.simulatedLatencyMs := simulated;
     Plugin.systemHalted := halted;
     Plugin.samples := List.map (fun x => {| Plugin.ts := 0; Plugin.latencyMs := x |}) latencies;
     Plugin.maxSamples := 100 |}.

(** A sample of the plugin's tracker as a sample of the core tracker. *)
Definition as_core_sample (s : Plugin.Sample) : Core.LatencySample :=
  {| Core.ts := Plugin.ts s; Core.sample_latencyMs := Plugin.latencyMs s |}.

(** The order in which the prompt lists thoughts whose dates parse: a more
    urgent priority first; within one priority, the earlier instant first. *)
Definition prompt_order (getTime : jsstring -> option Z) (a b : BufferedThought) : Prop :=
  (Core.priorityOrder (priority a) < Core.priorityOrder (priority b))%Z
  \/ (priority a = priority b
      /\ exists ta tb, getTime (created_at a) = Some ta /\ getTime (created_at b) = Some tb
                       /\ (ta <= tb)%Z).

(** Thoughts that the comparator of the prompt cannot tell apart. *)
Definition same_prompt_key (getTime : jsstring -> option Z) (k t : BufferedThought) : bool :=
  Priority_eqb (priority t) (priority k)
  && bool_decide (getTime (created_at t) = getTime (created_at k)).

(** 50,000 spaces followed by one letter. *)
Definition padded_thought : jsstring := repeat 32%N (Z.to_nat 50000) ++ [97%N].

(** A call of [insertThought]. *)
Record InsertRequest : Type := {
  req_agent : jsstring;
  req_channel : jsstring;
  req_target : jsstring;
  req_content : jsstring;
  req_priority : jsstring
}.

(** A sequence of [insertThought] calls; the outcomes come in call order. *)
Fixpoint insert_all (datetime : Z -> jsstring) (requests : list InsertRequest)
    (g : Plugin.Globals) : IO (list (Plugin.Outcome Z) * Plugin.Globals) :=
  match requests with
  | [] => mret ([], g)
  | r :: rest =>
      first ← Plugin.insertThought datetime g (req_agent r) (req_channel r) (req_target r)
                (req_content r) (req_priority r);
      others ← insert_all datetime rest (snd first);
      mret (fst first :: fst others, snd others)
  end.

(** The row ids among the outcomes of a sequence of inserts. *)
Fixpoint returned_ids (outcomes : list (Plugin.Outcome Z)) : list Z :=
  match outcomes with
  | [] => []
  | Plugin.Returned i :: rest => i :: returned_ids rest
  | Plugin.Threw _ :: rest => returned_ids rest
  end.

(** The priority texts that the [CHECK] of the table lets through, an empty
    one standing for the default. *)
Definition accepted_priority (s : jsstring) : Prop :=
  s = [] \/ s = lit "P0" \/ s = lit "P1" \/ s = lit "P2".

(** The sum of a count over a list of agents. *)
Definition total_over (agents : list jsstring) (count : jsstring -> nat) : nat :=
  List.fold_right (fun a acc => count a + acc) 0 agents.



Section Requests.
Variables (datetime toISOString : Z -> jsstring) (threshold maxBuffer : Z).


End Requests.







(** The table of v0.2.0 with the priority of every row replaced. *)
Definition with_priority (f : ThoughtBuffer.Thought -> ThoughtBuffer.Level)
    (r : ThoughtBuffer.Thought) : ThoughtBuffer.Thought :=
  {| ThoughtBuffer.id := ThoughtBuffer.id r;
     ThoughtBuffer.agent_id := ThoughtBuffer.agent_id r;
     ThoughtBuffer.channel := ThoughtBuffer.channel r;
     ThoughtBuffer.target := ThoughtBuffer.target r;
     ThoughtBuffer.content := ThoughtBuffer.content r;
     ThoughtBuffer.priority := f r;
     ThoughtBuffer.created_at := ThoughtBuffer.created_at r;
     ThoughtBuffer.synthesized_at := ThoughtBuffer.synthesized_at r;
     ThoughtBuffer.discarded := ThoughtBuffer.discarded r;
     ThoughtBuffer.metadata := ThoughtBuffer.metadata r |}.

Definition relabelled (f : ThoughtBuffer.Thought -> ThoughtBuffer.Level)
    (d : ThoughtBuffer.Database) : ThoughtBuffer.Database :=
  {| ThoughtBuffer.buffered_thoughts :=
       List.map (with_priority f) (ThoughtBuffer.buffered_thoughts d);
     ThoughtBuffer.buffered_thoughts_seq := ThoughtBuffer.buffered_thoughts_seq d;
     ThoughtBuffer.synthesis_log := ThoughtBuffer.synthesis_log d;
     ThoughtBuffer.synthesis_log_seq := ThoughtBuffer.synthesis_log_seq d |}.

(** The transition of v0.2.0's [markSynthesized] on one row. *)
Definition stamp_if_pending (agentId stamp : jsstring) (r : ThoughtBuffer.Thought)
  : ThoughtBuffer.Thought :=
  if ThoughtBuffer.is_pending_of agentId r
  then ThoughtBuffer.set_synthesized_at stamp r else r.

(** A pending thought of v0.2.0. *)
Definition old_thought (i : Z) (agent : jsstring) (p : ThoughtBuffer.Level)
    (created : jsstring) : ThoughtBuffer.Thought :=
  {| ThoughtBuffer.id := i; ThoughtBuffer.agent_id := agent;
     ThoughtBuffer.channel := lit "slack"; ThoughtBuffer.target := [];
     ThoughtBuffer.content := lit "draft"; ThoughtBuffer.priority := p;
     ThoughtBuffer.created_at := created; ThoughtBuffer.synthesized_at := None;
     ThoughtBuffer.discarded := 0; ThoughtBuffer.metadata := None |}.

(** A low thought at 12:00:00, a high one at 12:00:01 and one of another
    agent, in a database of v0.2.0. *)
Definition old_db : ThoughtBuffer.Database :=
  {| ThoughtBuffer.buffered_thoughts :=
       [ old_thought 1 (lit "main") ThoughtBuffer.low (lit "2026-02-07 12:00:00");
         old_thought 2 (lit "main") ThoughtBuffer.high (lit "2026-02-07 12:00:01");
         old_thought 3 (lit "other") ThoughtBuffer.normal (lit "2026-02-07 12:00:01") ];
     ThoughtBuffer.buffered_thoughts_seq := 3;
     ThoughtBuffer.synthesis_log := [];
     ThoughtBuffer.synthesis_log_seq := 0 |}.

Definition old_globals (d : ThoughtBuffer.Database) : ThoughtBuffer.Globals :=
  {| ThoughtBuffer.db := Some d;
     ThoughtBuffer.globalForcedBuffering := false;
     ThoughtBuffer.simulatedLatencyMs := 0;
     ThoughtBuffer.samples := [];
     ThoughtBuffer.maxSamples := 100 |}.

(** The flags and samples of v0.2.0 as module-level variables of v0.2.1,
    not halted and without a database. *)
Definition as_plugin (g : ThoughtBuffer.Globals) : Plugin.Globals :=
  {| Plugin.db := None;
     Plugin.globalForcedBuffering := ThoughtBuffer.globalForcedBuffering g;
     Plugin.simulatedLatencyMs := ThoughtBuffer.simulatedLatencyMs g;
     Plugin.systemHalted := false;
     Plugin.samples :=
       List.map (fun s => {| Plugin.ts := ThoughtBuffer.ts s;
                             Plugin.latencyMs := ThoughtBuffer.latencyMs s |})
                (ThoughtBuffer.samples g);
     Plugin.maxSamples := ThoughtBuffer.maxSamples g |}.

(** A clock that stands still. *)
Definition frozen (c : Clock) : Prop := forall i j, wall c i = wall c j.

(** Globals of v0.2.0 with samples taken at instant 0 and no database. *)
Definition old_state (forced : bool) (simulated : Z) (latencies : list Z)
  : ThoughtBuffer.Globals :=
  {| ThoughtBuffer.db := None;
     ThoughtBuffer.globalForcedBuffering := forced;
     ThoughtBuffer.simulatedLatencyMs := simulated;
     ThoughtBuffer.samples :=
       List.map (fun x => {| ThoughtBuffer.ts := 0; ThoughtBuffer.latencyMs := x;
                             ThoughtBuffer.sample_channel := None |}) latencies;
     ThoughtBuffer.maxSamples := 100 |}.

(** The rows of a table of v0.2.0 carry creation times that do not
    decrease in insertion order. *)
Definition created_in_order (rows : list ThoughtBuffer.Thought) : Prop :=
  StronglySorted
    (fun x y => text_leb (ThoughtBuffer.created_at x) (ThoughtBuffer.created_at y) = true)
    rows.

(** 2^53: up to it, in absolute value, every whole number is a double, so
    that sums of whole numbers within it are exact. *)
Definition MAX_EXACT : Z := 9007199254740992.

Definition exact_integer (z : Z) : Prop := (- MAX_EXACT <= z <= MAX_EXACT)%Z.

(** Rounding of an exact quotient to the double that a division returns, as
    far as the properties below depend on it: rounding keeps the order, and
    a whole number within 2^53 is its own double. *)
Record Rounding : Type := {
  fl : Q -> Q;
  fl_monotone : forall p q, (p <= q)%Q -> (fl p <= fl q)%Q;
  fl_exact : forall z, exact_integer z -> (fl (inject_Z z) == inject_Z z)%Q
}.

(** The rounding that changes nothing. *)
Definition no_rounding : Rounding :=
  {| fl := fun q => q;
     fl_monotone := fun p q H => H;
     fl_exact := fun z _ => Qeq_refl (inject_Z z) |}.

(* ===================================================================== *)
(** * Properties                                                          *)
(* ===================================================================== *)

(** ** The buffering decision *)

(** C1, as stated, fails on the reason text: with every override on and a
    high recorded latency the decision is to buffer with latency 0, but the
    reason is not the text "halted". *)
Lemma halted_reason_is_not_the_word_halted :
  let r := fst (Core.shouldBuffer (tracker_of [99999%Z]) 5000 all_overrides_on (frozen_clock 1000)) in
  Core.buffering r = true /\ Core.latencyMs r = 0%Q /\ Core.reason r <> lit "halted".
Proof.
  cbn. repeat split. intros H. discriminate H.
Qed.

(** C1 (amended): when the kill switch is on, the decision is to buffer
    with reason "SYSTEM HALTED" and latency 0, whatever the tracker, the
    threshold and the other overrides are; no later rule is evaluated: the
    tracker is not queried, so the clock is not read.  This holds for the
    extracted decision function and for the plugin's own copy. *)
Theorem halt_wins_over_everything
    (tracker : Core.LatencyTracker) (threshold : Z) (state : Core.SystemState)
    (g : Plugin.Globals) (c : Clock) :
  Core.systemHalted state = true ->
  Plugin.systemHalted g = true ->
  Core.shouldBuffer tracker threshold state c = (HALTED_STATUS, c)
  /\ Plugin.shouldBuffer g threshold c = (HALTED_STATUS, c).
Proof.
  intros Hcore Hplugin. split.
  - unfold Core.shouldBuffer. rewrite Hcore. reflexivity.
  - unfold Plugin.shouldBuffer. rewrite Hplugin. reflexivity.
Qed.

Lemma halt_wins_over_everything_witness :
  Core.systemHalted all_overrides_on = true
  /\ Plugin.systemHalted halted_globals = true
  /\ Core.shouldBuffer (tracker_of [99999%Z]) 5000 all_overrides_on (frozen_clock 1000)
     = (HALTED_STATUS, frozen_clock 1000)
  /\ Plugin.shouldBuffer halted_globals 5000 (frozen_clock 1000)
     = (HALTED_STATUS, frozen_clock 1000).
Proof.
  split; [reflexivity|]. split; [reflexivity|].
  apply (halt_wins_over_everything (tracker_of [99999%Z]) 5000 all_overrides_on
           halted_globals (frozen_clock 1000)); reflexivity.
Defined.

(** The decision below the override rules: one query of the window maximum,
    compared strictly with the threshold. *)
Lemma shouldBuffer_measured tracker threshold state c :
  Core.systemHalted state = false ->
  Core.globalForcedBuffering state = false ->
  (Core.simulatedLatencyMs state <= threshold)%Z ->
  Core.buffering (fst (Core.shouldBuffer tracker threshold state c))
  = (threshold <? fst (Core.getMax 60000 (Core.simulatedLatencyMs state) tracker c))%Z.
Proof.
  intros Hh Hf Hs. unfold Core.shouldBuffer. rewrite Hh, Hf.
  assert (Hlt : (threshold <? Core.simulatedLatencyMs state)%Z = false) by (apply Z.ltb_ge; lia).
  rewrite Hlt. unfold mbind, IO_bind.
  destruct (Core.getMax 60000 (Core.simulatedLatencyMs state) tracker c) as [m c1]. cbn [fst].
  destruct (threshold <? m)%Z; [reflexivity|].
  destruct (Core.getAverage 60000 (Core.simulatedLatencyMs state) tracker c1). reflexivity.
Qed.

Lemma shouldBuffer_healthy_reason tracker threshold state c :
  Core.buffering (fst (Core.shouldBuffer tracker threshold state c)) = false ->
  Core.reason (fst (Core.shouldBuffer tracker threshold state c)) = lit "healthy".
Proof.
  unfold Core.shouldBuffer.
  destruct (Core.systemHalted state); [discriminate|].
  destruct (Core.globalForcedBuffering state).
  { unfold mbind, IO_bind. destruct (Core.getAverage _ _ _ _). discriminate. }
  destruct (threshold <? Core.simulatedLatencyMs state)%Z; [discriminate|].
  unfold mbind, IO_bind. destruct (Core.getMax _ _ _ _) as [m c1].
  destruct (threshold <? m)%Z; [discriminate|].
  destruct (Core.getAverage _ _ _ _). reflexivity.
Qed.

(** C2: without halt, without forced buffering and with a simulated latency
    not above the threshold, the comparison with the window maximum is
    strict: a maximum equal to the threshold is healthy (no buffering), a
    maximum of threshold + 1 buffers. *)
Theorem threshold_comparison_is_strict
    (tracker : Core.LatencyTracker) (threshold : Z) (state : Core.SystemState) (c : Clock) :
  Core.systemHalted state = false ->
  Core.globalForcedBuffering state = false ->
  (Core.simulatedLatencyMs state <= threshold)%Z ->
  let windowMax := fst (Core.getMax 60000 (Core.simulatedLatencyMs state) tracker c) in
  let decision := fst (Core.shouldBuffer tracker threshold state c) in
  (windowMax = threshold ->
     Core.buffering decision = false /\ Core.reason decision = lit "healthy")
  /\ (windowMax = (threshold + 1)%Z -> Core.buffering decision = true).
Proof.
  intros Hh Hf Hs windowMax decision.
  pose proof (shouldBuffer_measured tracker threshold state c Hh Hf Hs) as Hb.
  fold windowMax decision in Hb. split.
  - intros Heq. assert (Hfalse : Core.buffering decision = false).
    { rewrite Hb, Heq. apply Z.ltb_irrefl. }
    split; [exact Hfalse|]. apply shouldBuffer_healthy_reason. exact Hfalse.
  - intros Heq. rewrite Hb, Heq. apply Z.ltb_lt. lia.
Qed.

Lemma threshold_comparison_is_strict_witness :
  (Core.systemHalted no_override = false
   /\ Core.globalForcedBuffering no_override = false
   /\ (Core.simulatedLatencyMs no_override <= 5000)%Z)
  /\ (fst (Core.getMax 60000 0 (tracker_of [5000%Z]) (frozen_clock 1000)) = 5000%Z
      /\ Core.buffering (fst (Core.shouldBuffer (tracker_of [5000%Z]) 5000 no_override
                                (frozen_clock 1000))) = false)
  /\ (fst (Core.getMax 60000 0 (tracker_of [5001%Z]) (frozen_clock 1000)) = (5000 + 1)%Z
      /\ Core.buffering (fst (Core.shouldBuffer (tracker_of [5001%Z]) 5000 no_override
                                (frozen_clock 1000))) = true).
Proof.
  split; [repeat split; cbn; lia|]. split.
  - split; [reflexivity|].
    apply (threshold_comparison_is_strict (tracker_of [5000%Z]) 5000 no_override
             (frozen_clock 1000)); try reflexivity. cbn; lia.
  - split; [reflexivity|].
    apply (threshold_comparison_is_strict (tracker_of [5001%Z]) 5000 no_override
             (frozen_clock 1000)); try reflexivity. cbn; lia.
Defined.

(** ** The latency tracker *)

Lemma Date_now_run c : Date_now c = (wall c (reads c), tick c).
Proof. reflexivity. Qed.

Lemma record_run x t c :
  Core.record x t c
  = (Core.push_shift {| Core.ts := wall c (reads c); Core.sample_latencyMs := Z.max 0 x |} t,
     tick c).
Proof. reflexivity. Qed.

Lemma drop_1_tail {A} (l : list A) : drop 1 l = tail l.
Proof. destruct l; reflexivity. Qed.

(** Pushing on a window within capacity keeps the newest [maxSamples]. *)
Lemma push_shift_samples s t :
  length (Core.samples t) <= Core.maxSamples t ->
  Core.samples (Core.push_shift s t)
  = drop (S (length (Core.samples t)) - Core.maxSamples t) (Core.samples t ++ [s]).
Proof.
  intros Hlen. unfold Core.push_shift. cbn [Core.samples].
  rewrite length_app. cbn [length]. rewrite Nat.add_1_r.
  destruct (Nat.ltb_spec (Core.maxSamples t) (S (length (Core.samples t)))) as [Hlt|Hge].
  - replace (S (length (Core.samples t)) - Core.maxSamples t) with 1 by lia.
    symmetry. apply drop_1_tail.
  - replace (S (length (Core.samples t)) - Core.maxSamples t) with 0 by lia.
    reflexivity.
Qed.

Lemma push_shift_maxSamples s t : Core.maxSamples (Core.push_shift s t) = Core.maxSamples t.
Proof. reflexivity. Qed.

Lemma push_shift_length s t :
  length (Core.samples t) <= Core.maxSamples t ->
  length (Core.samples (Core.push_shift s t)) <= Core.maxSamples t.
Proof.
  intros Hlen. rewrite push_shift_samples by exact Hlen.
  rewrite length_drop, length_app. cbn [length]. lia.
Qed.

Lemma recorded_cons c x xs :
  recorded c (x :: xs)
  = {| Core.ts := wall c (reads c); Core.sample_latencyMs := Z.max 0 x |} :: recorded (tick c) xs.
Proof.
  unfold recorded. rewrite imap_cons. rewrite Nat.add_0_r. f_equal.
  apply imap_ext. intros i y _. cbn. replace (reads c + S i) with (S (reads c + i)) by lia.
  reflexivity.
Qed.

Lemma recorded_length c xs : length (recorded c xs) = length xs.
Proof. unfold recorded. apply length_imap. Qed.

(** After a sequence of calls the window is the newest part of everything
    that was ever pushed. *)
Lemma record_all_samples xs : forall t c,
  length (Core.samples t) <= Core.maxSamples t ->
  let t' := fst (Core.record_all xs t c) in
  Core.samples t'
  = drop (length (Core.samples t) + length xs - Core.maxSamples t)
         (Core.samples t ++ recorded c xs)
  /\ Core.maxSamples t' = Core.maxSamples t.
Proof.
  induction xs as [|x xs IH]; intros t c Hlen.
  - cbn. split; [|reflexivity]. rewrite app_nil_r.
    replace (length (Core.samples t) + 0 - Core.maxSamples t) with 0 by lia. reflexivity.
  - cbn [Core.record_all]. unfold mbind, IO_bind. rewrite record_run.
    set (s := {| Core.ts := wall c (reads c); Core.sample_latencyMs := Z.max 0 x |}).
    specialize (IH (Core.push_shift s t) (tick c)).
    rewrite push_shift_maxSamples in IH.
    specialize (IH (push_shift_length s t Hlen)). cbn zeta in IH.
    destruct IH as [IHs IHm]. cbn zeta. split; [|exact IHm].
    rewrite IHs. rewrite recorded_cons. fold s.
    rewrite (push_shift_samples s t Hlen).
    set (k := S (length (Core.samples t)) - Core.maxSamples t).
    rewrite length_drop, length_app. cbn [length].
    rewrite <- (drop_app_le (Core.samples t ++ [s]) (recorded (tick c) xs) k)
      by (rewrite length_app; cbn [length]; lia).
    rewrite drop_drop. rewrite <- app_assoc. cbn [app].
    f_equal. lia.
Qed.

Lemma record_all_clock xs : forall t c,
  snd (Core.record_all xs t c) = {| wall := wall c; reads := reads c + length xs |}.
Proof.
  induction xs as [|x xs IH]; intros t c.
  - cbn. destruct c. cbn. f_equal. lia.
  - cbn [Core.record_all]. unfold mbind, IO_bind. rewrite record_run. rewrite IH.
    cbn. f_equal. lia.
Qed.

(** C7: [record] always returns: it reads the clock once and pushes the
    sample made of that reading and of the latency clamped at 0; within
    capacity the sample is appended, at capacity the oldest sample leaves and
    the others keep their order.  Consequently, after any sequence of calls
    on a new tracker of capacity [N], the window is the last [N] recorded
    samples (all of them when there are fewer), in call order, and holds at
    most [N] of them. *)
Theorem record_keeps_newest_in_order
    (N : nat) (latencies : list Z) (x : Z) (c : Clock) :
  let t := fst (Core.record_all latencies (Core.new_LatencyTracker N) c) in
  let c1 := snd (Core.record_all latencies (Core.new_LatencyTracker N) c) in
  let new := {| Core.ts := wall c1 (reads c1); Core.sample_latencyMs := Z.max 0 x |} in
  let t' := fst (Core.record x t c1) in
  (* the window after the calls made so far *)
  Core.samples t = drop (length latencies - N) (recorded c latencies)
  /\ length (Core.samples t) <= N
  /\ Core.maxSamples t = N
  (* one more call *)
  /\ snd (Core.record x t c1) = tick c1
  /\ (0 <= Core.sample_latencyMs new)%Z
  /\ (length (Core.samples t) < N -> Core.samples t' = Core.samples t ++ [new])
  /\ (length (Core.samples t) = N -> Core.samples t' = tail (Core.samples t ++ [new]))
  /\ (forall oldest rest, length (Core.samples t) = N -> Core.samples t = oldest :: rest ->
        Core.samples t' = rest ++ [new]).
Proof.
  intros t c1 new t'.
  destruct (record_all_samples latencies (Core.new_LatencyTracker N) c) as [Hs Hm];
    [cbn; lia|].
  fold t in Hs, Hm. cbn in Hs, Hm.
  assert (Hlen : length (Core.samples t) <= N).
  { rewrite Hs, length_drop, recorded_length. lia. }
  assert (Hstep : Core.samples t'
                  = drop (S (length (Core.samples t)) - N) (Core.samples t ++ [new])).
  { subst t'. rewrite record_run. cbn [fst]. fold new.
    rewrite push_shift_samples by (rewrite Hm; exact Hlen). rewrite Hm. reflexivity. }
  repeat split.
  - exact Hs.
  - exact Hlen.
  - exact Hm.
  - cbn. lia.
  - intros Hlt. rewrite Hstep.
    replace (S (length (Core.samples t)) - N) with 0 by lia. reflexivity.
  - intros Heq. rewrite Hstep.
    replace (S (length (Core.samples t)) - N) with 1 by lia. apply drop_1_tail.
  - intros oldest rest Heq Hcons. rewrite Hstep.
    replace (S (length (Core.samples t)) - N) with 1 by lia. rewrite Hcons. reflexivity.
Qed.

Lemma record_keeps_newest_in_order_witness :
  let t := fst (Core.record_all [5; -3; 7]%Z (Core.new_LatencyTracker 2) slow_clock) in
  let c1 := snd (Core.record_all [5; -3; 7]%Z (Core.new_LatencyTracker 2) slow_clock) in
  length (Core.samples t) = 2
  /\ List.map Core.sample_latencyMs (Core.samples t) = [0; 7]%Z
  /\ List.map Core.sample_latencyMs (Core.samples (fst (Core.record 9 t c1))) = [7; 9]%Z.
Proof.
  split; [reflexivity|]. split; [reflexivity|].
  destruct (record_keeps_newest_in_order 2 [5; -3; 7]%Z 9 slow_clock)
    as (_ & _ & _ & _ & _ & _ & Hfull & _).
  rewrite Hfull by reflexivity. reflexivity.
Defined.

Lemma Math_max_ge xs : forall x y, In y (x :: xs) -> (y <= Core.Math_max x xs)%Z.
Proof.
  unfold Core.Math_max.
  induction xs as [|z xs IH]; intros x y Hin.
  - destruct Hin as [Heq|[]]. subst y. cbn. lia.
  - cbn [fold_left]. destruct Hin as [Heq|[Heq|Hin]].
    + subst y. transitivity (Z.max x z); [lia|]. apply IH. left. reflexivity.
    + subst y. transitivity (Z.max x z); [lia|]. apply IH. left. reflexivity.
    + apply IH. right. exact Hin.
Qed.

Lemma Math_max_in xs : forall x, In (Core.Math_max x xs) (x :: xs).
Proof.
  unfold Core.Math_max.
  induction xs as [|z xs IH]; intros x.
  - left. reflexivity.
  - cbn [fold_left]. destruct (IH (Z.max x z)) as [Heq|Hin].
    + rewrite <- Heq.
      destruct (Z.max_spec x z) as [[_ Hm]|[_ Hm]]; rewrite Hm.
      * right. left. reflexivity.
      * left. reflexivity.
    + right. right. exact Hin.
Qed.

Lemma getMax_run windowMs fallback t c :
  Core.getMax windowMs fallback t c
  = (match List.map Core.sample_latencyMs (Core.recent_samples (wall c (reads c)) windowMs t) with
     | [] => fallback
     | x :: xs => Core.Math_max x xs
     end, tick c).
Proof.
  unfold Core.getMax, mbind, IO_bind. rewrite Date_now_run.
  destruct (List.map _ _); reflexivity.
Qed.

(** [record] only ever stores latencies that are not negative. *)
Lemma record_all_nonneg N latencies c :
  Forall (fun s => 0 <= Core.sample_latencyMs s)%Z
         (Core.samples (fst (Core.record_all latencies (Core.new_LatencyTracker N) c))).
Proof.
  destruct (record_all_samples latencies (Core.new_LatencyTracker N) c) as [Hs _];
    [cbn; lia|].
  rewrite Hs. apply Forall_drop. cbn [Core.samples Core.new_LatencyTracker app].
  unfold recorded. apply Forall_forall. intros s Hin.
  apply elem_of_lookup_imap in Hin.
  destruct Hin as (i & x & -> & _). cbn. lia.
Qed.

(** C6, as stated, fails: a sample recorded 100 seconds ago lies outside a
    60 second window, and [getMax] then hands back its fallback, here -1. *)
Lemma getMax_returns_a_negative_fallback :
  let t := fst (Core.record_all [500%Z] (Core.new_LatencyTracker 100) slow_clock) in
  let c1 := snd (Core.record_all [500%Z] (Core.new_LatencyTracker 100) slow_clock) in
  fst (Core.getMax 60000 (-1) t c1) = (-1)%Z /\ (fst (Core.getMax 60000 (-1) t c1) < 0)%Z.
Proof. split; vm_compute; reflexivity. Qed.

(** C6 (amended): after any sequence of [record] calls, [getMax] is never
    below a sample that is still in the buffer and whose timestamp lies in
    the window; it is not negative when the fallback is not negative, and
    the only negative value it can return is a negative fallback handed back
    for an empty window. *)
Theorem getMax_dominates_window
    (N : nat) (latencies : list Z) (windowMs fallback : Z) (c : Clock) :
  let t := fst (Core.record_all latencies (Core.new_LatencyTracker N) c) in
  let c1 := snd (Core.record_all latencies (Core.new_LatencyTracker N) c) in
  let now := wall c1 (reads c1) in
  let m := fst (Core.getMax windowMs fallback t c1) in
  (forall s, In s (Core.samples t) -> (now - Core.ts s < windowMs)%Z ->
     (Core.sample_latencyMs s <= m)%Z)
  /\ ((0 <= fallback)%Z -> (0 <= m)%Z)
  /\ ((0 <= m)%Z \/ (m = fallback /\ Core.recent_samples now windowMs t = [])).
Proof.
  intros t c1 now m.
  pose proof (record_all_nonneg N latencies c) as Hnn. fold t in Hnn.
  subst m. rewrite getMax_run. cbn [fst]. fold now.
  assert (Hrecent : forall s, In s (Core.recent_samples now windowMs t) ->
                      In s (Core.samples t) /\ (now - Core.ts s < windowMs)%Z).
  { intros s Hin. unfold Core.recent_samples in Hin. apply filter_In in Hin.
    destruct Hin as [Hin Hw]. split; [exact Hin|]. unfold Core.in_window in Hw.
    apply Z.ltb_lt. exact Hw. }
  destruct (Core.recent_samples now windowMs t) as [|s0 rest] eqn:Hrec.
  - cbn [List.map]. split; [|split].
    + intros s Hin Hw. exfalso.
      assert (Hin' : In s (Core.recent_samples now windowMs t)).
      { unfold Core.recent_samples. apply filter_In. split; [exact Hin|].
        unfold Core.in_window. apply Z.ltb_lt. exact Hw. }
      rewrite Hrec in Hin'. destruct Hin'.
    + intros Hf. exact Hf.
    + right. split; reflexivity.
  - cbn [List.map].
    assert (Hpos : (0 <= Core.Math_max (Core.sample_latencyMs s0)
                                       (List.map Core.sample_latencyMs rest))%Z).
    { pose proof (Math_max_in (List.map Core.sample_latencyMs rest) (Core.sample_latencyMs s0))
        as Hin.
      change (Core.sample_latencyMs s0 :: List.map Core.sample_latencyMs rest)
        with (List.map Core.sample_latencyMs (s0 :: rest)) in Hin.
      apply in_map_iff in Hin. destruct Hin as (s & Hs & Hin). rewrite <- Hs.
      destruct (Hrecent s Hin) as [Hin' _].
      rewrite Forall_forall in Hnn. apply Hnn. apply list_elem_of_In. exact Hin'. }
    split; [|split].
    + intros s Hin Hw. apply Math_max_ge.
      change (In (Core.sample_latencyMs s) (List.map Core.sample_latencyMs (s0 :: rest))).
      apply in_map. rewrite <- Hrec. unfold Core.recent_samples. apply filter_In.
      split; [exact Hin|]. unfold Core.in_window. apply Z.ltb_lt. exact Hw.
    + intros _. exact Hpos.
    + left. exact Hpos.
Qed.

Lemma getMax_dominates_window_witness :
  let t := fst (Core.record_all [50; 200; 100]%Z (Core.new_LatencyTracker 100) (frozen_clock 1000)) in
  let c1 := snd (Core.record_all [50; 200; 100]%Z (Core.new_LatencyTracker 100) (frozen_clock 1000)) in
  In {| Core.ts := 1000; Core.sample_latencyMs := 200 |} (Core.samples t)
  /\ (1000 - 1000 < 60000)%Z
  /\ (0 <= 0)%Z
  /\ (200 <= fst (Core.getMax 60000 0 t c1))%Z
  /\ (0 <= fst (Core.getMax 60000 0 t c1))%Z.
Proof.
  split; [right; left; reflexivity|]. split; [lia|]. split; [lia|].
  destruct (getMax_dominates_window 100 [50; 200; 100]%Z 60000 0 (frozen_clock 1000))
    as (Hdom & Hnonneg & _).
  split.
  - apply (Hdom {| Core.ts := 1000; Core.sample_latencyMs := 200 |}).
    + right; left; reflexivity.
    + vm_compute. reflexivity.
  - apply Hnonneg. lia.
Defined.

(** ** Validation *)

Lemma Math_round_nearest q :
  (inject_Z (Math_round q) - (1 # 2) <= q)%Q /\ (q < inject_Z (Math_round q) + (1 # 2))%Q.
Proof.
  unfold Math_round.
  pose proof (Qfloor_le (q + (1 # 2))) as Hle.
  pose proof (Qlt_floor (q + (1 # 2))) as Hlt.
  rewrite inject_Z_plus in Hlt. change (inject_Z 1) with 1%Q in Hlt.
  split; lra.
Qed.

Lemma Math_round_negative q : (q < 0)%Q -> (Math_round q <= 0)%Z.
Proof.
  intros Hq. unfold Math_round.
  pose proof (Qfloor_le (q + (1 # 2))) as Hle.
  assert (Hlt : (inject_Z (Qfloor (q + (1 # 2))) < inject_Z 1)%Q).
  { eapply Qle_lt_trans; [exact Hle|]. change (inject_Z 1) with 1%Q. lra. }
  rewrite <- Zlt_Qlt in Hlt. lia.
Qed.

Lemma Math_round_nonnegative q : (0 <= q)%Q -> (0 <= Math_round q)%Z.
Proof.
  intros Hq. unfold Math_round. change 0%Z with (Qfloor 0).
  apply Qfloor_resp_le. lra.
Qed.

Lemma trimStart_nil_iff s : trimStart s = [] <-> forallb is_trim_space s = true.
Proof.
  induction s as [|ch s IH]; cbn.
  - split; reflexivity.
  - destruct (is_trim_space ch); cbn.
    + exact IH.
    + split; discriminate.
Qed.

Lemma trimStart_all_space s : forallb is_trim_space s = false -> trimStart s <> [].
Proof.
  intros Hf Hnil. apply trimStart_nil_iff in Hnil. congruence.
Qed.

Lemma forallb_rev {A} (f : A -> bool) l : forallb f (rev l) = forallb f l.
Proof.
  induction l as [|x l IH]; [reflexivity|].
  cbn. rewrite forallb_app, IH. cbn. rewrite andb_true_r. apply andb_comm.
Qed.

Lemma trimStart_keeps_non_space s : forallb is_trim_space (trimStart s) = forallb is_trim_space s.
Proof.
  induction s as [|ch s IH]; [reflexivity|].
  cbn. destruct (is_trim_space ch) eqn:Hc; cbn.
  - exact IH.
  - rewrite Hc. reflexivity.
Qed.

(** A string is empty after trimming exactly when it is made of white space
    only. *)
Lemma trim_nil_iff s : trim s = [] <-> forallb is_trim_space s = true.
Proof.
  unfold trim, trimEnd. split.
  - intros H. apply (f_equal (@rev _)) in H. rewrite rev_involutive in H. cbn in H.
    apply trimStart_nil_iff in H. rewrite forallb_rev, trimStart_keeps_non_space in H.
    exact H.
  - intros H.
    assert (Hs : trimStart (rev (trimStart s)) = []).
    { apply trimStart_nil_iff. rewrite forallb_rev, trimStart_keeps_non_space. exact H. }
    rewrite Hs. reflexivity.
Qed.

Lemma js_length_zero_iff s : (js_length s =? 0)%Z = true <-> s = [].
Proof.
  unfold js_length. rewrite Z.eqb_eq. destruct s; cbn [length]; split; intros H;
    try reflexivity; try discriminate H; lia.
Qed.

Lemma validateThought_string s :
  Core.validateThought (JsString s)
  = if (js_length (trim s) =? 0)%Z then None else Some (substring0 Core.MAX_THOUGHT_LENGTH s).
Proof.
  unfold Core.validateThought.
  destruct (js_length (trim s) =? 0)%Z; [reflexivity|].
  destruct (Z.ltb_spec Core.MAX_THOUGHT_LENGTH (js_length s)) as [Hlt|Hge]; [reflexivity|].
  unfold substring0. rewrite take_ge; [reflexivity|]. unfold js_length in Hge. lia.
Qed.

Lemma validateThought_blank s : trim s = [] -> Core.validateThought (JsString s) = None.
Proof.
  intros H. rewrite validateThought_string.
  replace (js_length (trim s) =? 0)%Z with true; [reflexivity|].
  symmetry. apply js_length_zero_iff. exact H.
Qed.

Lemma validateThought_not_blank s :
  trim s <> [] ->
  Core.validateThought (JsString s) = Some (substring0 Core.MAX_THOUGHT_LENGTH s).
Proof.
  intros H. rewrite validateThought_string.
  destruct (js_length (trim s) =? 0)%Z eqn:E; [|reflexivity].
  apply js_length_zero_iff in E. contradiction.
Qed.

(** C8: the validators are total functions and never fail.  A priority that
    is not exactly the string P0, P1 or P2 becomes P1; a latency that is not
    a number, not finite or negative becomes 0, any other is rounded to the
    nearest integer; content that is not a string or is empty after trimming
    is rejected with [null], any other content is kept, cut to its first
    50,000 units when longer. *)
Theorem validation_normalizes :
  (* validatePriority *)
  (forall p : Priority, Core.validatePriority (JsString (Plugin.priority_text p)) = p)
  /\ (forall v : JsValue,
        v <> JsString (lit "P0") -> v <> JsString (lit "P1") -> v <> JsString (lit "P2") ->
        Core.validatePriority v = P1)
  (* validateLatency *)
  /\ (forall v : JsValue, (forall q, v <> JsNum (Finite q)) -> Core.validateLatency v = 0%Z)
  /\ (forall q : Q, (q < 0)%Q -> Core.validateLatency (JsNum (Finite q)) = 0%Z)
  /\ (forall q : Q, (0 <= q)%Q ->
        Core.validateLatency (JsNum (Finite q)) = Math_round q
        /\ (inject_Z (Math_round q) - (1 # 2) <= q)%Q
        /\ (q < inject_Z (Math_round q) + (1 # 2))%Q)
  /\ (forall v : JsValue, (0 <= Core.validateLatency v)%Z)
  (* validateThought *)
  /\ (forall v : JsValue,
        Core.validateThought v = None
        <-> (forall s, v <> JsString s) \/ (exists s, v = JsString s /\ trim s = []))
  /\ (forall s : jsstring,
        trim s <> [] -> (50000 < js_length s)%Z ->
        Core.validateThought (JsString s) = Some (substring0 50000 s)
        /\ js_length (substring0 50000 s) = 50000%Z)
  /\ (forall s : jsstring,
        trim s <> [] -> (js_length s <= 50000)%Z ->
        Core.validateThought (JsString s) = Some s).
Proof.
  repeat apply conj.
  - intros []; reflexivity.
  - intros v H0 H1 H2. destruct v; try reflexivity.
    unfold Core.validatePriority.
    destruct (decide (s = lit "P0")) as [->|_]; [contradiction|].
    destruct (decide (s = lit "P1")) as [->|_]; [contradiction|].
    destruct (decide (s = lit "P2")) as [->|_]; [contradiction|].
    reflexivity.
  - intros v Hv. destruct v as [| | |n| |]; try reflexivity.
    destruct n as [| | |q]; try reflexivity. exfalso. apply (Hv q). reflexivity.
  - intros q Hq. unfold Core.validateLatency.
    pose proof (Math_round_negative q Hq). lia.
  - intros q Hq. split; [|apply Math_round_nearest].
    unfold Core.validateLatency. pose proof (Math_round_nonnegative q Hq). lia.
  - intros v. unfold Core.validateLatency.
    destruct v as [| | |n| |]; try lia. destruct n; lia.
  - intros v. split.
    + intros Hnone. destruct v as [| | | |s|]; try (left; intros s' Hs'; discriminate Hs').
      right. exists s. split; [reflexivity|].
      destruct (decide (trim s = [])) as [Hnil|Hnn]; [exact Hnil|].
      rewrite (validateThought_not_blank s Hnn) in Hnone. discriminate Hnone.
    + intros [Hns|(s & -> & Htrim)].
      * destruct v; try reflexivity. exfalso. apply (Hns s). reflexivity.
      * apply validateThought_blank. exact Htrim.
  - intros s Htrim Hlen. split.
    + apply validateThought_not_blank. exact Htrim.
    + unfold substring0, js_length in *. rewrite length_take. lia.
  - intros s Htrim Hlen. rewrite (validateThought_not_blank s Htrim).
    unfold substring0, Core.MAX_THOUGHT_LENGTH. rewrite take_ge; [reflexivity|].
    unfold js_length in Hlen. lia.
Qed.

Lemma validation_normalizes_witness :
  Core.validatePriority (JsString (lit "high")) = P1
  /\ Core.validateLatency (JsNum NaN) = 0%Z
  /\ Core.validateLatency (JsNum (Finite (-100 # 1))) = 0%Z
  /\ Core.validateLatency (JsNum (Finite (5007 # 10))) = Math_round (5007 # 10)
  /\ Core.validateThought (JsString (lit "   ")) = None
  /\ Core.validateThought (JsString long_thought) = Some (substring0 50000 long_thought)
  /\ Core.validateThought (JsString (lit "Hello world")) = Some (lit "Hello world").
Proof.
  destruct validation_normalizes
    as (_ & Hprio & Hnonnum & Hneg & Hround & _ & Hnull & Hlong & Hshort).
  split; [apply Hprio; discriminate|].
  split; [apply Hnonnum; discriminate|].
  split; [apply Hneg; reflexivity|].
  split; [apply Hround; discriminate|].
  split; [apply Hnull; right; exists (lit "   "); split; reflexivity|].
  split.
  - apply Hlong.
    + intros Hnil. apply trim_nil_iff in Hnil. vm_compute in Hnil. discriminate Hnil.
    + unfold long_thought, js_length. rewrite repeat_length. lia.
  - apply Hshort.
    + discriminate.
    + vm_compute. discriminate.
Defined.

(** ** The synthesizer *)

Lemma escape_unit_run u :
  Core.replace_all LF [BACKSLASH; LETTER_n]
    (Core.replace_all DQUOTE [BACKSLASH; DQUOTE]
       (Core.replace_all BACKSLASH [BACKSLASH; BACKSLASH] [u]))
  = escape_unit u.
Proof.
  unfold escape_unit, Core.replace_all. cbn [flat_map app].
  destruct (N.eqb_spec u BACKSLASH) as [->|Hb]; [reflexivity|].
  cbn [flat_map app].
  destruct (N.eqb_spec u DQUOTE) as [->|Hq]; [reflexivity|].
  cbn [flat_map app].
  destruct (N.eqb_spec u LF) as [->|Hn]; reflexivity.
Qed.

Lemma replace_all_app u by_ s1 s2 :
  Core.replace_all u by_ (s1 ++ s2) = Core.replace_all u by_ s1 ++ Core.replace_all u by_ s2.
Proof. unfold Core.replace_all. apply flat_map_app. Qed.

(** The three replacements in a row amount to one pass that escapes every
    unit on its own. *)
Lemma escapeContent_one_pass s : Core.escapeContent s = flat_map escape_unit s.
Proof.
  induction s as [|u s IH]; [reflexivity|].
  change (u :: s) with ([u] ++ s).
  unfold Core.escapeContent. rewrite !replace_all_app.
  fold (Core.escapeContent s). rewrite IH, escape_unit_run. reflexivity.
Qed.

Lemma unescape_escape_units s : Core.unescape (flat_map escape_unit s) = s.
Proof.
  induction s as [|u s IH]; [reflexivity|].
  cbn [flat_map]. unfold escape_unit at 1.
  destruct (N.eqb_spec u BACKSLASH) as [->|Hb]; [cbn; rewrite IH; reflexivity|].
  destruct (N.eqb_spec u DQUOTE) as [->|Hq]; [cbn; rewrite IH; reflexivity|].
  destruct (N.eqb_spec u LF) as [->|Hn]; [cbn; rewrite IH; reflexivity|].
  cbn [app Core.unescape].
  destruct (N.eqb_spec u BACKSLASH) as [Heq|_]; [contradiction|].
  rewrite IH. reflexivity.
Qed.

Lemma insert_sorted_In {A} (leb : A -> A -> bool) x y l :
  In y (insert_sorted leb x l) <-> y = x \/ In y l.
Proof.
  induction l as [|z l IH]; cbn.
  - split; [intros [H|[]]; left; congruence | intros [H|[]]; left; congruence].
  - destruct (leb x z); cbn.
    + split; [intros [H|H]; [left; congruence | right; exact H]
             | intros [H|H]; [left; congruence | right; exact H]].
    + rewrite IH. split.
      * intros [H|[H|H]]; [right; left; exact H | left; exact H | right; right; exact H].
      * intros [H|[H|H]]; [right; left; exact H | left; exact H | right; right; exact H].
Qed.

Lemma stable_sort_In {A} (leb : A -> A -> bool) y l :
  In y (stable_sort leb l) <-> In y l.
Proof.
  induction l as [|x l IH]; [reflexivity|].
  cbn [stable_sort fold_right]. fold (stable_sort leb l).
  rewrite insert_sorted_In, IH. cbn. split; intros [H|H]; auto.
Qed.

Lemma insert_sorted_Permutation {A} (leb : A -> A -> bool) x l :
  Permutation (insert_sorted leb x l) (x :: l).
Proof.
  induction l as [|z l IH]; cbn; [reflexivity|].
  destruct (leb x z); [reflexivity|].
  rewrite IH. apply perm_swap.
Qed.

Lemma stable_sort_Permutation {A} (leb : A -> A -> bool) l :
  Permutation (stable_sort leb l) l.
Proof.
  induction l as [|x l IH]; [reflexivity|].
  cbn [stable_sort fold_right]. fold (stable_sort leb l).
  rewrite insert_sorted_Permutation. constructor. exact IH.
Qed.

Lemma embeds_refl x : embeds x x.
Proof. exists [], []. cbn. rewrite app_nil_r. reflexivity. Qed.

Lemma embeds_app_l x a whole : embeds x whole -> embeds x (a ++ whole).
Proof.
  intros (pre & post & ->). exists (a ++ pre), post. rewrite <- app_assoc. reflexivity.
Qed.

Lemma embeds_app_r x b whole : embeds x whole -> embeds x (whole ++ b).
Proof.
  intros (pre & post & ->). exists pre, (post ++ b). rewrite <- !app_assoc. reflexivity.
Qed.

Lemma embeds_trans x y z : embeds x y -> embeds y z -> embeds x z.
Proof.
  intros (p1 & q1 & ->) (p2 & q2 & ->). exists (p2 ++ p1), (q1 ++ q2).
  rewrite <- !app_assoc. reflexivity.
Qed.

Lemma join_embeds sep (parts : list jsstring) x : In x parts -> embeds x (join sep parts).
Proof.
  induction parts as [|p parts IH]; [intros []|].
  intros [->|Hin].
  - destruct parts as [|q parts]; [apply embeds_refl|].
    change (join sep (x :: q :: parts)) with (x ++ sep ++ join sep (q :: parts)).
    apply embeds_app_r, embeds_refl.
  - destruct parts as [|q parts]; [destruct Hin|].
    change (join sep (p :: q :: parts)) with (p ++ sep ++ join sep (q :: parts)).
    do 2 apply embeds_app_l. apply IH. exact Hin.
Qed.

Lemma formatThought_embeds i t :
  embeds ([DQUOTE] ++ Core.escapeContent (content t) ++ [DQUOTE]) (Core.formatThought i t).
Proof.
  unfold Core.formatThought. do 6 apply embeds_app_l. apply embeds_refl.
Qed.

(** C5: the synthesizer escapes a content in one pass over its units: a
    backslash, a double quote and a newline each give their two-unit escape,
    once, and every other unit (also the halves of a surrogate pair) is
    copied as it is; reading the escapes back returns the content; and the
    prompt embeds, between double quotes, exactly this escaped text for every
    thought it is given. *)
Theorem escaping_round_trips (text : jsstring) :
  Core.escapeContent text = flat_map escape_unit text
  /\ escape_unit BACKSLASH = [BACKSLASH; BACKSLASH]
  /\ escape_unit DQUOTE = [BACKSLASH; DQUOTE]
  /\ escape_unit LF = [BACKSLASH; LETTER_n]
  /\ (forall u, u <> BACKSLASH -> u <> DQUOTE -> u <> LF -> escape_unit u = [u])
  /\ Core.unescape (Core.escapeContent text) = text
  /\ (forall Date_getTime thoughts t,
        In t thoughts -> content t = text ->
        embeds ([DQUOTE] ++ Core.escapeContent text ++ [DQUOTE])
               (Core.generateSynthesisPrompt Date_getTime thoughts)).
Proof.
  split; [apply escapeContent_one_pass|].
  split; [reflexivity|]. split; [reflexivity|]. split; [reflexivity|].
  split.
  { intros u Hb Hq Hn. unfold escape_unit.
    destruct (N.eqb_spec u BACKSLASH); [contradiction|].
    destruct (N.eqb_spec u DQUOTE); [contradiction|].
    destruct (N.eqb_spec u LF); [contradiction|]. reflexivity. }
  split.
  { rewrite escapeContent_one_pass. apply unescape_escape_units. }
  intros D thoughts t Hin Htext.
  unfold Core.generateSynthesisPrompt.
  destruct thoughts as [|t0 rest]; [destruct Hin|].
  cbn [length Nat.eqb].
  set (sorted := stable_sort (Core.notAfter D) (t0 :: rest)).
  assert (Hs : t ∈ sorted).
  { apply list_elem_of_In. apply stable_sort_In. exact Hin. }
  apply list_elem_of_lookup in Hs. destruct Hs as [i Hi].
  assert (Hline : In (Core.formatThought i t) (imap Core.formatThought sorted)).
  { apply list_elem_of_In. apply elem_of_lookup_imap. exists i, t. split; [reflexivity|exact Hi]. }
  apply (embeds_trans _ (Core.formatThought i t)).
  - rewrite <- Htext. apply formatThought_embeds.
  - unfold Core.renderPrompt. do 6 apply embeds_app_l. apply embeds_app_r.
    apply join_embeds. exact Hline.
Qed.

Lemma escaping_round_trips_witness :
  In tricky_thought [thought 2 P0 (lit "50") (lit "ok"); tricky_thought]
  /\ content tricky_thought = tricky_content
  /\ Core.escapeContent tricky_content
     = lit "He said " ++ [BACKSLASH; DQUOTE] ++ lit "hi"
       ++ [BACKSLASH; DQUOTE; BACKSLASH; BACKSLASH; BACKSLASH; LETTER_n; 55358%N; 56747%N]
  /\ embeds ([DQUOTE] ++ Core.escapeContent tricky_content ++ [DQUOTE])
            (Core.generateSynthesisPrompt toy_getTime
               [thought 2 P0 (lit "50") (lit "ok"); tricky_thought]).
Proof.
  split; [right; left; reflexivity|]. split; [reflexivity|]. split; [reflexivity|].
  destruct (escaping_round_trips tricky_content) as (_ & _ & _ & _ & _ & _ & Hembed).
  apply (Hembed toy_getTime _ tricky_thought).
  - right; left; reflexivity.
  - reflexivity.
Defined.

Lemma M_bind_run {A B} (m : Heap.M A) (k : A -> Heap.M B) h :
  (mbind k m : Heap.M B) h
  = match m h with Some (a, h') => k a h' | None => None end.
Proof. reflexivity. Qed.

Lemma read_objects_ok h rs os :
  Forall2 (fun r o => Heap.objects h !! r = Some o) rs os ->
  Heap.read_objects rs h = Some (os, h).
Proof.
  induction 1 as [|r o rs os Hr _ IH]; [reflexivity|].
  cbn [Heap.read_objects]. rewrite M_bind_run. unfold Heap.read_object at 1. rewrite Hr.
  rewrite M_bind_run, IH. reflexivity.
Qed.

Lemma combine_fst_snd {A B} (R : A -> B -> Prop) l k :
  Forall2 R l k ->
  List.map fst (combine l k) = l /\ List.map snd (combine l k) = k
  /\ Forall (fun p => R (fst p) (snd p)) (combine l k).
Proof.
  induction 1 as [|x y l k Hxy _ (IH1 & IH2 & IH3)]; cbn.
  - repeat split. constructor.
  - rewrite IH1, IH2. repeat split. constructor; assumption.
Qed.

Lemma Forall_pairs_Forall2 {A B} (R : A -> B -> Prop) (ps : list (A * B)) :
  Forall (fun p => R (fst p) (snd p)) ps -> Forall2 R (List.map fst ps) (List.map snd ps).
Proof. induction 1; cbn; constructor; assumption. Qed.

Lemma insert_sorted_map {A B} (f : A -> B) (leb : B -> B -> bool) x l :
  List.map f (insert_sorted (fun a b => leb (f a) (f b)) x l)
  = insert_sorted leb (f x) (List.map f l).
Proof.
  induction l as [|y l IH]; [reflexivity|].
  cbn. destruct (leb (f x) (f y)); cbn; [reflexivity|]. rewrite IH. reflexivity.
Qed.

(** Sorting records by a key of theirs and then projecting is sorting the
    projections. *)
Lemma stable_sort_map {A B} (f : A -> B) (leb : B -> B -> bool) l :
  List.map f (stable_sort (fun a b => leb (f a) (f b)) l) = stable_sort leb (List.map f l).
Proof.
  induction l as [|x l IH]; [reflexivity|].
  cbn [stable_sort fold_right List.map].
  fold (stable_sort (fun a b => leb (f a) (f b)) l). fold (stable_sort leb (List.map f l)).
  rewrite insert_sorted_map, IH. reflexivity.
Qed.

(** The run of the synthesizer on a heap: the prompt is that of the value
    of the argument array, and the only change to the heap is one new array,
    at a location that was not in use. *)
Lemma generateSynthesisPrompt_run D h a rs os :
  Heap.arrays h !! a = Some rs ->
  Forall2 (fun r o => Heap.objects h !! r = Some o) rs os ->
  exists h',
    Heap.generateSynthesisPrompt D a h = Some (Core.generateSynthesisPrompt D os, h')
    /\ Heap.objects h' = Heap.objects h
    /\ (forall b, b ∈ dom (Heap.arrays h) -> Heap.arrays h' !! b = Heap.arrays h !! b).
Proof.
  intros Ha Hos.
  pose proof (Forall2_length _ _ _ Hos) as Hlen.
  unfold Heap.generateSynthesisPrompt, Core.generateSynthesisPrompt.
  rewrite M_bind_run. unfold Heap.read_array at 1. rewrite Ha. rewrite <- Hlen.
  destruct (length rs =? 0)%nat eqn:Hempty.
  { exists h. repeat split. }
  unfold Heap.spread. rewrite !M_bind_run. unfold Heap.read_array at 1. rewrite Ha.
  unfold Heap.new_array.
  set (a' := fresh (dom (Heap.arrays h))).
  set (h1 := {| Heap.arrays := <[a' := rs]> (Heap.arrays h); Heap.objects := Heap.objects h |}).
  unfold Heap.Array_sort. rewrite !M_bind_run.
  unfold Heap.read_array at 1. cbn [Heap.arrays h1]. rewrite lookup_insert_eq.
  rewrite M_bind_run, (read_objects_ok h1 rs os) by exact Hos.
  set (sorted := stable_sort (fun x y => Core.notAfter D (snd x) (snd y)) (combine rs os)).
  rewrite M_bind_run. unfold Heap.write_array at 1. cbn [Heap.arrays Heap.objects h1].
  set (h2 := {| Heap.arrays := <[a' := List.map fst sorted]> (<[a' := rs]> (Heap.arrays h));
                Heap.objects := Heap.objects h |}).
  unfold mret at 1, Heap.M_ret at 1.
  rewrite M_bind_run. unfold Heap.read_array at 1. cbn [Heap.arrays h2].
  rewrite lookup_insert_eq.
  destruct (combine_fst_snd _ rs os Hos) as (Hfst & Hsnd & Hpairs).
  assert (Hsorted : Forall2 (fun r o => Heap.objects h2 !! r = Some o)
                      (List.map fst sorted) (List.map snd sorted)).
  { apply Forall_pairs_Forall2.
    eapply Permutation_Forall; [|exact Hpairs].
    symmetry. apply stable_sort_Permutation. }
  rewrite M_bind_run, (read_objects_ok h2 _ _ Hsorted).
  exists h2. split; [|split].
  - subst sorted. rewrite stable_sort_map, Hsnd. reflexivity.
  - reflexivity.
  - intros b Hb. cbn [Heap.arrays h2].
    assert (Hne : a' <> b).
    { intros <-. apply (is_fresh (dom (Heap.arrays h))). exact Hb. }
    rewrite !lookup_insert_ne by exact Hne. reflexivity.
Qed.

(** C10: the synthesizer does not change its argument.  On every heap where
    the argument is an array of thoughts, the call returns a prompt, and
    afterwards the argument array holds the same references in the same
    order, every thought object has the fields it had, and no array that
    existed before has changed: the sort rearranges a copy allocated by the
    call.  The prompt is that of the value of the array. *)
Theorem generateSynthesisPrompt_does_not_mutate
    (Date_getTime : jsstring -> option Z) (h : Heap.heap) (thoughts : Heap.ref) :
  Heap.well_formed h thoughts ->
  exists (prompt : jsstring) (h' : Heap.heap),
    Heap.generateSynthesisPrompt Date_getTime thoughts h = Some (prompt, h')
    /\ Heap.arrays h' !! thoughts = Heap.arrays h !! thoughts
    /\ Heap.objects h' = Heap.objects h
    /\ Heap.array_value h' thoughts = Heap.array_value h thoughts
    /\ (forall b, b ∈ dom (Heap.arrays h) -> Heap.arrays h' !! b = Heap.arrays h !! b)
    /\ (forall value, Heap.array_value h thoughts = Some value ->
          prompt = Core.generateSynthesisPrompt Date_getTime value).
Proof.
  intros (rs & Ha & Hrs).
  assert (Hos : exists os, Forall2 (fun r o => Heap.objects h !! r = Some o) rs os).
  { apply mapM_is_Some_2 in Hrs. destruct Hrs as [os Hos]. exists os.
    apply mapM_Some. exact Hos. }
  destruct Hos as [os Hos].
  destruct (generateSynthesisPrompt_run Date_getTime h thoughts rs os Ha Hos)
    as (h' & Hrun & Hobj & Harr).
  assert (Hsame : Heap.arrays h' !! thoughts = Heap.arrays h !! thoughts).
  { apply Harr. apply elem_of_dom. rewrite Ha. eexists. reflexivity. }
  exists (Core.generateSynthesisPrompt Date_getTime os), h'.
  split; [exact Hrun|]. split; [exact Hsame|]. split; [exact Hobj|].
  split; [|split].
  - unfold Heap.array_value. rewrite Hsame, Hobj. reflexivity.
  - exact Harr.
  - intros value Hvalue. unfold Heap.array_value in Hvalue. rewrite Ha in Hvalue.
    apply mapM_Some in Hos. rewrite Hos in Hvalue. injection Hvalue as <-. reflexivity.
Qed.

Lemma generateSynthesisPrompt_does_not_mutate_witness :
  Heap.well_formed demo_heap 1%positive
  /\ exists prompt h',
       Heap.generateSynthesisPrompt toy_getTime 1%positive demo_heap = Some (prompt, h')
       /\ Heap.arrays h' !! 1%positive = Some [10%positive; 11%positive]
       /\ Heap.objects h' = Heap.objects demo_heap.
Proof.
  assert (Hwf : Heap.well_formed demo_heap 1%positive).
  { exists [10%positive; 11%positive]. split; [reflexivity|].
    repeat constructor; eexists; reflexivity. }
  split; [exact Hwf|].
  destruct (generateSynthesisPrompt_does_not_mutate toy_getTime demo_heap 1%positive Hwf)
    as (prompt & h' & Hrun & Harr & Hobj & _).
  exists prompt, h'. split; [exact Hrun|]. split; [|exact Hobj].
  etransitivity; [exact Harr|reflexivity].
Defined.

(** Sorting the argument itself would reorder it: here the critical thought
    moves in front of the low-priority one. *)
Lemma sorting_in_place_reorders_the_argument :
  exists prompt h',
    Heap.generateSynthesisPrompt_in_place toy_getTime 1%positive demo_heap = Some (prompt, h')
    /\ Heap.arrays demo_heap !! 1%positive = Some [10%positive; 11%positive]
    /\ Heap.arrays h' !! 1%positive = Some [11%positive; 10%positive].
Proof.
  eexists. eexists. split; [vm_compute; reflexivity|]. split; reflexivity.
Qed.

(** C9, as stated, fails on the prompt builder inside the plugin: it has no
    case for an empty batch, and applied to one it renders its usual block,
    announcing zero drafted messages, and not the fixed text. *)
Remark plugin_prompt_builder_has_no_empty_case :
  Plugin.generateSynthesisPrompt []
  = lit "**SYSTEM: NETWORK RECOVERED**" ++ [LF; LF]
    ++ lit "While congested, you drafted 0 messages:" ++ [LF; LF; LF; LF]
    ++ lit "**TASK:** Review against current channel state." ++ [LF]
    ++ lit "- Discard obsolete/superseded thoughts" ++ [LF]
    ++ lit "- Synthesize remaining into ONE coherent message" ++ [LF]
    ++ lit "- Do not apologize or mention delays"
  /\ Plugin.generateSynthesisPrompt []
     <> lit "**SYSTEM: No buffered thoughts to synthesize.**".
Proof. split; [reflexivity|]. intros H. vm_compute in H. discriminate H. Qed.

(** C9, amended: on an empty sequence of thoughts the synthesizer of the
    core returns the fixed text
    "**SYSTEM: No buffered thoughts to synthesize.**": it returns (on the
    heap too, leaving it as it was), and what it returns is not the block
    it would render for zero drafted messages.  The prompt builder inside
    the plugin has no such case: on an empty sequence it renders its usual
    block for 0 messages.  Its one caller, the flush loop, never applies it
    to an empty sequence: for an agent with nothing pending it builds no
    prompt and changes nothing, and every block it does produce ends with
    the prompt built from a non-empty list of pending thoughts. *)
Theorem empty_input_gives_fixed_message (Date_getTime : jsstring -> option Z) :
  Core.generateSynthesisPrompt Date_getTime []
  = lit "**SYSTEM: No buffered thoughts to synthesize.**"
  /\ Core.generateSynthesisPrompt Date_getTime [] <> Core.renderPrompt 0 []
  /\ (forall h a,
        Heap.arrays h !! a = Some [] ->
        Heap.generateSynthesisPrompt Date_getTime a h
        = Some (lit "**SYSTEM: No buffered thoughts to synthesize.**", h))
  /\ Plugin.generateSynthesisPrompt []
     = lit "**SYSTEM: NETWORK RECOVERED**" ++ [LF; LF]
       ++ lit "While congested, you drafted 0 messages:" ++ [LF; LF; LF; LF]
       ++ lit "**TASK:** Review against current channel state." ++ [LF]
       ++ lit "- Discard obsolete/superseded thoughts" ++ [LF]
       ++ lit "- Synthesize remaining into ONE coherent message" ++ [LF]
       ++ lit "- Do not apologize or mention delays"
  /\ (forall datetime g agentId c,
        Plugin.getPendingThoughts g agentId = [] ->
        Plugin.flushAgent datetime g agentId c = ((None, g), c))
  /\ (forall datetime g agentId c block,
        fst (fst (Plugin.flushAgent datetime g agentId c)) = Some block ->
        Plugin.getPendingThoughts g agentId <> []
        /\ exists heading,
             block = heading
                     ++ Plugin.generateSynthesisPrompt (Plugin.getPendingThoughts g agentId)).
Proof.
  split; [reflexivity|]. split; [intros H; vm_compute in H; discriminate H|].
  split; [|split; [reflexivity|split]].
  - intros h a Ha. unfold Heap.generateSynthesisPrompt. rewrite M_bind_run.
    unfold Heap.read_array. rewrite Ha. reflexivity.
  - intros datetime g agentId c Hnone. unfold Plugin.flushAgent. rewrite Hnone. reflexivity.
  - intros datetime g agentId c block. unfold Plugin.flushAgent.
    destruct (Plugin.getPendingThoughts g agentId) as [|t0 rest] eqn:Hpending.
    + cbn. intros H. discriminate H.
    + cbn [length Nat.eqb]. unfold mbind, IO_bind.
      destruct (Plugin.markSynthesized datetime g agentId _ c) as [g' c'].
      unfold mret, IO_ret. cbn [fst]. intros H. injection H as <-.
      split; [discriminate|].
      exists (lit "### " ++ agentId ++ lit " (" ++ nat_toString (length (t0 :: rest))
              ++ lit " thoughts)" ++ [LF; LF]).
      rewrite <- !app_assoc. reflexivity.
Qed.

Lemma empty_input_gives_fixed_message_witness :
  Heap.arrays empty_array_heap !! 1%positive = Some []
  /\ Heap.generateSynthesisPrompt toy_getTime 1%positive empty_array_heap
     = Some (lit "**SYSTEM: No buffered thoughts to synthesize.**", empty_array_heap)
  /\ Plugin.getPendingThoughts (globals_of demo_db) (lit "nobody") = []
  /\ Plugin.flushAgent (fun _ => lit "now") (globals_of demo_db) (lit "nobody") (frozen_clock 0)
     = ((None, globals_of demo_db), frozen_clock 0)
  /\ Plugin.getPendingThoughts (globals_of demo_db) (lit "other") <> [].
Proof.
  destruct (empty_input_gives_fixed_message toy_getTime)
    as (_ & _ & Hheap & _ & Hflush & Hblock).
  split; [reflexivity|]. split; [apply Hheap; reflexivity|].
  split; [reflexivity|]. split; [apply Hflush; reflexivity|].
  destruct (Plugin.flushAgent (fun _ => lit "now") (globals_of demo_db) (lit "other")
              (frozen_clock 0)) as [[[block|] g'] c'] eqn:Hrun.
  - apply (Hblock (fun _ => lit "now") (globals_of demo_db) (lit "other") (frozen_clock 0) block).
    rewrite Hrun. reflexivity.
  - vm_compute in Hrun. discriminate Hrun.
Defined.

(** ** The thought store *)

Lemma text_compare_refl a : text_compare a a = Eq.
Proof.
  induction a as [|x a IH]; [reflexivity|]. cbn. rewrite N.compare_refl. exact IH.
Qed.

Lemma text_compare_eq a : forall b, text_compare a b = Eq -> a = b.
Proof.
  induction a as [|x a IH]; intros [|y b] H; cbn in H; try discriminate H; [reflexivity|].
  destruct (N.compare_spec x y) as [->|Hlt|Hgt]; try discriminate H.
  f_equal. apply IH. exact H.
Qed.

Lemma text_compare_antisym a : forall b, text_compare b a = CompOpp (text_compare a b).
Proof.
  induction a as [|x a IH]; intros [|y b]; cbn; try reflexivity.
  rewrite (N.compare_antisym x y).
  destruct (N.compare x y); cbn; try reflexivity. apply IH.
Qed.

Lemma text_compare_Lt_trans a : forall b c,
  text_compare a b = Lt -> text_compare b c = Lt -> text_compare a c = Lt.
Proof.
  induction a as [|x a IH]; intros [|y b] [|z c] Hab Hbc; cbn in *;
    try discriminate; try reflexivity.
  destruct (N.compare_spec x y) as [->|Hxy|Hxy]; try discriminate Hab.
  - destruct (N.compare_spec y z) as [->|Hyz|Hyz]; try discriminate Hbc.
    + eapply IH; eassumption.
    + reflexivity.
  - destruct (N.compare_spec y z) as [<-|Hyz|Hyz]; try discriminate Hbc.
    + destruct (N.compare_spec x y) as [->|H|H]; try reflexivity; lia.
    + destruct (N.compare_spec x z) as [->|H|H]; try reflexivity; lia.
Qed.

Lemma text_leb_total a b : text_leb a b = false -> text_leb b a = true.
Proof.
  unfold text_leb. rewrite (text_compare_antisym a b).
  destruct (text_compare a b); cbn; congruence.
Qed.

Lemma text_leb_trans a b c :
  text_leb a b = true -> text_leb b c = true -> text_leb a c = true.
Proof.
  unfold text_leb. intros Hab Hbc.
  destruct (text_compare a b) eqn:Eab; try discriminate Hab.
  - apply text_compare_eq in Eab. subst b. exact Hbc.
  - destruct (text_compare b c) eqn:Ebc; try discriminate Hbc.
    + apply text_compare_eq in Ebc. subst c. rewrite Eab. reflexivity.
    + rewrite (text_compare_Lt_trans a b c Eab Ebc). reflexivity.
Qed.

Lemma jsstring_eqb_eq a b : jsstring_eqb a b = true <-> a = b.
Proof.
  unfold jsstring_eqb. split.
  - intros H. apply text_compare_eq. destruct (text_compare a b); congruence.
  - intros ->. rewrite text_compare_refl. reflexivity.
Qed.

Lemma Priority_eqb_eq a b : Priority_eqb a b = true <-> a = b.
Proof. destruct a, b; cbn; split; congruence. Qed.

Lemma Status_eqb_eq a b : Status_eqb a b = true <-> a = b.
Proof. destruct a, b; cbn; split; congruence. Qed.

(** As texts, the priorities compare like their ranks. *)
Lemma priority_text_compare p q :
  text_compare (Plugin.priority_text p) (Plugin.priority_text q)
  = (Core.priorityOrder p ?= Core.priorityOrder q)%Z.
Proof. destruct p, q; reflexivity. Qed.

Lemma priorityOrder_inj p q : Core.priorityOrder p = Core.priorityOrder q -> p = q.
Proof. destruct p, q; cbn; congruence. Qed.

Lemma order_by_spec a b : Plugin.order_by a b = true <-> pending_order a b.
Proof.
  unfold Plugin.order_by, pending_order. rewrite priority_text_compare.
  destruct (Z.compare_spec (Core.priorityOrder (priority a)) (Core.priorityOrder (priority b)))
    as [Heq|Hlt|Hgt].
  - apply priorityOrder_inj in Heq. split.
    + intros H. right. split; assumption.
    + intros [H|[_ H]]; [rewrite Heq in H; lia | exact H].
  - split; [intros _; left; exact Hlt | reflexivity].
  - split; [discriminate|].
    intros [H|[H _]]; [lia | rewrite H in Hgt; lia].
Qed.

Lemma order_by_total a b : Plugin.order_by a b = false -> Plugin.order_by b a = true.
Proof.
  intros H. apply order_by_spec.
  assert (Hn : ~ pending_order a b) by (rewrite <- order_by_spec; congruence).
  unfold pending_order in *.
  destruct (Z.lt_trichotomy (Core.priorityOrder (priority a)) (Core.priorityOrder (priority b)))
    as [Hlt|[Heq|Hgt]].
  - exfalso. apply Hn. left. exact Hlt.
  - apply priorityOrder_inj in Heq. right. split; [congruence|].
    apply text_leb_total. destruct (text_leb (created_at a) (created_at b)) eqn:E;
      [|reflexivity].
    exfalso. apply Hn. right. split; [exact Heq|reflexivity].
  - left. lia.
Qed.

Lemma pending_order_trans a b c : pending_order a b -> pending_order b c -> pending_order a c.
Proof.
  unfold pending_order. intros [Hab|[Hab Tab]] [Hbc|[Hbc Tbc]].
  - left. lia.
  - left. rewrite <- Hbc. exact Hab.
  - left. rewrite Hab. exact Hbc.
  - right. split; [congruence|]. eapply text_leb_trans; eassumption.
Qed.

Section StableSortFacts.
Context {A : Type} (leb : A -> A -> bool).
Hypothesis leb_total : forall x y, leb x y = false -> leb y x = true.
Hypothesis leb_trans : forall x y z, leb x y = true -> leb y z = true -> leb x z = true.

Lemma insert_sorted_StronglySorted x l :
  StronglySorted (fun a b => leb a b = true) l ->
  StronglySorted (fun a b => leb a b = true) (insert_sorted leb x l).
Proof.
  induction 1 as [|y l Hl IH Hy]; cbn.
  - constructor; constructor.
  - destruct (leb x y) eqn:Hxy.
    + constructor; [constructor; assumption|].
      constructor; [exact Hxy|].
      eapply Forall_impl; [exact Hy|]. intros z Hz. cbn in *. eapply leb_trans; eassumption.
    + constructor; [exact IH|].
      eapply Permutation_Forall; [symmetry; apply insert_sorted_Permutation|].
      constructor; [apply leb_total; exact Hxy | exact Hy].
Qed.

Lemma stable_sort_StronglySorted l :
  StronglySorted (fun a b => leb a b = true) (stable_sort leb l).
Proof.
  induction l as [|x l IH]; [constructor|].
  cbn [stable_sort fold_right]. apply insert_sorted_StronglySorted. exact IH.
Qed.
End StableSortFacts.

Lemma StronglySorted_weaken {A} (R R' : A -> A -> Prop) l :
  (forall a b, R a b -> R' a b) -> StronglySorted R l -> StronglySorted R' l.
Proof.
  intros Himp. induction 1 as [|x l _ IH Hx]; constructor; [exact IH|].
  eapply Forall_impl; [exact Hx|]. intros y Hy. apply Himp. exact Hy.
Qed.

(** Elements that the order does not separate keep their relative order. *)
Lemma stable_sort_stable {A} (leb : A -> A -> bool) (p : A -> bool) l :
  (forall x y, p x = true -> p y = true -> leb x y = true) ->
  List.filter p (stable_sort leb l) = List.filter p l.
Proof.
  intros Hclass.
  assert (Hins : forall x s,
            List.filter p (insert_sorted leb x s)
            = if p x then x :: List.filter p s else List.filter p s).
  { intros x s. induction s as [|y s IH]; cbn.
    - destruct (p x); reflexivity.
    - destruct (leb x y) eqn:Hxy; cbn.
      + destruct (p x); reflexivity.
      + rewrite IH. destruct (p x) eqn:Hx; [|reflexivity].
        destruct (p y) eqn:Hy; [|reflexivity].
        rewrite (Hclass x y Hx Hy) in Hxy. discriminate Hxy. }
  induction l as [|x l IH]; [reflexivity|].
  cbn [stable_sort fold_right]. fold (stable_sort leb l).
  rewrite Hins, IH. cbn. destruct (p x); reflexivity.
Qed.

Lemma is_pending_of_spec agentId r :
  Plugin.is_pending_of agentId r = true <-> agent_id r = agentId /\ status r = pending.
Proof.
  unfold Plugin.is_pending_of. rewrite andb_true_iff, jsstring_eqb_eq, Status_eqb_eq.
  reflexivity.
Qed.

Lemma same_sort_key_order k x y :
  same_sort_key k x = true -> same_sort_key k y = true -> Plugin.order_by x y = true.
Proof.
  unfold same_sort_key. rewrite !andb_true_iff, !Priority_eqb_eq, !jsstring_eqb_eq.
  intros [Hpx Hcx] [Hpy Hcy]. apply order_by_spec. right.
  split; [congruence|]. rewrite Hcx, Hcy. unfold text_leb. rewrite text_compare_refl.
  reflexivity.
Qed.

(** *** The same query in the plugin before the rewrite *)

Lemma old_is_pending_of_spec a r :
  ThoughtBuffer.is_pending_of a r = true
  <-> ThoughtBuffer.agent_id r = a /\ ThoughtBuffer.synthesized_at r = None
      /\ ThoughtBuffer.discarded r = 0%Z.
Proof.
  unfold ThoughtBuffer.is_pending_of, ThoughtBuffer.is_pending.
  rewrite andb_true_iff, jsstring_eqb_eq.
  destruct (ThoughtBuffer.synthesized_at r); [intuition congruence|].
  rewrite Z.eqb_eq. tauto.
Qed.

Lemma old_order_by_total x y :
  ThoughtBuffer.order_by x y = false -> ThoughtBuffer.order_by y x = true.
Proof. apply text_leb_total. Qed.

Lemma old_order_by_trans x y z :
  ThoughtBuffer.order_by x y = true -> ThoughtBuffer.order_by y z = true ->
  ThoughtBuffer.order_by x z = true.
Proof. apply text_leb_trans. Qed.

Lemma text_leb_refl a : text_leb a a = true.
Proof. unfold text_leb. rewrite text_compare_refl. reflexivity. Qed.

Lemma filter_map_comm {A B} (f : A -> B) (p : B -> bool) (q : A -> bool) l :
  (forall x, p (f x) = q x) ->
  List.filter p (List.map f l) = List.map f (List.filter q l).
Proof.
  intros H. induction l as [|x l IH]; [reflexivity|]. cbn [List.map List.filter].
  rewrite H. destruct (q x); cbn [List.map]; rewrite IH; reflexivity.
Qed.

Lemma old_getPendingThoughts_db g d a :
  ThoughtBuffer.db g = Some d ->
  ThoughtBuffer.getPendingThoughts g a = ThoughtBuffer.select_pending a d.
Proof. intros H. unfold ThoughtBuffer.getPendingThoughts. rewrite H. reflexivity. Qed.

(** C4, as stated, fails on the plugin before the rewrite (v0.2.0): its
    query orders by creation time alone, so a low thought created before a
    high one comes back in front of it, against the ranks high, normal, low
    by which that version sorts elsewhere. *)
Lemma old_pending_lists_low_before_high :
  let result := ThoughtBuffer.getPendingThoughts (old_globals old_db) (lit "main") in
  List.map ThoughtBuffer.priority result = [ThoughtBuffer.low; ThoughtBuffer.high]
  /\ ~ StronglySorted
         (fun x y => (ThoughtBuffer.priorityOrder (ThoughtBuffer.priority x)
                      <= ThoughtBuffer.priorityOrder (ThoughtBuffer.priority y))%Z)
         result.
Proof.
  split; [reflexivity|]. intros H. vm_compute in H.
  inversion H as [|x l _ Hx]; subst. inversion Hx as [|y l' Hxy _]; subst.
  apply Hxy. reflexivity.
Qed.

(** C4, amended: in every state of the store, hence after any interleaving
    of inserts, [pending(agentId)] returns exactly the pending rows of that
    agent, each as often as the table holds it.  In the plugin as it is
    (v0.2.1) they come ordered by priority P0, P1, P2 and, within one
    priority, by ascending [created_at]; rows equal in both keep the order
    of their insertion.  In the plugin before the rewrite (v0.2.0), where a
    row is pending when it is neither synthesized nor discarded, they come
    ordered by ascending [created_at] alone, rows with equal times in the
    order of their insertion, and the priorities play no part. *)
Theorem pending_is_filtered_and_ordered
    (g : Plugin.Globals) (d : Plugin.Database)
    (g0 : ThoughtBuffer.Globals) (d0 : ThoughtBuffer.Database) (agentId : jsstring) :
  Plugin.db g = Some d ->
  ThoughtBuffer.db g0 = Some d0 ->
  let result := Plugin.getPendingThoughts g agentId in
  let result0 := ThoughtBuffer.getPendingThoughts g0 agentId in
  ((forall r, In r result <->
              In r (Plugin.buffered_thoughts d) /\ agent_id r = agentId /\ status r = pending)
   /\ Permutation result
        (List.filter (Plugin.is_pending_of agentId) (Plugin.buffered_thoughts d))
   /\ StronglySorted pending_order result
   /\ (forall k, List.filter (same_sort_key k) result
                 = List.filter (same_sort_key k)
                     (List.filter (Plugin.is_pending_of agentId) (Plugin.buffered_thoughts d))))
  /\ ((forall r, In r result0 <->
                 In r (ThoughtBuffer.buffered_thoughts d0)
                 /\ ThoughtBuffer.agent_id r = agentId
                 /\ ThoughtBuffer.synthesized_at r = None
                 /\ ThoughtBuffer.discarded r = 0%Z)
      /\ Permutation result0
           (List.filter (ThoughtBuffer.is_pending_of agentId)
              (ThoughtBuffer.buffered_thoughts d0))
      /\ StronglySorted
           (fun x y => text_leb (ThoughtBuffer.created_at x) (ThoughtBuffer.created_at y) = true)
           result0
      /\ (forall stamp,
            List.filter (fun r => jsstring_eqb (ThoughtBuffer.created_at r) stamp) result0
            = List.filter (fun r => jsstring_eqb (ThoughtBuffer.created_at r) stamp)
                (List.filter (ThoughtBuffer.is_pending_of agentId)
                   (ThoughtBuffer.buffered_thoughts d0)))
      /\ (forall f,
            List.map ThoughtBuffer.id
              (ThoughtBuffer.getPendingThoughts (ThoughtBuffer.set_db (relabelled f d0) g0)
                 agentId)
            = List.map ThoughtBuffer.id result0)).
Proof.
  intros Hdb Hdb0 result result0. subst result result0. split.
  - unfold Plugin.getPendingThoughts. rewrite Hdb.
    unfold Plugin.select_pending. split; [|split; [|split]].
    + intros r. rewrite stable_sort_In, filter_In, is_pending_of_spec. reflexivity.
    + apply stable_sort_Permutation.
    + eapply StronglySorted_weaken; [|apply stable_sort_StronglySorted].
      * intros a b Hab. apply order_by_spec. exact Hab.
      * apply order_by_total.
      * intros x y z Hxy Hyz. apply order_by_spec.
        eapply pending_order_trans; apply order_by_spec; eassumption.
    + intros k. apply stable_sort_stable. apply same_sort_key_order.
  - rewrite (old_getPendingThoughts_db g0 d0 agentId Hdb0).
    unfold ThoughtBuffer.select_pending. split; [|split; [|split; [|split]]].
    + intros r. rewrite stable_sort_In, filter_In, old_is_pending_of_spec. reflexivity.
    + apply stable_sort_Permutation.
    + apply (stable_sort_StronglySorted ThoughtBuffer.order_by old_order_by_total
               old_order_by_trans).
    + intros stamp. apply stable_sort_stable. intros x y Hx Hy.
      apply jsstring_eqb_eq in Hx. apply jsstring_eqb_eq in Hy.
      unfold ThoughtBuffer.order_by. rewrite Hx, Hy. apply text_leb_refl.
    + intros f.
      rewrite (old_getPendingThoughts_db (ThoughtBuffer.set_db (relabelled f d0) g0)
                 (relabelled f d0) agentId eq_refl).
      unfold ThoughtBuffer.select_pending, relabelled. cbn [ThoughtBuffer.buffered_thoughts].
      rewrite (filter_map_comm (with_priority f) (ThoughtBuffer.is_pending_of agentId)
                 (ThoughtBuffer.is_pending_of agentId)) by reflexivity.
      change ThoughtBuffer.order_by
        with (fun a b : ThoughtBuffer.Thought => ThoughtBuffer.order_by a b) at 1.
      rewrite <- (stable_sort_map (with_priority f) ThoughtBuffer.order_by).
      rewrite map_map. reflexivity.
Qed.

Lemma pending_is_filtered_and_ordered_witness :
  Plugin.db (globals_of demo_db) = Some demo_db
  /\ ThoughtBuffer.db (old_globals old_db) = Some old_db
  /\ List.map id (Plugin.getPendingThoughts (globals_of demo_db) (lit "main")) = [2; 4; 1]%Z
  /\ StronglySorted pending_order (Plugin.getPendingThoughts (globals_of demo_db) (lit "main"))
  /\ List.map ThoughtBuffer.id
       (ThoughtBuffer.getPendingThoughts (old_globals old_db) (lit "main")) = [1; 2]%Z
  /\ StronglySorted
       (fun x y => text_leb (ThoughtBuffer.created_at x) (ThoughtBuffer.created_at y) = true)
       (ThoughtBuffer.getPendingThoughts (old_globals old_db) (lit "main")).
Proof.
  destruct (pending_is_filtered_and_ordered (globals_of demo_db) demo_db
              (old_globals old_db) old_db (lit "main") eq_refl eq_refl)
    as ((_ & _ & Hnew & _) & (_ & _ & Hold & _)).
  split; [reflexivity|]. split; [reflexivity|]. split; [reflexivity|].
  split; [exact Hnew|]. split; [reflexivity|exact Hold].
Defined.

Lemma NoDup_map_inj_on {A B} (f : A -> B) (l : list A) x y :
  NoDup (List.map f l) -> In x l -> In y l -> f x = f y -> x = y.
Proof.
  induction l as [|z l IH]; [intros _ []|].
  cbn [List.map]. intros Hnd Hx Hy Hf. apply NoDup_cons in Hnd. destruct Hnd as [Hz Hnd].
  destruct Hx as [->|Hx], Hy as [->|Hy].
  - reflexivity.
  - exfalso. apply Hz. rewrite Hf. apply list_elem_of_In. apply in_map. exact Hy.
  - exfalso. apply Hz. rewrite <- Hf. apply list_elem_of_In. apply in_map. exact Hx.
  - apply IH; assumption.
Qed.

Lemma set_status_not_pending agentId r :
  Plugin.is_pending_of agentId (Plugin.set_status synthesized r) = false.
Proof. unfold Plugin.is_pending_of. cbn. apply andb_false_r. Qed.

Lemma synthesize_if_pending_not_pending agentId r :
  Plugin.is_pending_of agentId (synthesize_if_pending agentId r) = false.
Proof.
  unfold synthesize_if_pending. destruct (Plugin.is_pending_of agentId r) eqn:E;
    [apply set_status_not_pending | exact E].
Qed.

Lemma synthesize_if_pending_id agentId r : id (synthesize_if_pending agentId r) = id r.
Proof. unfold synthesize_if_pending. destruct (Plugin.is_pending_of agentId r); reflexivity. Qed.

(** The update by collected ids is the transition of the pending rows of
    the agent, and of no other row. *)
Lemma update_by_ids d agentId :
  NoDup (List.map id (Plugin.buffered_thoughts d)) ->
  Plugin.update_synthesized (List.map id (Plugin.select_pending agentId d))
                            (Plugin.buffered_thoughts d)
  = List.map (synthesize_if_pending agentId) (Plugin.buffered_thoughts d).
Proof.
  intros Hnd. unfold Plugin.update_synthesized. apply map_ext_in. intros r Hr.
  unfold synthesize_if_pending.
  destruct (Plugin.is_pending_of agentId r) eqn:Hp.
  - rewrite bool_decide_eq_true_2; [reflexivity|].
    apply list_elem_of_In. apply in_map. unfold Plugin.select_pending.
    apply stable_sort_In. apply filter_In. split; assumption.
  - rewrite bool_decide_eq_false_2; [reflexivity|].
    intros Hin. apply list_elem_of_In in Hin. apply in_map_iff in Hin.
    destruct Hin as (r' & Hid & Hin). unfold Plugin.select_pending in Hin.
    apply stable_sort_In in Hin. apply filter_In in Hin. destruct Hin as [Hin Hp'].
    assert (r' = r) by (eapply NoDup_map_inj_on; eassumption).
    subst r'. congruence.
Qed.

Lemma no_pending_after_transition agentId rows :
  List.filter (Plugin.is_pending_of agentId) (List.map (synthesize_if_pending agentId) rows) = [].
Proof.
  induction rows as [|r rows IH]; [reflexivity|].
  cbn. rewrite synthesize_if_pending_not_pending. exact IH.
Qed.

Lemma markSynthesized_nothing_pending datetime g agentId output c :
  Plugin.getPendingThoughts g agentId = [] ->
  Plugin.markSynthesized datetime g agentId output c = (g, c).
Proof.
  intros Hnone. unfold Plugin.markSynthesized. destruct (Plugin.db g); [|reflexivity].
  rewrite Hnone. reflexivity.
Qed.

(** Both operations that write the table keep its key constraint. *)
Lemma markSynthesized_store_ok datetime g d agentId output c :
  Plugin.db g = Some d -> store_ok d ->
  exists d', Plugin.db (fst (Plugin.markSynthesized datetime g agentId output c)) = Some d'
             /\ store_ok d'.
Proof.
  intros Hdb [Hnd Hseq]. unfold Plugin.markSynthesized. rewrite Hdb.
  unfold Plugin.getPendingThoughts. rewrite Hdb.
  destruct (length (Plugin.select_pending agentId d) =? 0)%nat.
  - exists d. split; [exact Hdb|]. split; assumption.
  - eexists. split; [reflexivity|]. rewrite (update_by_ids d agentId Hnd).
    split; cbn [Plugin.buffered_thoughts Plugin.buffered_thoughts_seq].
    + rewrite map_map. erewrite map_ext; [exact Hnd|].
      intros r. apply synthesize_if_pending_id.
    + apply Forall_map. eapply Forall_impl; [exact Hseq|].
      intros r Hr. cbn. rewrite synthesize_if_pending_id. exact Hr.
Qed.

Lemma insertThought_store_ok datetime g d agentId ch tg text prio c :
  Plugin.db g = Some d -> store_ok d ->
  exists d', Plugin.db (snd (fst (Plugin.insertThought datetime g agentId ch tg text prio c)))
             = Some d'
             /\ store_ok d'.
Proof.
  intros Hdb [Hnd Hseq]. unfold Plugin.insertThought. rewrite Hdb.
  destruct (Plugin.parse_priority _) as [p|].
  - eexists. split; [reflexivity|].
    split; cbn [Plugin.buffered_thoughts Plugin.buffered_thoughts_seq].
    + rewrite map_app. cbn [List.map id]. apply NoDup_app. split; [exact Hnd|]. split.
      * intros x Hx Hx'. apply list_elem_of_In in Hx. apply in_map_iff in Hx.
        destruct Hx as (r & <- & Hr). rewrite Forall_forall in Hseq.
        apply list_elem_of_In in Hr. specialize (Hseq r Hr).
        apply list_elem_of_In in Hx'. destruct Hx' as [Hx'|[]]. lia.
      * apply NoDup_singleton.
    + apply Forall_app. split.
      * eapply Forall_impl; [exact Hseq|]. intros r Hr. cbn in *. lia.
      * constructor; [cbn; lia|constructor].
  - exists d. split; [exact Hdb|]. split; assumption.
Qed.

(** C3, as stated, fails on the recorded output: with an empty output text
    the three pending thoughts of "main" are synthesized and one event with
    count 3 is appended, but its [final_output] is NULL, not the text. *)
Lemma empty_output_is_recorded_as_null :
  let g' := fst (Plugin.markSynthesized demo_datetime (globals_of demo_db) (lit "main")
                   (Some []) (frozen_clock 0)) in
  exists d' ev,
    Plugin.db g' = Some d'
    /\ Plugin.synthesis_events d' = [ev]
    /\ Plugin.thoughts_count ev = 3%Z
    /\ Plugin.final_output ev = None
    /\ Plugin.final_output ev <> Some [].
Proof.
  eexists. eexists. split; [reflexivity|]. split; [reflexivity|].
  split; [reflexivity|]. split; [reflexivity|]. discriminate.
Qed.

(** C3 (amended): when the agent has pending entries, [markSynthesized]
    turns exactly its pending rows into synthesized ones and appends exactly
    one event, which records the agent, the number of entries and the output;
    an output that is absent or the empty text is recorded as NULL.  After
    it the agent has nothing pending, so a repeated call changes nothing.
    When the agent has nothing pending, the call changes nothing and records
    no event. *)
Theorem markSynthesized_consumes_exactly_once
    (datetime : Z -> jsstring) (g : Plugin.Globals) (d : Plugin.Database)
    (agentId : jsstring) (output : option jsstring) (c : Clock) :
  let batch := Plugin.getPendingThoughts g agentId in
  let g' := fst (Plugin.markSynthesized datetime g agentId output c) in
  (batch = [] -> Plugin.markSynthesized datetime g agentId output c = (g, c))
  /\ (Plugin.db g = Some d -> store_ok d -> batch <> [] ->
      exists d' ev,
        Plugin.db g' = Some d'
        /\ Plugin.buffered_thoughts d'
           = List.map (synthesize_if_pending agentId) (Plugin.buffered_thoughts d)
        /\ Plugin.synthesis_events d' = Plugin.synthesis_events d ++ [ev]
        /\ Plugin.event_agent_id ev = agentId
        /\ Plugin.thoughts_count ev = Z.of_nat (length batch)
        /\ (forall text, output = Some text -> text <> [] -> Plugin.final_output ev = Some text)
        /\ (output = None \/ output = Some [] -> Plugin.final_output ev = None)
        /\ Plugin.getPendingThoughts g' agentId = []
        /\ (forall output' c', Plugin.markSynthesized datetime g' agentId output' c' = (g', c'))).
Proof.
  intros batch g'. split.
  - apply markSynthesized_nothing_pending.
  - intros Hdb [Hnd _] Hbatch. subst g' batch.
    unfold Plugin.markSynthesized. rewrite Hdb.
    destruct (Plugin.getPendingThoughts g agentId) as [|t0 rest] eqn:Hpend; [contradiction|].
    cbn [length Nat.eqb]. unfold mbind, IO_bind. rewrite Date_now_run. cbn [fst].
    assert (Hsel : Plugin.select_pending agentId d = t0 :: rest).
    { unfold Plugin.getPendingThoughts in Hpend. rewrite Hdb in Hpend. exact Hpend. }
    rewrite <- Hsel, (update_by_ids d agentId Hnd), Hsel.
    eexists. eexists. split; [reflexivity|].
    cbn [Plugin.buffered_thoughts Plugin.synthesis_events Plugin.event_agent_id
         Plugin.thoughts_count Plugin.final_output].
    split; [reflexivity|]. split; [reflexivity|]. split; [reflexivity|].
    split; [rewrite length_map; reflexivity|].
    split; [intros text -> Hne; destruct text; [contradiction|reflexivity]|].
    split; [intros [->| ->]; reflexivity|].
    assert (Hafter : Plugin.getPendingThoughts
                       (Plugin.set_db
                          {| Plugin.buffered_thoughts :=
                               List.map (synthesize_if_pending agentId) (Plugin.buffered_thoughts d);
                             Plugin.buffered_thoughts_seq := Plugin.buffered_thoughts_seq d;
                             Plugin.synthesis_events :=
                               Plugin.synthesis_events d
                               ++ [{| Plugin.event_id := (Plugin.synthesis_events_seq d + 1)%Z;
                                      Plugin.event_agent_id := agentId;
                                      Plugin.thoughts_count :=
                                        Z.of_nat (length (List.map id (t0 :: rest)));
                                      Plugin.final_output := Plugin.or_null output;
                                      Plugin.triggered_at := datetime (wall c (reads c)) |}];
                             Plugin.synthesis_events_seq := (Plugin.synthesis_events_seq d + 1)%Z |}
                          g) agentId = []).
    { unfold Plugin.getPendingThoughts, Plugin.set_db, Plugin.select_pending.
      cbn [Plugin.db Plugin.buffered_thoughts].
      rewrite no_pending_after_transition. reflexivity. }
    split; [exact Hafter|].
    intros output' c'. apply markSynthesized_nothing_pending. exact Hafter.
Qed.

Lemma markSynthesized_consumes_exactly_once_witness :
  Plugin.db (globals_of demo_db) = Some demo_db
  /\ store_ok demo_db
  /\ Plugin.getPendingThoughts (globals_of demo_db) (lit "main") <> []
  /\ exists d' ev,
       Plugin.db (fst (Plugin.markSynthesized demo_datetime (globals_of demo_db) (lit "main")
                         (Some (lit "one message")) (frozen_clock 0))) = Some d'
       /\ Plugin.synthesis_events d' = [ev]
       /\ Plugin.thoughts_count ev = 3%Z
       /\ Plugin.final_output ev = Some (lit "one message").
Proof.
  assert (Hok : store_ok demo_db).
  { split.
    - apply (bool_decide_eq_true_1 (NoDup (List.map id (Plugin.buffered_thoughts demo_db)))).
      vm_compute. reflexivity.
    - repeat constructor; cbn; lia. }
  split; [reflexivity|]. split; [exact Hok|]. split; [discriminate|].
  destruct (markSynthesized_consumes_exactly_once demo_datetime (globals_of demo_db) demo_db
              (lit "main") (Some (lit "one message")) (frozen_clock 0))
    as [_ Hsome].
  destruct (Hsome eq_refl Hok) as (d' & ev & Hdb & _ & Hev & _ & Hcount & Hout & _);
    [discriminate|].
  exists d', ev. split; [exact Hdb|]. split; [exact Hev|].
  split; [exact Hcount|]. apply Hout; [reflexivity|discriminate].
Defined.

(** ** The unit tests of the repository, replayed on the embedding *)

(** latency-tracker.test.ts, [record()]. *)
Example test_record :
  Core.getSampleCount (fst (Core.record 500 (Core.new_LatencyTracker 100) (frozen_clock 1000))) = 1
  /\ (let '(t, c) := Core.record (-500) (Core.new_LatencyTracker 100) (frozen_clock 1000) in
      fst (Core.getAverage 60000 0 t c) == 0)%Q
  /\ (let '(t, c) := Core.record_all [0; 100; 200; 300; 400; 500; 600; 700; 800; 900]%Z
                       (Core.new_LatencyTracker 5) (frozen_clock 1000) in
      Core.getSampleCount t = 5 /\ fst (Core.getMax 60000 0 t c) = 900%Z).
Proof. vm_compute. repeat split; reflexivity. Qed.

(** latency-tracker.test.ts, [getAverage()] and [getMax()]: the fallback for
    an empty window, the mean and the maximum, and samples injected outside
    the window (the clock shows 200000). *)
Example test_average_and_max :
  let empty := Core.new_LatencyTracker 100 in
  let old_and_recent :=
    Core._injectSample 199500 200
      (Core._injectSample 199000 100 (Core._injectSample 80000 9999 empty)) in
  (fst (Core.getAverage 60000 42 empty (frozen_clock 1000)) == 42)%Q
  /\ fst (Core.getMax 60000 99 empty (frozen_clock 1000)) = 99%Z
  /\ (fst (Core.getAverage 60000 0 (tracker_of [100; 200; 300]%Z) (frozen_clock 1000)) == 200)%Q
  /\ fst (Core.getMax 60000 0 (tracker_of [50; 200; 100]%Z) (frozen_clock 1000)) = 200%Z
  /\ (fst (Core.getAverage 60000 0 old_and_recent (frozen_clock 200000)) == 150)%Q
  /\ fst (Core.getMax 60000 0 old_and_recent (frozen_clock 200000)) = 200%Z
  /\ Core.getSampleCount (Core.clear old_and_recent) = 0.
Proof. vm_compute. repeat split; reflexivity. Qed.

(** should-buffer.test.ts. *)
Example test_shouldBuffer :
  let decide tracker state := fst (Core.shouldBuffer tracker 5000 state (frozen_clock 1000)) in
  let forced := {| Core.globalForcedBuffering := true; Core.simulatedLatencyMs := 0;
                   Core.systemHalted := false |} in
  let simulated ms := {| Core.globalForcedBuffering := false; Core.simulatedLatencyMs := ms;
                         Core.systemHalted := false |} in
  let forced_and_simulated :=
    {| Core.globalForcedBuffering := true; Core.simulatedLatencyMs := 10000;
       Core.systemHalted := false |} in
  Core.buffering (decide (tracker_of [1000%Z]) no_override) = false
  /\ Core.reason (decide (tracker_of [1000%Z]) no_override) = lit "healthy"
  /\ Core.buffering (decide (tracker_of [5000%Z]) no_override) = false
  /\ Core.buffering (decide (tracker_of [6000%Z]) no_override) = true
  /\ Core.reason (decide (tracker_of [6000%Z]) no_override) = lit "latency 6000ms > 5000ms"
  /\ Core.buffering (decide (tracker_of [100%Z]) forced) = true
  /\ Core.reason (decide (tracker_of [100%Z]) forced) = lit "manual override"
  /\ Core.buffering (decide (tracker_of []) (simulated 20000%Z)) = true
  /\ Core.reason (decide (tracker_of []) (simulated 20000%Z)) = lit "simulated 20000ms"
  /\ (Core.latencyMs (decide (tracker_of []) (simulated 20000%Z)) == 20000)%Q
  /\ Core.buffering (decide (tracker_of []) (simulated 1000%Z)) = false
  /\ Core.reason (decide (tracker_of []) all_overrides_on) = lit "SYSTEM HALTED"
  /\ Core.reason (decide (tracker_of [20000%Z]) forced_and_simulated) = lit "manual override".
Proof. vm_compute. repeat split; reflexivity. Qed.

(** validation.test.ts. *)
Example test_validation :
  Core.validatePriority (JsString (lit "P0")) = P0
  /\ Core.validatePriority (JsString (lit "P1")) = P1
  /\ Core.validatePriority (JsString (lit "P2")) = P2
  /\ Core.validatePriority (JsString (lit "P99")) = P1
  /\ Core.validatePriority (JsString []) = P1
  /\ Core.validatePriority JsNull = P1
  /\ Core.validatePriority (JsNum (Finite 1)) = P1
  /\ Core.validateThought (JsString (lit "Hello world")) = Some (lit "Hello world")
  /\ Core.validateThought JsUndefined = None
  /\ Core.validateThought (JsNum (Finite 123)) = None
  /\ Core.validateThought (JsString []) = None
  /\ Core.validateThought (JsString [LF; 9%N]) = None
  /\ Core.validateLatency (JsNum (Finite 500)) = 500%Z
  /\ Core.validateLatency (JsNum (Finite (5007 # 10))) = 501%Z
  /\ Core.validateLatency (JsNum (Finite (5002 # 10))) = 500%Z
  /\ Core.validateLatency (JsNum (Finite (-100))) = 0%Z
  /\ Core.validateLatency (JsString (lit "500")) = 0%Z
  /\ Core.validateLatency (JsNum PosInfinity) = 0%Z
  /\ Core.validateLatency (JsNum NegInfinity) = 0%Z
  /\ Core.validateLatency (JsNum NaN) = 0%Z
  /\ Core.validateLatency (JsNum (Finite 999999999)) = 999999999%Z.
Proof. vm_compute. repeat split; reflexivity. Qed.

(** The synthesizer tests of the QA plan: priority before time, tags, the
    note on critical thoughts, escaped quotes. *)
Example test_generateSynthesisPrompt :
  let mixed := [ thought 1 P2 (lit "10") (lit "Low priority");
                 thought 2 P0 (lit "30") (lit "Critical");
                 thought 3 P1 (lit "20") (lit "Normal");
                 thought 4 P1 (lit "15") (lit "He said " ++ [DQUOTE] ++ lit "hello" ++ [DQUOTE]) ] in
  List.map id (stable_sort (Core.notAfter toy_getTime) mixed) = [2; 4; 3; 1]%Z
  /\ Core.generateSynthesisPrompt toy_getTime mixed
     = lit "**SYSTEM: NETWORK RECOVERED**" ++ [LF; LF]
       ++ lit "While congested, you drafted 4 messages:" ++ [LF; LF]
       ++ lit "1. [30] [CRITICAL] " ++ [DQUOTE] ++ lit "Critical" ++ [DQUOTE; LF]
       ++ lit "2. [15] " ++ [DQUOTE] ++ lit "He said " ++ [BACKSLASH; DQUOTE] ++ lit "hello"
       ++ [BACKSLASH; DQUOTE; DQUOTE; LF]
       ++ lit "3. [20] " ++ [DQUOTE] ++ lit "Normal" ++ [DQUOTE; LF]
       ++ lit "4. [10] [low] " ++ [DQUOTE] ++ lit "Low priority" ++ [DQUOTE; LF]
       ++ [LF; LF] ++ lit "**Note:** 1 CRITICAL thought(s) " ++ [EM_DASH]
       ++ lit " preserve unless clearly obsolete." ++ [LF; LF]
       ++ lit "**TASK:** Review against current channel state." ++ [LF]
       ++ lit "- Discard obsolete/superseded thoughts" ++ [LF]
       ++ lit "- Synthesize remaining into ONE coherent message" ++ [LF]
       ++ lit "- Do not apologize or mention delays".
Proof. vm_compute. split; reflexivity. Qed.

(** The scenario of the store: inserting P2, P0, P1 for "main" and reading
    the pending thoughts back. *)
Example test_insert_then_pending :
  let start := globals_of {| Plugin.buffered_thoughts := []; Plugin.buffered_thoughts_seq := 0;
                             Plugin.synthesis_events := []; Plugin.synthesis_events_seq := 0 |} in
  let insert g text prio c :=
    let '(_, g', c') := Plugin.insertThought demo_datetime g (lit "main") (lit "slack") []
                          text prio c in (g', c') in
  let '(g1, c1) := insert start (lit "low") (lit "P2") slow_clock in
  let '(g2, c2) := insert g1 (lit "critical") (lit "P0") c1 in
  let '(g3, c3) := insert g2 (lit "normal") [] c2 in
  List.map content (Plugin.getPendingThoughts g3 (lit "main"))
  = [lit "critical"; lit "normal"; lit "low"]
  /\ fst (fst (Plugin.insertThought demo_datetime g3 (lit "main") (lit "slack") []
                 (lit "x") (lit "urgent") c3))
     = Plugin.Threw Plugin.CHECK_FAILED.
Proof. vm_compute. split; reflexivity. Qed.

(* ===================================================================== *)
(** * Further properties of the engine                                    *)
(* ===================================================================== *)

(** ** The core tracker and the decision *)

Lemma push_shift_ok s t :
  (0 <= Core.sample_latencyMs s)%Z -> tracker_ok t -> tracker_ok (Core.push_shift s t).
Proof.
  intros Hs [Hlen Hnn]. split.
  - rewrite push_shift_maxSamples. apply push_shift_length. exact Hlen.
  - rewrite push_shift_samples by exact Hlen. apply Forall_drop.
    apply Forall_app. split; [exact Hnn|]. constructor; [exact Hs|constructor].
Qed.

Lemma apply_op_ok op t c : tracker_ok t -> tracker_ok (fst (apply_op op t c)).
Proof.
  intros Hok. destruct op as [x|ts0 x|]; cbn [apply_op].
  - rewrite record_run. cbn [fst]. apply push_shift_ok; [cbn; lia|exact Hok].
  - cbn. apply push_shift_ok; [cbn; lia|exact Hok].
  - cbn. split; [cbn; lia|constructor].
Qed.

Lemma apply_op_maxSamples op t c :
  Core.maxSamples (fst (apply_op op t c)) = Core.maxSamples t.
Proof. destruct op; reflexivity. Qed.

(** X1: whatever sequence of [record], [_injectSample] and [clear] is
    applied to a new tracker, the window never holds more samples than the
    capacity, never holds a negative latency, and the capacity stays what it
    was. *)
Theorem tracker_operations_keep_the_window_sound
    (N : nat) (ops : list TrackerOp) (c : Clock) :
  let t := fst (apply_ops ops (Core.new_LatencyTracker N) c) in
  Core.getSampleCount t <= N
  /\ Forall (fun s => 0 <= Core.sample_latencyMs s)%Z (Core.samples t)
  /\ Core.maxSamples t = N.
Proof.
  assert (Hgen : forall ops t c, tracker_ok t ->
            tracker_ok (fst (apply_ops ops t c))
            /\ Core.maxSamples (fst (apply_ops ops t c)) = Core.maxSamples t).
  { clear. induction ops as [|op ops IH]; intros t c Hok.
    - split; [exact Hok|reflexivity].
    - cbn [apply_ops]. unfold mbind, IO_bind.
      pose proof (apply_op_ok op t c Hok) as Hok'.
      pose proof (apply_op_maxSamples op t c) as Hm.
      destruct (apply_op op t c) as [t' c']. cbn [fst] in *.
      destruct (IH t' c' Hok') as [H1 H2]. split; [exact H1|congruence]. }
  intros t. destruct (Hgen ops (Core.new_LatencyTracker N) c) as [[Hlen Hnn] Hm].
  { split; [cbn; lia|constructor]. }
  fold t in Hlen, Hnn, Hm. cbn in Hm. unfold Core.getSampleCount.
  rewrite Hm in Hlen. repeat split; assumption.
Qed.

Lemma getAverage_run windowMs fallback t c :
  Core.getAverage windowMs fallback t c
  = (let recent := Core.recent_samples (wall c (reads c)) windowMs t in
     if (length recent =? 0)%nat then inject_Z fallback
     else (inject_Z (List.fold_left (fun sum s => sum + Core.sample_latencyMs s)%Z recent 0%Z)
           / inject_Z (Z.of_nat (length recent)))%Q,
     tick c).
Proof.
  unfold Core.getAverage, mbind, IO_bind. rewrite Date_now_run. cbn zeta.
  destruct (length _ =? 0)%nat; reflexivity.
Qed.

Lemma sum_latency_le M l : forall a,
  Forall (fun s => Core.sample_latencyMs s <= M)%Z l ->
  (List.fold_left (fun sum s => sum + Core.sample_latencyMs s)%Z l a
   <= a + Z.of_nat (length l) * M)%Z.
Proof.
  induction l as [|s l IH]; intros a Hall; cbn [fold_left length].
  - lia.
  - apply Forall_cons in Hall. destruct Hall as [Hs Hl].
    specialize (IH (a + Core.sample_latencyMs s)%Z Hl). lia.
Qed.

Lemma sum_latency_ge m l : forall a,
  Forall (fun s => m <= Core.sample_latencyMs s)%Z l ->
  (a + Z.of_nat (length l) * m
   <= List.fold_left (fun sum s => sum + Core.sample_latencyMs s)%Z l a)%Z.
Proof.
  induction l as [|s l IH]; intros a Hall; cbn [fold_left length].
  - lia.
  - apply Forall_cons in Hall. destruct Hall as [Hs Hl].
    specialize (IH (a + Core.sample_latencyMs s)%Z Hl). lia.
Qed.

Lemma Qdiv_le_bound (S M : Z) (n : nat) :
  n <> 0 -> (S <= Z.of_nat n * M)%Z ->
  (inject_Z S / inject_Z (Z.of_nat n) <= inject_Z M)%Q.
Proof.
  intros Hn Hle. apply Qle_shift_div_r.
  - change 0%Q with (inject_Z 0). rewrite <- Zlt_Qlt. lia.
  - rewrite <- inject_Z_mult. rewrite <- Zle_Qle. lia.
Qed.

Lemma Qdiv_ge_bound (S m : Z) (n : nat) :
  n <> 0 -> (Z.of_nat n * m <= S)%Z ->
  (inject_Z m <= inject_Z S / inject_Z (Z.of_nat n))%Q.
Proof.
  intros Hn Hle. apply Qle_shift_div_l.
  - change 0%Q with (inject_Z 0). rewrite <- Zlt_Qlt. lia.
  - rewrite <- inject_Z_mult. rewrite <- Zle_Qle. lia.
Qed.

(** In exact arithmetic the mean of the window is at most its maximum, and
    not negative when no latency and not the fallback is. *)
Lemma exact_mean_is_at_most_max
    (t : Core.LatencyTracker) (windowMs fallback : Z) (c : Clock) :
  (fst (Core.getAverage windowMs fallback t c)
   <= inject_Z (fst (Core.getMax windowMs fallback t c)))%Q
  /\ (Forall (fun s => 0 <= Core.sample_latencyMs s)%Z (Core.samples t) ->
      (0 <= fallback)%Z ->
      (0 <= fst (Core.getAverage windowMs fallback t c))%Q).
Proof.
  rewrite getAverage_run, getMax_run. cbn [fst]. cbn zeta.
  set (recent := Core.recent_samples (wall c (reads c)) windowMs t).
  assert (Hsub : forall s, In s recent -> In s (Core.samples t)).
  { intros s Hin. unfold recent, Core.recent_samples in Hin.
    apply filter_In in Hin. apply Hin. }
  destruct recent as [|s0 rest] eqn:Hrec.
  - cbn. split; [apply Qle_refl|].
    intros _ Hf. change 0%Q with (inject_Z 0). rewrite <- Zle_Qle. exact Hf.
  - cbn [List.map length Nat.eqb]. split.
    + apply Qdiv_le_bound; [discriminate|].
      pose proof (sum_latency_le
                    (Core.Math_max (Core.sample_latencyMs s0)
                                   (List.map Core.sample_latencyMs rest))
                    (s0 :: rest) 0%Z) as Hsum.
      cbn [length] in Hsum. rewrite Z.add_0_l in Hsum. apply Hsum.
      apply Forall_forall. intros s Hin. apply Math_max_ge.
      change (In (Core.sample_latencyMs s) (List.map Core.sample_latencyMs (s0 :: rest))).
      apply in_map. apply list_elem_of_In. exact Hin.
    + intros Hnn _. change 0%Q with (inject_Z 0).
      apply Qdiv_ge_bound; [discriminate|].
      pose proof (sum_latency_ge 0%Z (s0 :: rest) 0%Z) as Hsum.
      cbn [length] in Hsum. rewrite Z.add_0_l in Hsum. apply Hsum.
      apply Forall_forall. intros s Hin. rewrite Forall_forall in Hnn. apply Hnn.
      apply list_elem_of_In. apply Hsub. apply list_elem_of_In. exact Hin.
Qed.

Lemma sum_latency_from l : forall a,
  Forall (fun s => 0 <= Core.sample_latencyMs s)%Z l ->
  (a <= List.fold_left (fun sum s => sum + Core.sample_latencyMs s)%Z l a)%Z
  /\ (forall s, In s l ->
        (a + Core.sample_latencyMs s
         <= List.fold_left (fun sum s => sum + Core.sample_latencyMs s)%Z l a)%Z).
Proof.
  induction l as [|x l IH]; intros a Hnn; cbn [fold_left].
  - split; [lia|intros s []].
  - apply Forall_cons in Hnn. destruct Hnn as [Hx Hl].
    destruct (IH (a + Core.sample_latencyMs x)%Z Hl) as [Hge Hin]. split; [lia|].
    intros s [<-|Hs]; [exact Hge|]. specialize (Hin s Hs). lia.
Qed.

(** X2: the average never exceeds the maximum, for whole-millisecond
    latencies as this development has them.  On a tracker that holds no
    negative latency and whose latencies add up to at most 2^53, so that the
    sum the code forms is exact, and with a fallback in that range, the
    exact mean of the window is at most the maximum read at the same
    instant; and so is the double that the division returns, whatever the
    rounding, as long as it keeps the order and leaves whole numbers within
    2^53 alone; that double is not negative either.  (With fractions the
    rounded sum can lift the mean above the maximum; they are not covered.) *)
Theorem getAverage_is_at_most_getMax
    (r : Rounding) (t : Core.LatencyTracker) (windowMs fallback : Z) (c : Clock) :
  Forall (fun s => 0 <= Core.sample_latencyMs s)%Z (Core.samples t) ->
  (List.fold_left (fun sum s => sum + Core.sample_latencyMs s)%Z (Core.samples t) 0
   <= MAX_EXACT)%Z ->
  (0 <= fallback <= MAX_EXACT)%Z ->
  let mean := fst (Core.getAverage windowMs fallback t c) in
  let highest := fst (Core.getMax windowMs fallback t c) in
  (mean <= inject_Z highest)%Q
  /\ (fl r mean <= inject_Z highest)%Q
  /\ (0 <= fl r mean)%Q.
Proof.
  intros Hnn Hsum Hfallback mean highest.
  destruct (exact_mean_is_at_most_max t windowMs fallback c) as [Hle Hpos].
  fold mean highest in Hle. fold mean in Hpos.
  assert (Hhighest : exact_integer highest).
  { subst highest. rewrite getMax_run. cbn [fst].
    destruct (List.map Core.sample_latencyMs
                (Core.recent_samples (wall c (reads c)) windowMs t)) as [|x xs] eqn:Hrecent.
    - unfold exact_integer, MAX_EXACT in *. lia.
    - pose proof (Math_max_in xs x) as Hin. rewrite <- Hrecent in Hin.
      apply in_map_iff in Hin. destruct Hin as (s & Hs & Hin).
      unfold Core.recent_samples in Hin. apply filter_In in Hin. destruct Hin as [Hin _].
      destruct (sum_latency_from (Core.samples t) 0%Z Hnn) as [_ Hbound].
      specialize (Hbound s Hin). rewrite Forall_forall in Hnn.
      specialize (Hnn s (proj2 (list_elem_of_In _ _) Hin)). cbn in Hnn.
      unfold exact_integer, MAX_EXACT in *. lia. }
  split; [exact Hle|]. split.
  - eapply Qle_trans; [apply (fl_monotone r); exact Hle|].
    apply Qle_lteq. right. apply (fl_exact r). exact Hhighest.
  - eapply Qle_trans; [|apply (fl_monotone r); apply Hpos; [exact Hnn|lia]].
    apply Qle_lteq. right. symmetry. apply (fl_exact r 0%Z).
    unfold exact_integer, MAX_EXACT. lia.
Qed.

Lemma getAverage_is_at_most_getMax_witness :
  Forall (fun s => 0 <= Core.sample_latencyMs s)%Z (Core.samples (tracker_of [50; 200; 100]%Z))
  /\ (List.fold_left (fun sum s => sum + Core.sample_latencyMs s)%Z
        (Core.samples (tracker_of [50; 200; 100]%Z)) 0 <= MAX_EXACT)%Z
  /\ (0 <= 0 <= MAX_EXACT)%Z
  /\ (fl no_rounding (fst (Core.getAverage 60000 0 (tracker_of [50; 200; 100]%Z)
                             (frozen_clock 1000)))
      <= inject_Z (fst (Core.getMax 60000 0 (tracker_of [50; 200; 100]%Z)
                          (frozen_clock 1000))))%Q.
Proof.
  assert (Hnn : Forall (fun s => 0 <= Core.sample_latencyMs s)%Z
                       (Core.samples (tracker_of [50; 200; 100]%Z))).
  { repeat constructor; cbn; lia. }
  assert (Hsum : (List.fold_left (fun sum s => sum + Core.sample_latencyMs s)%Z
                    (Core.samples (tracker_of [50; 200; 100]%Z)) 0 <= MAX_EXACT)%Z).
  { vm_compute. discriminate. }
  assert (Hfallback : (0 <= 0 <= MAX_EXACT)%Z) by (unfold MAX_EXACT; lia).
  split; [exact Hnn|]. split; [exact Hsum|]. split; [exact Hfallback|].
  exact (proj1 (proj2 (getAverage_is_at_most_getMax no_rounding (tracker_of [50; 200; 100]%Z)
                         60000 0 (frozen_clock 1000) Hnn Hsum Hfallback))).
Defined.

Lemma recent_samples_nil now windowMs t :
  Forall (fun s => windowMs <= now - Core.ts s)%Z (Core.samples t) ->
  Core.recent_samples now windowMs t = [].
Proof.
  unfold Core.recent_samples. induction (Core.samples t) as [|s l IH]; [reflexivity|].
  intros Hall. apply Forall_cons in Hall. destruct Hall as [Hs Hl]. cbn [List.filter].
  unfold Core.in_window at 1.
  destruct (Z.ltb_spec (now - Core.ts s) windowMs) as [Hlt|_]; [lia|]. apply IH. exact Hl.
Qed.

(** X3: old spikes age out.  Without halt and forced buffering and with a
    simulated latency not above the threshold, a tracker whose samples are
    all at least 60 seconds old at both clock readings of the decision is
    healthy, however high the latencies still in its buffer are; the
    reported latency is the simulated one. *)
Theorem old_samples_do_not_trip_the_breaker
    (tracker : Core.LatencyTracker) (threshold : Z) (state : Core.SystemState) (c : Clock) :
  Core.systemHalted state = false ->
  Core.globalForcedBuffering state = false ->
  (Core.simulatedLatencyMs state <= threshold)%Z ->
  Forall (fun s => 60000 <= wall c (reads c) - Core.ts s)%Z (Core.samples tracker) ->
  Forall (fun s => 60000 <= wall c (S (reads c)) - Core.ts s)%Z (Core.samples tracker) ->
  Core.shouldBuffer tracker threshold state c
  = ({| Core.buffering := false; Core.reason := lit "healthy";
        Core.latencyMs := inject_Z (Core.simulatedLatencyMs state) |},
     tick (tick c)).
Proof.
  intros Hh Hf Hs Hold1 Hold2. unfold Core.shouldBuffer. rewrite Hh, Hf.
  replace (threshold <? Core.simulatedLatencyMs state)%Z with false
    by (symmetry; apply Z.ltb_ge; lia).
  unfold mbind, IO_bind. rewrite getMax_run.
  rewrite (recent_samples_nil _ _ _ Hold1). cbn [List.map].
  replace (threshold <? Core.simulatedLatencyMs state)%Z with false
    by (symmetry; apply Z.ltb_ge; lia).
  rewrite getAverage_run. cbn [tick wall reads].
  rewrite (recent_samples_nil _ _ _ Hold2). reflexivity.
Qed.

Lemma old_samples_do_not_trip_the_breaker_witness :
  Core.systemHalted no_override = false
  /\ Core.globalForcedBuffering no_override = false
  /\ (Core.simulatedLatencyMs no_override <= 5000)%Z
  /\ Core.shouldBuffer old_spike 5000 no_override (frozen_clock 60000)
     = ({| Core.buffering := false; Core.reason := lit "healthy"; Core.latencyMs := inject_Z 0 |},
        tick (tick (frozen_clock 60000))).
Proof.
  split; [reflexivity|]. split; [reflexivity|]. split; [cbn; lia|].
  apply (old_samples_do_not_trip_the_breaker old_spike 5000 no_override (frozen_clock 60000));
    try reflexivity.
  - cbn. lia.
  - repeat constructor. cbn. lia.
  - repeat constructor. cbn. lia.
Defined.

(** The decision as one boolean expression over the four rules. *)
Lemma shouldBuffer_buffering tracker threshold state c :
  Core.buffering (fst (Core.shouldBuffer tracker threshold state c))
  = Core.systemHalted state
    || Core.globalForcedBuffering state
    || (threshold <? Core.simulatedLatencyMs state)%Z
    || (threshold <? fst (Core.getMax 60000 (Core.simulatedLatencyMs state) tracker c))%Z.
Proof.
  unfold Core.shouldBuffer.
  destruct (Core.systemHalted state); [reflexivity|].
  destruct (Core.globalForcedBuffering state).
  { unfold mbind, IO_bind. destruct (Core.getAverage _ _ _ _). reflexivity. }
  destruct (threshold <? Core.simulatedLatencyMs state)%Z; [reflexivity|].
  unfold mbind, IO_bind. destruct (Core.getMax _ _ _ _) as [m c1]. cbn [fst orb].
  destruct (threshold <? m)%Z; [reflexivity|].
  destruct (Core.getAverage _ _ _ _). reflexivity.
Qed.

Lemma clock_plus_0 c : c = {| wall := wall c; reads := reads c + 0 |}.
Proof. destruct c. cbn. f_equal. lia. Qed.

Lemma tick_plus_1 c : tick c = {| wall := wall c; reads := reads c + 1 |}.
Proof. unfold tick. f_equal. lia. Qed.

Lemma tick_tick_plus_2 c : tick (tick c) = {| wall := wall c; reads := reads c + 2 |}.
Proof. unfold tick. cbn. f_equal. lia. Qed.

Lemma shouldBuffer_reads tracker threshold state c :
  exists k, k <= 2 /\
    snd (Core.shouldBuffer tracker threshold state c)
    = {| wall := wall c; reads := reads c + k |}.
Proof.
  unfold Core.shouldBuffer.
  destruct (Core.systemHalted state).
  { exists 0. split; [lia|]. apply clock_plus_0. }
  destruct (Core.globalForcedBuffering state).
  { exists 1. split; [lia|]. unfold mbind, IO_bind. rewrite getAverage_run.
    apply tick_plus_1. }
  destruct (threshold <? Core.simulatedLatencyMs state)%Z.
  { exists 0. split; [lia|]. apply clock_plus_0. }
  unfold mbind, IO_bind. rewrite getMax_run.
  destruct (threshold <? _)%Z.
  - exists 1. split; [lia|]. apply tick_plus_1.
  - exists 2. split; [lia|]. rewrite getAverage_run. apply tick_tick_plus_2.
Qed.

(** X4: the decision is to buffer exactly when the system is halted, or
    buffering is forced, or the simulated latency is above the threshold, or
    the maximum of the last 60 seconds is above the threshold; the status is
    healthy exactly when it is not to buffer; and a decision reads the clock
    at most twice. *)
Theorem shouldBuffer_decision_table
    (tracker : Core.LatencyTracker) (threshold : Z) (state : Core.SystemState) (c : Clock) :
  let decision := fst (Core.shouldBuffer tracker threshold state c) in
  let windowMax := fst (Core.getMax 60000 (Core.simulatedLatencyMs state) tracker c) in
  (Core.buffering decision = true
   <-> Core.systemHalted state = true
       \/ Core.globalForcedBuffering state = true
       \/ (threshold < Core.simulatedLatencyMs state)%Z
       \/ (threshold < windowMax)%Z)
  /\ (Core.buffering decision = false <-> Core.reason decision = lit "healthy")
  /\ (exists k, k <= 2
        /\ snd (Core.shouldBuffer tracker threshold state c)
           = {| wall := wall c; reads := reads c + k |}).
Proof.
  intros decision windowMax. split; [|split].
  - unfold decision. rewrite shouldBuffer_buffering. fold windowMax.
    rewrite !orb_true_iff, !Z.ltb_lt. tauto.
  - split; [apply shouldBuffer_healthy_reason|].
    unfold decision, Core.shouldBuffer.
    destruct (Core.systemHalted state); [intros H; vm_compute in H; discriminate H|].
    destruct (Core.globalForcedBuffering state).
    { unfold mbind, IO_bind. destruct (Core.getAverage _ _ _ _).
      intros H; vm_compute in H; discriminate H. }
    destruct (threshold <? Core.simulatedLatencyMs state)%Z;
      [intros H; cbn in H; discriminate H|].
    unfold mbind, IO_bind. destruct (Core.getMax _ _ _ _) as [m c1].
    destruct (threshold <? m)%Z; [intros H; cbn in H; discriminate H|].
    destruct (Core.getAverage _ _ _ _). reflexivity.
  - apply shouldBuffer_reads.
Qed.

(** X5: raising the threshold never starts buffering, and lowering it never
    stops it: if the decision is to buffer at a threshold, it is to buffer
    at every lower one, in the same state and at the same instant. *)
Theorem a_lower_threshold_buffers_no_less
    (tracker : Core.LatencyTracker) (low high : Z) (state : Core.SystemState) (c : Clock) :
  (low <= high)%Z ->
  Core.buffering (fst (Core.shouldBuffer tracker high state c)) = true ->
  Core.buffering (fst (Core.shouldBuffer tracker low state c)) = true.
Proof.
  intros Hle. rewrite !shouldBuffer_buffering, !orb_true_iff, !Z.ltb_lt.
  intros [[[H|H]|H]|H]; [tauto|tauto| |].
  - left. right. lia.
  - right. lia.
Qed.

Lemma a_lower_threshold_buffers_no_less_witness :
  (3000 <= 5000)%Z
  /\ Core.buffering (fst (Core.shouldBuffer (tracker_of [6000%Z]) 5000 no_override
                            (frozen_clock 1000))) = true
  /\ Core.buffering (fst (Core.shouldBuffer (tracker_of [6000%Z]) 3000 no_override
                            (frozen_clock 1000))) = true.
Proof.
  split; [lia|]. split; [reflexivity|].
  apply (a_lower_threshold_buffers_no_less (tracker_of [6000%Z]) 3000 5000 no_override
           (frozen_clock 1000)); [lia|reflexivity].
Defined.

(** ** The plugin's decision against the extracted one *)

Lemma tracker_view_samples g :
  Core.samples (tracker_view g) = List.map as_core_sample (Plugin.samples g).
Proof. reflexivity. Qed.

Lemma recent_view now windowMs g :
  Core.recent_samples now windowMs (tracker_view g)
  = List.map as_core_sample (Plugin.recent now windowMs g).
Proof.
  unfold Core.recent_samples, Plugin.recent. rewrite tracker_view_samples.
  induction (Plugin.samples g) as [|s l IH]; [reflexivity|].
  cbn [List.map List.filter]. unfold Core.in_window at 1. cbn [Core.ts as_core_sample].
  destruct (now - Plugin.ts s <? windowMs)%Z; cbn [List.map]; rewrite IH; reflexivity.
Qed.

Lemma fold_max_start l : forall a b,
  List.fold_left Z.max l (Z.max a b) = Z.max a (List.fold_left Z.max l b).
Proof.
  induction l as [|x l IH]; intros a b; cbn [fold_left]; [reflexivity|].
  rewrite <- Z.max_assoc. apply IH.
Qed.

Lemma plugin_getMax_run windowMs g c :
  Plugin.getMax windowMs g c
  = (match List.map Plugin.latencyMs (Plugin.recent (wall c (reads c)) windowMs g) with
     | [] => Plugin.simulatedLatencyMs g
     | x :: xs => Z.max (Plugin.simulatedLatencyMs g) (Core.Math_max x xs)
     end, tick c).
Proof.
  unfold Plugin.getMax, mbind, IO_bind. rewrite Date_now_run. cbn zeta.
  destruct (Plugin.recent _ _ _) as [|s l]; [reflexivity|].
  cbn [length Nat.eqb List.map fold_left]. rewrite fold_max_start. reflexivity.
Qed.

Lemma core_getMax_view windowMs g c :
  Core.getMax windowMs (Plugin.simulatedLatencyMs g) (tracker_view g) c
  = (match List.map Plugin.latencyMs (Plugin.recent (wall c (reads c)) windowMs g) with
     | [] => Plugin.simulatedLatencyMs g
     | x :: xs => Core.Math_max x xs
     end, tick c).
Proof.
  rewrite getMax_run, recent_view, map_map. reflexivity.
Qed.

Lemma sum_view l : forall a,
  List.fold_left (fun sum s => sum + Core.sample_latencyMs s)%Z (List.map as_core_sample l) a
  = List.fold_left (fun sum s => sum + Plugin.latencyMs s)%Z l a.
Proof. induction l as [|s l IH]; intros a; [reflexivity|]. cbn. apply IH. Qed.

Lemma plugin_getAverage_run windowMs g c :
  Plugin.getAverage windowMs g c
  = (let recent := Plugin.recent (wall c (reads c)) windowMs g in
     if (length recent =? 0)%nat then inject_Z (Plugin.simulatedLatencyMs g)
     else Qmax (inject_Z (List.fold_left (fun sum s => sum + Plugin.latencyMs s)%Z recent 0%Z)
                / inject_Z (Z.of_nat (length recent)))
               (inject_Z (Plugin.simulatedLatencyMs g)),
     tick c).
Proof.
  unfold Plugin.getAverage, mbind, IO_bind. rewrite Date_now_run. cbn zeta.
  destruct (length _ =? 0)%nat; reflexivity.
Qed.

(** The plugin's average is the core's, raised to the simulated latency. *)
Lemma getAverage_view windowMs g c :
  (fst (Core.getAverage windowMs (Plugin.simulatedLatencyMs g) (tracker_view g) c)
   <= fst (Plugin.getAverage windowMs g c))%Q
  /\ snd (Core.getAverage windowMs (Plugin.simulatedLatencyMs g) (tracker_view g) c)
     = snd (Plugin.getAverage windowMs g c).
Proof.
  rewrite getAverage_run, plugin_getAverage_run, recent_view. cbn [fst snd]. cbn zeta.
  rewrite length_map, sum_view. split; [|reflexivity].
  destruct (length _ =? 0)%nat; [apply Qle_refl|]. apply Q.le_max_l.
Qed.

(** X6: as long as the simulated latency is a number, the plugin's own
    [shouldBuffer], which reads module variables and an inline tracker,
    decides as the extracted [shouldBuffer] does on the same flags and
    samples: same buffering verdict, same reason text, same clock readings;
    the latency it reports is never below the extracted one.  (The module
    variables of this development hold a number there; the state in which
    the simulated latency is NaN, which only [/buffer simulate] with an
    unreadable argument leaves behind, is not covered.) *)
Theorem plugin_decides_as_the_core (g : Plugin.Globals) (threshold : Z) (c : Clock) :
  let plugin := Plugin.shouldBuffer g threshold c in
  let core := Core.shouldBuffer (tracker_view g) threshold (state_of g) c in
  Core.buffering (fst plugin) = Core.buffering (fst core)
  /\ Core.reason (fst plugin) = Core.reason (fst core)
  /\ snd plugin = snd core
  /\ (Core.latencyMs (fst core) <= Core.latencyMs (fst plugin))%Q.
Proof.
  unfold Plugin.shouldBuffer, Core.shouldBuffer, state_of.
  cbn [Core.systemHalted Core.globalForcedBuffering Core.simulatedLatencyMs].
  destruct (Plugin.systemHalted g).
  { cbn. repeat split. apply Qle_refl. }
  destruct (Plugin.globalForcedBuffering g).
  { unfold mbind, IO_bind.
    destruct (getAverage_view 60000 g c) as [Hle Hclock].
    destruct (Plugin.getAverage 60000 g c) as [pa pc].
    destruct (Core.getAverage 60000 _ _ c) as [ca cc]. cbn in *.
    repeat split; [congruence|exact Hle]. }
  destruct (Z.ltb_spec threshold (Plugin.simulatedLatencyMs g)) as [Hsim|Hsim].
  { cbn. repeat split. apply Qle_refl. }
  unfold mbind, IO_bind. rewrite plugin_getMax_run, core_getMax_view.
  destruct (List.map Plugin.latencyMs _) as [|x xs].
  - destruct (Z.ltb_spec threshold (Plugin.simulatedLatencyMs g)) as [Hlt|_]; [lia|].
    destruct (getAverage_view 60000 g (tick c)) as [Hle Hclock].
    destruct (Plugin.getAverage 60000 g (tick c)) as [pa pc].
    destruct (Core.getAverage 60000 _ _ (tick c)) as [ca cc]. cbn in *.
    repeat split; [congruence|exact Hle].
  - set (M := Core.Math_max x xs).
    destruct (Z.ltb_spec threshold M) as [Hlt|Hge].
    + replace (Z.max (Plugin.simulatedLatencyMs g) M) with M by lia.
      destruct (Z.ltb_spec threshold M) as [_|Hge]; [|lia].
      cbn. repeat split. apply Qle_refl.
    + destruct (Z.ltb_spec threshold (Z.max (Plugin.simulatedLatencyMs g) M)) as [Hlt|_];
        [lia|].
      destruct (getAverage_view 60000 g (tick c)) as [Hle Hclock].
      destruct (Plugin.getAverage 60000 g (tick c)) as [pa pc].
      destruct (Core.getAverage 60000 _ _ (tick c)) as [ca cc]. cbn in *.
      repeat split; [congruence|exact Hle].
Qed.

(** ** More on the synthesizer *)

Lemma escape_unit_cases u :
  (needs_escape u = true /\ exists e, escape_unit u = [BACKSLASH; e] /\ e <> LF)
  \/ (needs_escape u = false /\ escape_unit u = [u]
      /\ u <> BACKSLASH /\ u <> DQUOTE /\ u <> LF).
Proof.
  unfold needs_escape, escape_unit.
  destruct (N.eqb_spec u BACKSLASH) as [->|Hb].
  { left. split; [reflexivity|]. exists BACKSLASH. split; [reflexivity|discriminate]. }
  destruct (N.eqb_spec u DQUOTE) as [->|Hq].
  { left. split; [reflexivity|]. exists DQUOTE. split; [reflexivity|discriminate]. }
  destruct (N.eqb_spec u LF) as [->|Hn].
  { left. split; [reflexivity|]. exists LETTER_n. split; [reflexivity|discriminate]. }
  right. repeat split; assumption.
Qed.

Lemma read_quoted_escaped s after :
  read_quoted (flat_map escape_unit s ++ DQUOTE :: after) = Some (flat_map escape_unit s, after).
Proof.
  induction s as [|u s IH]; [reflexivity|].
  cbn [flat_map]. rewrite <- app_assoc.
  destruct (escape_unit_cases u) as [(_ & e & -> & _)|(_ & -> & Hb & Hq & _)].
  - change ([BACKSLASH; e] ++ flat_map escape_unit s ++ DQUOTE :: after)
      with (BACKSLASH :: e :: (flat_map escape_unit s ++ DQUOTE :: after)).
    cbn [read_quoted]. rewrite N.eqb_refl, IH. reflexivity.
  - change ([u] ++ flat_map escape_unit s ++ DQUOTE :: after)
      with (u :: (flat_map escape_unit s ++ DQUOTE :: after)).
    cbn [read_quoted].
    destruct (N.eqb_spec u BACKSLASH); [contradiction|].
    destruct (N.eqb_spec u DQUOTE); [contradiction|].
    rewrite IH. reflexivity.
Qed.

Lemma escaped_has_no_newline s : ~ In LF (flat_map escape_unit s).
Proof.
  induction s as [|u s IH]; [intros []|].
  cbn [flat_map]. intros Hin. apply in_app_or in Hin. destruct Hin as [Hin|Hin]; [|auto].
  destruct (escape_unit_cases u) as [(_ & e & Heq & He)|(_ & Heq & _ & _ & Hn)];
    rewrite Heq in Hin.
  - destruct Hin as [H|[H|[]]]; [discriminate H | congruence].
  - destruct Hin as [H|[]]. congruence.
Qed.

(** X7: the escaped text is safe inside the quotes of its line: it holds no
    newline, and a reader that starts after the opening quote and skips the
    unit after each backslash stops at the closing quote, whatever follows
    it, having read exactly the escaped text, from which [unescape] gives
    the content back. *)
Theorem escaped_segment_reads_back (text after : jsstring) :
  ~ In LF (Core.escapeContent text)
  /\ read_quoted (Core.escapeContent text ++ [DQUOTE] ++ after)
     = Some (Core.escapeContent text, after)
  /\ (match read_quoted (Core.escapeContent text ++ [DQUOTE] ++ after) with
      | Some (segment, _) => Some (Core.unescape segment)
      | None => None
      end) = Some text.
Proof.
  rewrite escapeContent_one_pass. split; [apply escaped_has_no_newline|].
  change ([DQUOTE] ++ after) with (DQUOTE :: after).
  rewrite read_quoted_escaped. split; [reflexivity|].
  rewrite unescape_escape_units. reflexivity.
Qed.

Lemma escaped_length s :
  length (flat_map escape_unit s)
  = length s + length (List.filter needs_escape s).
Proof.
  induction s as [|u s IH]; [reflexivity|].
  cbn [flat_map List.filter]. rewrite length_app, IH.
  destruct (escape_unit_cases u) as [(-> & e & -> & _)|(-> & -> & _)]; cbn [length]; lia.
Qed.

(** X8: escaping adds exactly one unit for every backslash, double quote
    and newline of the content, so the escaped text is at least as long as
    the content and at most twice as long; and two different contents never
    have the same escaped text. *)
Theorem escapeContent_size_and_injectivity (text other : jsstring) :
  length (Core.escapeContent text) = length text + length (List.filter needs_escape text)
  /\ length text <= length (Core.escapeContent text) <= 2 * length text
  /\ (Core.escapeContent text = Core.escapeContent other -> text = other).
Proof.
  rewrite !escapeContent_one_pass. split; [apply escaped_length|]. split.
  - rewrite escaped_length. pose proof (filter_length_le needs_escape text). lia.
  - intros Heq. rewrite <- (unescape_escape_units text), <- (unescape_escape_units other).
    rewrite Heq. reflexivity.
Qed.

Lemma escapeContent_size_and_injectivity_witness :
  Core.escapeContent tricky_content = Core.escapeContent tricky_content
  /\ length (Core.escapeContent tricky_content) = length tricky_content + 4.
Proof.
  destruct (escapeContent_size_and_injectivity tricky_content tricky_content)
    as (Hlen & _ & _).
  split; [reflexivity|]. rewrite Hlen. reflexivity.
Defined.

Lemma escaped_fixed_iff s :
  flat_map escape_unit s = s <-> List.filter needs_escape s = [].
Proof.
  split.
  - intros Heq. apply (f_equal (@length _)) in Heq. rewrite escaped_length in Heq.
    destruct (List.filter needs_escape s); [reflexivity|]. cbn [length] in Heq. lia.
  - induction s as [|u s IH]; [reflexivity|].
    cbn [List.filter flat_map].
    destruct (escape_unit_cases u) as [(-> & _)|(-> & -> & _)]; [discriminate|].
    intros Hnil. rewrite (IH Hnil). reflexivity.
Qed.

(** X9: the plugin's own prompt builder embeds the content as it is.  Its
    line for a thought is the line of the core's builder exactly when the
    content holds no backslash, no double quote and no newline. *)
Theorem plugin_line_agrees_iff_nothing_to_escape (i : nat) (t : BufferedThought) :
  Plugin.formatThought i t = Core.formatThought i t
  <-> Forall (fun u => u <> BACKSLASH /\ u <> DQUOTE /\ u <> LF) (content t).
Proof.
  unfold Plugin.formatThought, Core.formatThought.
  rewrite escapeContent_one_pass, !app_assoc.
  set (head0 := (((((nat_toString (i + 1) ++ lit ". [") ++ created_at t) ++ lit "]")
                  ++ Core.tag_of (priority t)) ++ lit " ") ++ [DQUOTE]).
  assert (Hiff : flat_map escape_unit (content t) = content t
                 <-> Forall (fun u => u <> BACKSLASH /\ u <> DQUOTE /\ u <> LF) (content t)).
  { rewrite escaped_fixed_iff. induction (content t) as [|u s IH].
    - split; [constructor|reflexivity].
    - cbn [List.filter].
      destruct (escape_unit_cases u) as [(Hu & _)|(Hu & _ & Hb & Hq & Hn)]; rewrite Hu.
      + split; [discriminate|]. intros Hall. apply Forall_cons in Hall.
        destruct Hall as [(Hb & Hq & Hn) _]. unfold needs_escape in Hu.
        rewrite !orb_true_iff, !N.eqb_eq in Hu. tauto.
      + rewrite IH. split.
        * intros Hall. constructor; [tauto|exact Hall].
        * intros Hall. apply Forall_cons in Hall. apply Hall. }
  rewrite <- Hiff. split.
  - intros Heq. apply app_inv_tail in Heq. apply app_inv_head in Heq. symmetry. exact Heq.
  - intros Heq. rewrite Heq. reflexivity.
Qed.

Section StableSortOn.
Context {A : Type} (leb : A -> A -> bool) (P : A -> Prop).
Hypothesis leb_total : forall x y, P x -> P y -> leb x y = false -> leb y x = true.
Hypothesis leb_trans :
  forall x y z, P x -> P y -> P z -> leb x y = true -> leb y z = true -> leb x z = true.

Lemma insert_sorted_StronglySorted_on x l :
  P x -> Forall P l ->
  StronglySorted (fun a b => leb a b = true) l ->
  StronglySorted (fun a b => leb a b = true) (insert_sorted leb x l).
Proof.
  intros Hx HP Hsorted. induction Hsorted as [|y l Hl IH Hy]; cbn.
  - constructor; constructor.
  - apply Forall_cons in HP. destruct HP as [HPy HPl].
    destruct (leb x y) eqn:Hxy.
    + constructor; [constructor; assumption|].
      constructor; [exact Hxy|].
      rewrite Forall_forall in Hy, HPl. apply Forall_forall. intros z Hz.
      apply (leb_trans x y z); auto.
    + constructor; [apply IH; exact HPl|].
      eapply Permutation_Forall; [symmetry; apply insert_sorted_Permutation|].
      constructor; [apply leb_total; assumption | exact Hy].
Qed.

Lemma stable_sort_StronglySorted_on l :
  Forall P l -> StronglySorted (fun a b => leb a b = true) (stable_sort leb l).
Proof.
  induction l as [|x l IH]; [constructor|].
  intros HP. apply Forall_cons in HP. destruct HP as [Hx Hl].
  cbn [stable_sort fold_right]. apply insert_sorted_StronglySorted_on; [exact Hx| |auto].
  eapply Permutation_Forall; [symmetry; apply stable_sort_Permutation|exact Hl].
Qed.
End StableSortOn.

Lemma notAfter_spec D a b :
  is_Some (D (created_at a)) -> is_Some (D (created_at b)) ->
  Core.notAfter D a b = true <-> prompt_order D a b.
Proof.
  intros [ta Ha] [tb Hb]. unfold Core.notAfter, Core.compareThoughts, prompt_order.
  rewrite Ha, Hb.
  destruct (Z.eqb_spec (Core.priorityOrder (priority a) - Core.priorityOrder (priority b)) 0)
    as [Heq|Hne]; cbn [negb].
  - assert (Hp : priority a = priority b) by (apply priorityOrder_inj; lia).
    rewrite Z.leb_le. split.
    + intros Hle. right. split; [exact Hp|]. exists ta, tb.
      split; [reflexivity|]. split; [reflexivity|]. lia.
    + intros [Hlt|(_ & ta' & tb' & Hta & Htb & Hle)]; [rewrite Hp in Hlt; lia|].
      assert (ta' = ta) by congruence. assert (tb' = tb) by congruence. lia.
  - rewrite Z.leb_le. split.
    + intros Hle. left. lia.
    + intros [Hlt|(Hp & _)]; [lia|]. rewrite Hp in Hne. lia.
Qed.

Lemma prompt_order_total D a b :
  is_Some (D (created_at a)) -> is_Some (D (created_at b)) ->
  prompt_order D a b \/ prompt_order D b a.
Proof.
  intros [ta Ha] [tb Hb]. unfold prompt_order.
  destruct (Z.lt_trichotomy (Core.priorityOrder (priority a)) (Core.priorityOrder (priority b)))
    as [Hlt|[Heq|Hgt]].
  - left. left. exact Hlt.
  - apply priorityOrder_inj in Heq. destruct (Z.le_ge_cases ta tb) as [Hle|Hge].
    + left. right. split; [exact Heq|]. exists ta, tb. auto.
    + right. right. split; [congruence|]. exists tb, ta. auto.
  - right. left. lia.
Qed.

Lemma prompt_order_trans D a b c :
  prompt_order D a b -> prompt_order D b c -> prompt_order D a c.
Proof.
  unfold prompt_order.
  intros [Hab|(Hab & ta & tb & Hta & Htb & Hle1)] [Hbc|(Hbc & tb' & tc & Htb' & Htc & Hle2)].
  - left. lia.
  - left. rewrite <- Hbc. exact Hab.
  - left. rewrite Hab. exact Hbc.
  - right. split; [congruence|]. exists ta, tc.
    split; [exact Hta|]. split; [exact Htc|].
    assert (tb' = tb) by congruence. lia.
Qed.

(** X10: when the dates of all thoughts parse, the prompt numbers the
    thoughts it was given, each once, by priority P0, P1, P2 and, within one
    priority, by ascending instant; thoughts equal in both keep the order in
    which they were given. *)
Theorem prompt_lists_by_priority_then_time
    (Date_getTime : jsstring -> option Z) (thoughts : list BufferedThought) :
  Forall (fun t => is_Some (Date_getTime (created_at t))) thoughts ->
  thoughts <> [] ->
  exists listed,
    Core.generateSynthesisPrompt Date_getTime thoughts
    = Core.renderPrompt (length thoughts) listed
    /\ Permutation listed thoughts
    /\ StronglySorted (prompt_order Date_getTime) listed
    /\ (forall k, List.filter (same_prompt_key Date_getTime k) listed
                  = List.filter (same_prompt_key Date_getTime k) thoughts).
Proof.
  intros Hparse Hne. exists (stable_sort (Core.notAfter Date_getTime) thoughts).
  split; [|split; [|split]].
  - unfold Core.generateSynthesisPrompt. destruct thoughts; [contradiction|reflexivity].
  - apply stable_sort_Permutation.
  - assert (Hsorted : StronglySorted (fun a b => Core.notAfter Date_getTime a b = true)
                        (stable_sort (Core.notAfter Date_getTime) thoughts)).
    { apply (stable_sort_StronglySorted_on (Core.notAfter Date_getTime)
               (fun t => is_Some (Date_getTime (created_at t)))).
      - intros x y Hx Hy Hf. apply notAfter_spec; [assumption..|].
        destruct (prompt_order_total Date_getTime x y Hx Hy) as [H|H]; [|exact H].
        apply notAfter_spec in H; [congruence|assumption..].
      - intros x y z Hx Hy Hz Hxy Hyz. apply notAfter_spec; [assumption..|].
        apply (prompt_order_trans Date_getTime x y z); apply notAfter_spec; assumption.
      - exact Hparse. }
    assert (Hall : Forall (fun t => is_Some (Date_getTime (created_at t)))
                     (stable_sort (Core.notAfter Date_getTime) thoughts)).
    { eapply Permutation_Forall; [symmetry; apply stable_sort_Permutation|exact Hparse]. }
    revert Hall. induction Hsorted as [|x l _ IH Hx]; intros Hall; constructor.
    + apply IH. apply Forall_cons in Hall. apply Hall.
    + apply Forall_cons in Hall. destruct Hall as [Hpx Hpl].
      rewrite Forall_forall in Hx, Hpl. apply Forall_forall. intros y Hy.
      apply notAfter_spec; auto.
  - intros k. apply stable_sort_stable. intros x y Hx Hy.
    unfold same_prompt_key in Hx, Hy.
    apply andb_true_iff in Hx. destruct Hx as [Hpx Htx].
    apply andb_true_iff in Hy. destruct Hy as [Hpy Hty].
    apply Priority_eqb_eq in Hpx, Hpy. apply bool_decide_eq_true in Htx, Hty.
    unfold Core.notAfter, Core.compareThoughts. rewrite Hpx, Hpy, Z.sub_diag. cbn [Z.eqb negb].
    rewrite Htx, Hty. destruct (Date_getTime (created_at k)); [|reflexivity].
    rewrite Z.sub_diag. reflexivity.
Qed.

Lemma prompt_lists_by_priority_then_time_witness :
  let given := [ thought 1 P2 (lit "10") (lit "low"); thought 2 P0 (lit "30") (lit "critical");
                 thought 3 P1 (lit "20") (lit "normal") ] in
  Forall (fun t => is_Some (toy_getTime (created_at t))) given
  /\ given <> []
  /\ exists listed,
       Core.generateSynthesisPrompt toy_getTime given = Core.renderPrompt 3 listed
       /\ StronglySorted (prompt_order toy_getTime) listed.
Proof.
  set (given := [ thought 1 P2 (lit "10") (lit "low"); thought 2 P0 (lit "30") (lit "critical");
                  thought 3 P1 (lit "20") (lit "normal") ]).
  assert (Hparse : Forall (fun t => is_Some (toy_getTime (created_at t))) given).
  { repeat constructor; eexists; reflexivity. }
  assert (Hne : given <> []) by discriminate.
  split; [exact Hparse|]. split; [exact Hne|].
  destruct (prompt_lists_by_priority_then_time toy_getTime given Hparse Hne)
    as (listed & Hprompt & _ & Hsorted & _).
  exists listed. split; [exact Hprompt|exact Hsorted].
Defined.

(** ** More on validation *)

Lemma Math_round_integer z : Math_round (inject_Z z) = z.
Proof.
  unfold Math_round.
  pose proof (Qfloor_le (inject_Z z + (1 # 2))) as Hle.
  pose proof (Qlt_floor (inject_Z z + (1 # 2))) as Hlt.
  assert (H1 : (inject_Z (Qfloor (inject_Z z + (1 # 2))) < inject_Z (z + 1))%Q).
  { rewrite inject_Z_plus. change (inject_Z 1) with 1%Q. lra. }
  assert (H2 : (inject_Z z < inject_Z (Qfloor (inject_Z z + (1 # 2)) + 1))%Q) by lra.
  rewrite <- Zlt_Qlt in H1, H2. lia.
Qed.

Lemma Math_round_monotone p q : (p <= q)%Q -> (Math_round p <= Math_round q)%Z.
Proof. intros Hle. unfold Math_round. apply Qfloor_resp_le. lra. Qed.

(** X11: validating what a validator returned changes nothing, for
    priorities and for latencies; a whole number of milliseconds is kept
    when it is not negative; and latency validation keeps the order of
    finite latencies. *)
Theorem validators_are_idempotent_and_monotone :
  (forall v : JsValue,
     Core.validatePriority (JsString (Plugin.priority_text (Core.validatePriority v)))
     = Core.validatePriority v)
  /\ (forall v : JsValue,
        Core.validateLatency (JsNum (Finite (inject_Z (Core.validateLatency v))))
        = Core.validateLatency v)
  /\ (forall z : Z, Core.validateLatency (JsNum (Finite (inject_Z z))) = Z.max 0 z)
  /\ (forall p q : Q, (p <= q)%Q ->
        (Core.validateLatency (JsNum (Finite p)) <= Core.validateLatency (JsNum (Finite q)))%Z).
Proof.
  assert (Hint : forall z, Core.validateLatency (JsNum (Finite (inject_Z z))) = Z.max 0 z).
  { intros z. unfold Core.validateLatency. rewrite Math_round_integer. reflexivity. }
  split; [|split; [|split]].
  - intros v. destruct (Core.validatePriority v); reflexivity.
  - intros v. rewrite Hint.
    assert (0 <= Core.validateLatency v)%Z.
    { unfold Core.validateLatency. destruct v as [| | |n| |]; try lia. destruct n; lia. }
    lia.
  - exact Hint.
  - intros p q Hle. unfold Core.validateLatency.
    pose proof (Math_round_monotone p q Hle). lia.
Qed.

Lemma take_blank_example :
  Core.validateThought (JsString padded_thought) = Some (repeat 32%N (Z.to_nat 50000))
  /\ Core.validateThought (JsString (repeat 32%N (Z.to_nat 50000))) = None.
Proof.
  split.
  - rewrite validateThought_not_blank.
    + unfold substring0, Core.MAX_THOUGHT_LENGTH, padded_thought.
      rewrite take_app_length'; [reflexivity|]. symmetry. apply repeat_length.
    + intros Hnil. apply trim_nil_iff in Hnil. unfold padded_thought in Hnil.
      rewrite forallb_app in Hnil. apply andb_true_iff in Hnil. destruct Hnil as [_ Hnil].
      discriminate Hnil.
  - apply validateThought_blank. apply trim_nil_iff.
    apply forallb_forall. intros u Hu. apply repeat_spec in Hu. subst u. reflexivity.
Qed.

(** X12: content that [validateThought] accepts is the input cut to its
    first 50,000 units, so a prefix of the input and never longer than
    50,000.  Validating it again returns it unchanged, with one exception
    that only an input longer than 50,000 units can reach: when its first
    50,000 units are all white space, the accepted content is blank and a
    second validation rejects it. *)
Theorem validateThought_accepts_a_prefix (s accepted : jsstring) :
  Core.validateThought (JsString s) = Some accepted ->
  accepted = take (Z.to_nat 50000) s
  /\ (js_length accepted <= 50000)%Z
  /\ (Core.validateThought (JsString accepted) = Some accepted
      \/ (trim accepted = [] /\ (50000 < js_length s)%Z
          /\ Core.validateThought (JsString accepted) = None)).
Proof.
  intros Hacc.
  assert (Hnb : trim s <> []).
  { intros Hnil. rewrite (validateThought_blank s Hnil) in Hacc. discriminate Hacc. }
  rewrite (validateThought_not_blank s Hnb) in Hacc. injection Hacc as <-.
  unfold substring0, Core.MAX_THOUGHT_LENGTH. split; [reflexivity|]. split.
  - unfold js_length. rewrite length_take. lia.
  - destruct (decide (trim (take (Z.to_nat 50000) s) = [])) as [Hblank|Hok].
    + right. split; [exact Hblank|]. split; [|apply validateThought_blank; exact Hblank].
      destruct (Z.lt_ge_cases 50000 (js_length s)) as [Hlt|Hge]; [exact Hlt|].
      exfalso. apply Hnb. rewrite take_ge in Hblank; [exact Hblank|].
      unfold js_length in Hge. lia.
    + left. rewrite (validateThought_not_blank _ Hok).
      unfold substring0, Core.MAX_THOUGHT_LENGTH. rewrite take_take, Nat.min_id. reflexivity.
Qed.

Lemma validateThought_accepts_a_prefix_witness :
  Core.validateThought (JsString padded_thought) = Some (repeat 32%N (Z.to_nat 50000))
  /\ repeat 32%N (Z.to_nat 50000) = take (Z.to_nat 50000) padded_thought
  /\ (js_length (repeat 32%N (Z.to_nat 50000)) <= 50000)%Z.
Proof.
  destruct take_blank_example as [Hacc _].
  split; [exact Hacc|].
  destruct (validateThought_accepts_a_prefix padded_thought _ Hacc) as (Hprefix & Hlen & _).
  split; [exact Hprefix|exact Hlen].
Defined.

(** ** More on the thought store *)

Lemma getPendingThoughts_db g d a :
  Plugin.db g = Some d -> Plugin.getPendingThoughts g a = Plugin.select_pending a d.
Proof. intros H. unfold Plugin.getPendingThoughts. rewrite H. reflexivity. Qed.

Lemma select_pending_length a d :
  length (Plugin.select_pending a d)
  = length (List.filter (Plugin.is_pending_of a) (Plugin.buffered_thoughts d)).
Proof.
  unfold Plugin.select_pending. apply Permutation_length. apply stable_sort_Permutation.
Qed.

Lemma select_pending_nil_iff a d :
  Plugin.select_pending a d = []
  <-> List.filter (Plugin.is_pending_of a) (Plugin.buffered_thoughts d) = [].
Proof.
  split; intros H.
  - apply length_zero_iff_nil. rewrite <- select_pending_length, H. reflexivity.
  - unfold Plugin.select_pending. rewrite H. reflexivity.
Qed.

Lemma is_pending_of_other a b r :
  a <> b -> Plugin.is_pending_of a r = true -> Plugin.is_pending_of b r = false.
Proof.
  intros Hne Ha. apply is_pending_of_spec in Ha. destruct Ha as [Ha _].
  destruct (Plugin.is_pending_of b r) eqn:Hb; [|reflexivity].
  apply is_pending_of_spec in Hb. destruct Hb as [Hb _]. congruence.
Qed.

(** Synthesizing for one agent leaves the pending rows of another alone. *)
Lemma filter_after_transition a b rows :
  a <> b ->
  List.filter (Plugin.is_pending_of b) (List.map (synthesize_if_pending a) rows)
  = List.filter (Plugin.is_pending_of b) rows.
Proof.
  intros Hne. induction rows as [|r rows IH]; [reflexivity|].
  cbn [List.map List.filter]. rewrite IH. unfold synthesize_if_pending.
  destruct (Plugin.is_pending_of a r) eqn:Ha; [|reflexivity].
  rewrite set_status_not_pending, (is_pending_of_other a b r Hne Ha). reflexivity.
Qed.

Lemma parse_priority_Some_iff s :
  is_Some (Plugin.parse_priority (if (length s =? 0)%nat then lit "P1" else s))
  <-> accepted_priority s.
Proof.
  unfold accepted_priority. destruct s as [|u s].
  - cbn. split; [intros _; left; reflexivity | intros _; eexists; reflexivity].
  - cbn [length Nat.eqb]. unfold Plugin.parse_priority.
    destruct (decide (u :: s = lit "P0")) as [E0|H0].
    { rewrite decide_True by exact E0. split; [tauto | intros _; eexists; reflexivity]. }
    rewrite decide_False by exact H0.
    destruct (decide (u :: s = lit "P1")) as [E1|H1].
    { rewrite decide_True by exact E1. split; [tauto | intros _; eexists; reflexivity]. }
    rewrite decide_False by exact H1.
    destruct (decide (u :: s = lit "P2")) as [E2|H2].
    { rewrite decide_True by exact E2. split; [tauto | intros _; eexists; reflexivity]. }
    rewrite decide_False by exact H2.
    split.
    + intros [p Hp]. discriminate Hp.
    + intros [H|[H|[H|H]]]; [discriminate H|contradiction..].
Qed.

Lemma insertThought_run datetime g d agentId ch tg text prio p c :
  Plugin.db g = Some d ->
  Plugin.parse_priority (if (length prio =? 0)%nat then lit "P1" else prio) = Some p ->
  Plugin.insertThought datetime g agentId ch tg text prio c
  = ((Plugin.Returned (Plugin.buffered_thoughts_seq d + 1)%Z,
      Plugin.set_db
        {| Plugin.buffered_thoughts :=
             Plugin.buffered_thoughts d
             ++ [{| id := (Plugin.buffered_thoughts_seq d + 1)%Z; agent_id := agentId;
                    channel := ch; target := tg; content := text; priority := p;
                    created_at := datetime (wall c (reads c)); status := pending |}];
           Plugin.buffered_thoughts_seq := (Plugin.buffered_thoughts_seq d + 1)%Z;
           Plugin.synthesis_events := Plugin.synthesis_events d;
           Plugin.synthesis_events_seq := Plugin.synthesis_events_seq d |} g),
     tick c).
Proof.
  intros Hdb Hp. unfold Plugin.insertThought. rewrite Hdb, Hp. reflexivity.
Qed.

(** X13: on an open database and with an accepted priority, [insertThought]
    returns a row id that is larger than every id in the table, appends one
    pending row with that id for the agent, leaves every other row and the
    audit log as they were, keeps the key constraint, raises the agent's
    pending count by one and does not change what is pending for any other
    agent. *)
Theorem insertThought_adds_one_pending_row
    (datetime : Z -> jsstring) (g : Plugin.Globals) (d : Plugin.Database)
    (agentId ch tg text prio : jsstring) (p : Priority) (c : Clock) :
  Plugin.db g = Some d ->
  store_ok d ->
  Plugin.parse_priority (if (length prio =? 0)%nat then lit "P1" else prio) = Some p ->
  let result := Plugin.insertThought datetime g agentId ch tg text prio c in
  let g' := snd (fst result) in
  exists rowid d' row,
    fst (fst result) = Plugin.Returned rowid
    /\ Forall (fun r => (id r < rowid)%Z) (Plugin.buffered_thoughts d)
    /\ Plugin.db g' = Some d'
    /\ Plugin.buffered_thoughts d' = Plugin.buffered_thoughts d ++ [row]
    /\ id row = rowid /\ agent_id row = agentId /\ content row = text
    /\ priority row = p /\ status row = pending
    /\ Plugin.synthesis_events d' = Plugin.synthesis_events d
    /\ store_ok d'
    /\ In row (Plugin.getPendingThoughts g' agentId)
    /\ Plugin.getPendingCount g' (Some agentId) = (Plugin.getPendingCount g (Some agentId) + 1)%Z
    /\ (forall other, other <> agentId ->
          Plugin.getPendingThoughts g' other = Plugin.getPendingThoughts g other).
Proof.
  intros Hdb Hok Hp result g'. subst g' result.
  rewrite (insertThought_run datetime g d agentId ch tg text prio p c Hdb Hp). cbn [fst snd].
  set (row := {| id := (Plugin.buffered_thoughts_seq d + 1)%Z; agent_id := agentId;
                 channel := ch; target := tg; content := text; priority := p;
                 created_at := datetime (wall c (reads c)); status := pending |}).
  assert (Hrow : Plugin.is_pending_of agentId row = true).
  { apply is_pending_of_spec. split; reflexivity. }
  destruct (insertThought_store_ok datetime g d agentId ch tg text prio c Hdb Hok)
    as (d0 & Hd0 & Hok0).
  rewrite (insertThought_run datetime g d agentId ch tg text prio p c Hdb Hp) in Hd0.
  cbn [fst snd Plugin.set_db Plugin.db] in Hd0. injection Hd0 as <-.
  eexists. eexists. exists row. split; [reflexivity|].
  split.
  { destruct Hok as [_ Hseq]. eapply Forall_impl; [exact Hseq|]. intros r Hr. cbn in *. lia. }
  split; [reflexivity|]. cbn [Plugin.buffered_thoughts Plugin.synthesis_events].
  split; [reflexivity|]. split; [reflexivity|]. split; [reflexivity|].
  split; [reflexivity|]. split; [reflexivity|]. split; [reflexivity|].
  split; [reflexivity|]. split; [exact Hok0|]. split; [|split].
  - unfold Plugin.getPendingThoughts, Plugin.set_db, Plugin.select_pending.
    cbn [Plugin.db Plugin.buffered_thoughts].
    apply stable_sort_In. rewrite List.filter_app. apply in_or_app. right.
    cbn [List.filter]. rewrite Hrow. left. reflexivity.
  - unfold Plugin.getPendingCount, Plugin.set_db. cbn [Plugin.db Plugin.buffered_thoughts].
    rewrite Hdb. destruct (length agentId =? 0)%nat.
    + rewrite List.filter_app, length_app. cbn. lia.
    + rewrite List.filter_app, length_app. cbn [List.filter]. rewrite Hrow. cbn [length]. lia.
  - intros other Hother.
    unfold Plugin.getPendingThoughts, Plugin.set_db, Plugin.select_pending.
    cbn [Plugin.db Plugin.buffered_thoughts]. rewrite Hdb.
    rewrite List.filter_app. cbn [List.filter].
    rewrite (is_pending_of_other agentId other row) by (auto; congruence).
    rewrite app_nil_r. reflexivity.
Qed.

Lemma insertThought_adds_one_pending_row_witness :
  Plugin.db (globals_of demo_db) = Some demo_db
  /\ Plugin.parse_priority (lit "P0") = Some P0
  /\ exists rowid,
       fst (fst (Plugin.insertThought demo_datetime (globals_of demo_db) (lit "main")
                   (lit "slack") [] (lit "new") (lit "P0") (frozen_clock 7)))
       = Plugin.Returned rowid
       /\ Forall (fun r => (id r < rowid)%Z) demo_rows.
Proof.
  assert (Hok : store_ok demo_db).
  { split.
    - apply (bool_decide_eq_true_1 (NoDup (List.map id (Plugin.buffered_thoughts demo_db)))).
      vm_compute. reflexivity.
    - repeat constructor; cbn; lia. }
  split; [reflexivity|]. split; [reflexivity|].
  destruct (insertThought_adds_one_pending_row demo_datetime (globals_of demo_db) demo_db
              (lit "main") (lit "slack") [] (lit "new") (lit "P0") P0 (frozen_clock 7)
              eq_refl Hok eq_refl)
    as (rowid & d' & row & Hret & Hfresh & _).
  exists rowid. split; [exact Hret|exact Hfresh].
Defined.

(** X14: [insertThought] does not normalize a priority it does not know.
    On an open database it throws exactly when the priority text is neither
    empty nor one of P0, P1, P2, and then nothing is stored and no timestamp
    is taken; without a database it returns -1, again storing nothing. *)
Theorem insertThought_rejects_without_effect
    (datetime : Z -> jsstring) (g : Plugin.Globals)
    (agentId ch tg text prio : jsstring) (c : Clock) :
  (Plugin.db g = None ->
     Plugin.insertThought datetime g agentId ch tg text prio c
     = ((Plugin.Returned (-1)%Z, g), c))
  /\ (forall d, Plugin.db g = Some d ->
        (fst (fst (Plugin.insertThought datetime g agentId ch tg text prio c))
         = Plugin.Threw Plugin.CHECK_FAILED
         <-> ~ accepted_priority prio)
        /\ (~ accepted_priority prio ->
            Plugin.insertThought datetime g agentId ch tg text prio c
            = ((Plugin.Threw Plugin.CHECK_FAILED, g), c))).
Proof.
  split.
  - intros Hdb. unfold Plugin.insertThought. rewrite Hdb. reflexivity.
  - intros d Hdb.
    pose proof (parse_priority_Some_iff prio) as Hiff.
    unfold Plugin.insertThought. rewrite Hdb.
    destruct (Plugin.parse_priority _) as [p|] eqn:Hp.
    + assert (Hacc : accepted_priority prio) by (apply Hiff; eexists; reflexivity).
      split; [|intros Hn; contradiction].
      split; [intros H; cbn in H; discriminate H | intros Hn; contradiction].
    + assert (Hrej : ~ accepted_priority prio).
      { intros Hacc. apply Hiff in Hacc. destruct Hacc as [p Hp']. discriminate Hp'. }
      split; [|intros _; reflexivity].
      split; [intros _; exact Hrej | intros _; reflexivity].
Qed.

Lemma insertThought_rejects_without_effect_witness :
  Plugin.db (globals_of demo_db) = Some demo_db
  /\ ~ accepted_priority (lit "urgent")
  /\ Plugin.insertThought demo_datetime (globals_of demo_db) (lit "main") (lit "slack") []
       (lit "x") (lit "urgent") (frozen_clock 7)
     = ((Plugin.Threw Plugin.CHECK_FAILED, globals_of demo_db), frozen_clock 7).
Proof.
  assert (Hrej : ~ accepted_priority (lit "urgent")).
  { intros [H|[H|[H|H]]]; discriminate H. }
  split; [reflexivity|]. split; [exact Hrej|].
  destruct (insertThought_rejects_without_effect demo_datetime (globals_of demo_db)
              (lit "main") (lit "slack") [] (lit "x") (lit "urgent") (frozen_clock 7))
    as [_ Hsome].
  destruct (Hsome demo_db eq_refl) as [_ Hthrow]. apply Hthrow. exact Hrej.
Defined.

Lemma insert_all_ids datetime requests : forall g d c,
  Plugin.db g = Some d -> store_ok d ->
  let result := insert_all datetime requests g c in
  exists d',
    Plugin.db (snd (fst result)) = Some d'
    /\ store_ok d'
    /\ (Plugin.buffered_thoughts_seq d <= Plugin.buffered_thoughts_seq d')%Z
    /\ StronglySorted Z.lt (returned_ids (fst (fst result)))
    /\ Forall (fun i => Plugin.buffered_thoughts_seq d < i <= Plugin.buffered_thoughts_seq d')%Z
              (returned_ids (fst (fst result))).
Proof.
  induction requests as [|r rest IH]; intros g d c Hdb Hok.
  - cbn. exists d. split; [exact Hdb|]. split; [exact Hok|]. split; [lia|].
    split; constructor.
  - cbn [insert_all]. unfold mbind, IO_bind.
    destruct (Plugin.parse_priority
                (if (length (req_priority r) =? 0)%nat then lit "P1" else req_priority r))
      as [p|] eqn:Hp.
    + rewrite (insertThought_run datetime g d _ _ _ _ _ p c Hdb Hp). cbn [fst snd].
      destruct (insertThought_store_ok datetime g d (req_agent r) (req_channel r)
                  (req_target r) (req_content r) (req_priority r) c Hdb Hok)
        as (d1 & Hd1 & Hok1).
      rewrite (insertThought_run datetime g d _ _ _ _ _ p c Hdb Hp) in Hd1.
      cbn [fst snd] in Hd1.
      assert (Hseq1 : Plugin.buffered_thoughts_seq d1 = (Plugin.buffered_thoughts_seq d + 1)%Z).
      { cbn [Plugin.set_db Plugin.db] in Hd1. injection Hd1 as <-. reflexivity. }
      specialize (IH _ d1 (tick c) Hd1 Hok1). cbn zeta in IH.
      destruct (insert_all datetime rest _ (tick c)) as [[outs g2] c2]. cbn [fst snd] in *.
      destruct IH as (d' & Hd' & Hok' & Hle & Hsorted & Hrange).
      exists d'. split; [exact Hd'|]. split; [exact Hok'|]. split; [lia|].
      cbn [returned_ids]. split.
      * constructor; [exact Hsorted|].
        eapply Forall_impl; [exact Hrange|]. intros i Hi. cbn in Hi. lia.
      * constructor; [lia|]. eapply Forall_impl; [exact Hrange|]. intros i Hi. cbn in *. lia.
    + assert (Hrun : Plugin.insertThought datetime g (req_agent r) (req_channel r)
                       (req_target r) (req_content r) (req_priority r) c
                     = ((Plugin.Threw Plugin.CHECK_FAILED, g), c)).
      { unfold Plugin.insertThought. rewrite Hdb, Hp. reflexivity. }
      rewrite Hrun. cbn [fst snd].
      specialize (IH g d c Hdb Hok). cbn zeta in IH.
      destruct (insert_all datetime rest g c) as [[outs g2] c2]. cbn [fst snd] in *.
      exact IH.
Qed.

(** X15: along any sequence of inserts into an open database, the row ids
    handed out are strictly increasing in call order, all larger than every
    id the table held before, whatever the agents, the priorities and the
    failed calls in between. *)
Theorem inserted_ids_strictly_increase
    (datetime : Z -> jsstring) (requests : list InsertRequest)
    (g : Plugin.Globals) (d : Plugin.Database) (c : Clock) :
  Plugin.db g = Some d ->
  store_ok d ->
  let ids := returned_ids (fst (fst (insert_all datetime requests g c))) in
  StronglySorted Z.lt ids
  /\ (forall i r, In i ids -> In r (Plugin.buffered_thoughts d) -> (id r < i)%Z).
Proof.
  intros Hdb Hok ids.
  destruct (insert_all_ids datetime requests g d c Hdb Hok) as (d' & _ & _ & _ & Hsorted & Hrange).
  split; [exact Hsorted|].
  intros i r Hi Hr. rewrite Forall_forall in Hrange.
  apply list_elem_of_In in Hi. specialize (Hrange i Hi). cbn in Hrange.
  destruct Hok as [_ Hseq]. rewrite Forall_forall in Hseq.
  apply list_elem_of_In in Hr. specialize (Hseq r Hr). cbn in Hseq. lia.
Qed.

Lemma inserted_ids_strictly_increase_witness :
  let requests :=
    [ {| req_agent := lit "main"; req_channel := lit "slack"; req_target := [];
         req_content := lit "a"; req_priority := lit "P2" |};
      {| req_agent := lit "other"; req_channel := lit "slack"; req_target := [];
         req_content := lit "b"; req_priority := lit "urgent" |};
      {| req_agent := lit "main"; req_channel := lit "slack"; req_target := [];
         req_content := lit "c"; req_priority := [] |} ] in
  Plugin.db (globals_of demo_db) = Some demo_db
  /\ returned_ids (fst (fst (insert_all demo_datetime requests (globals_of demo_db)
                               (frozen_clock 7)))) = [5; 6]%Z
  /\ StronglySorted Z.lt
       (returned_ids (fst (fst (insert_all demo_datetime requests (globals_of demo_db)
                                  (frozen_clock 7))))).
Proof.
  assert (Hok : store_ok demo_db).
  { split.
    - apply (bool_decide_eq_true_1 (NoDup (List.map id (Plugin.buffered_thoughts demo_db)))).
      vm_compute. reflexivity.
    - repeat constructor; cbn; lia. }
  split; [reflexivity|]. split; [reflexivity|].
  apply (inserted_ids_strictly_increase demo_datetime _ (globals_of demo_db) demo_db
           (frozen_clock 7) eq_refl Hok).
Defined.

Lemma set_status_pending_after a r :
  Plugin.set_status pending (synthesize_if_pending a r) = Plugin.set_status pending r.
Proof. unfold synthesize_if_pending. destruct (Plugin.is_pending_of a r); reflexivity. Qed.

Lemma markSynthesized_rows datetime g d a output c :
  Plugin.db g = Some d -> store_ok d ->
  exists d',
    Plugin.db (fst (Plugin.markSynthesized datetime g a output c)) = Some d'
    /\ Plugin.buffered_thoughts d'
       = List.map (synthesize_if_pending a) (Plugin.buffered_thoughts d)
    /\ Plugin.buffered_thoughts_seq d' = Plugin.buffered_thoughts_seq d
    /\ (exists appended,
          Plugin.synthesis_events d' = Plugin.synthesis_events d ++ appended
          /\ length appended = (if decide (Plugin.select_pending a d = []) then 0 else 1)
          /\ snd (Plugin.markSynthesized datetime g a output c)
             = {| wall := wall c; reads := reads c + length appended |}).
Proof.
  intros Hdb [Hnd _]. unfold Plugin.markSynthesized. rewrite Hdb.
  rewrite (getPendingThoughts_db g d a Hdb).
  destruct (decide (Plugin.select_pending a d = [])) as [Hnil|Hne].
  - rewrite Hnil. cbn [length Nat.eqb]. exists d. split; [exact Hdb|].
    split.
    { apply select_pending_nil_iff in Hnil. symmetry.
      rewrite <- (map_id (Plugin.buffered_thoughts d)) at 2.
      apply map_ext_in. intros r Hr. unfold synthesize_if_pending.
      destruct (Plugin.is_pending_of a r) eqn:Hp; [|reflexivity].
      exfalso. assert (Hin : In r (List.filter (Plugin.is_pending_of a)
                                     (Plugin.buffered_thoughts d))).
      { apply filter_In. split; assumption. }
      rewrite Hnil in Hin. destruct Hin. }
    split; [reflexivity|]. exists []. rewrite app_nil_r. split; [reflexivity|].
    split; [reflexivity|]. apply clock_plus_0.
  - destruct (Plugin.select_pending a d) as [|t0 rest] eqn:Hsel; [contradiction|].
    cbn [length Nat.eqb]. unfold mbind, IO_bind. rewrite Date_now_run. cbn [fst snd].
    rewrite <- Hsel, (update_by_ids d a Hnd).
    eexists. split; [reflexivity|]. cbn [Plugin.buffered_thoughts Plugin.buffered_thoughts_seq
                                         Plugin.synthesis_events].
    split; [reflexivity|]. split; [reflexivity|].
    eexists. split; [reflexivity|]. split; [reflexivity|]. apply tick_plus_1.
Qed.

(** X16: [markSynthesized] for one agent touches nothing of another: what
    is pending for any other agent is the same before and after; no row is
    added, removed or reordered, and no field other than the status
    changes; the ids handed out so far stay in force; and at most one event
    is appended after the existing ones. *)
Theorem markSynthesized_leaves_other_agents_alone
    (datetime : Z -> jsstring) (g : Plugin.Globals) (d : Plugin.Database)
    (agentId : jsstring) (output : option jsstring) (c : Clock) :
  Plugin.db g = Some d ->
  store_ok d ->
  let g' := fst (Plugin.markSynthesized datetime g agentId output c) in
  exists d',
    Plugin.db g' = Some d'
    /\ (forall other, other <> agentId ->
          Plugin.getPendingThoughts g' other = Plugin.getPendingThoughts g other)
    /\ List.map (Plugin.set_status pending) (Plugin.buffered_thoughts d')
       = List.map (Plugin.set_status pending) (Plugin.buffered_thoughts d)
    /\ Plugin.buffered_thoughts_seq d' = Plugin.buffered_thoughts_seq d
    /\ store_ok d'
    /\ (exists appended, Plugin.synthesis_events d' = Plugin.synthesis_events d ++ appended
                         /\ length appended <= 1).
Proof.
  intros Hdb Hok g'.
  destruct (markSynthesized_rows datetime g d agentId output c Hdb Hok)
    as (d' & Hd' & Hrows & Hseq & appended & Hev & Hlen & _).
  destruct (markSynthesized_store_ok datetime g d agentId output c Hdb Hok)
    as (d0 & Hd0 & Hok0).
  fold g' in Hd', Hd0. rewrite Hd' in Hd0. injection Hd0 as <-.
  exists d'. split; [exact Hd'|]. split; [|split; [|split; [|split]]].
  - intros other Hne. rewrite (getPendingThoughts_db g' d' other Hd').
    rewrite (getPendingThoughts_db g d other Hdb). unfold Plugin.select_pending.
    rewrite Hrows, filter_after_transition by congruence. reflexivity.
  - rewrite Hrows, map_map. apply map_ext. intros r. apply set_status_pending_after.
  - exact Hseq.
  - exact Hok0.
  - exists appended. split; [exact Hev|]. rewrite Hlen. destruct (decide _); lia.
Qed.

Lemma markSynthesized_leaves_other_agents_alone_witness :
  Plugin.db (globals_of demo_db) = Some demo_db
  /\ store_ok demo_db
  /\ List.map id (Plugin.getPendingThoughts
                    (fst (Plugin.markSynthesized demo_datetime (globals_of demo_db) (lit "main")
                            None (frozen_clock 0))) (lit "other")) = [3%Z]
  /\ exists d',
       Plugin.db (fst (Plugin.markSynthesized demo_datetime (globals_of demo_db) (lit "main")
                         None (frozen_clock 0))) = Some d'
       /\ store_ok d'.
Proof.
  assert (Hok : store_ok demo_db).
  { split.
    - apply (bool_decide_eq_true_1 (NoDup (List.map id (Plugin.buffered_thoughts demo_db)))).
      vm_compute. reflexivity.
    - repeat constructor; cbn; lia. }
  split; [reflexivity|]. split; [exact Hok|]. split; [reflexivity|].
  destruct (markSynthesized_leaves_other_agents_alone demo_datetime (globals_of demo_db)
              demo_db (lit "main") None (frozen_clock 0) eq_refl Hok)
    as (d' & Hd' & _ & _ & _ & Hok' & _).
  exists d'. split; [exact Hd'|exact Hok'].
Defined.

(** ** The queries of the store, taken together *)

Lemma distinct_In l x : In x (Plugin.distinct l) <-> In x l.
Proof.
  induction l as [|y l IH]; [reflexivity|]. cbn [Plugin.distinct In].
  rewrite filter_In, IH. split.
  - intros [H|[H _]]; auto.
  - intros [H|H]; [auto|]. destruct (decide (y = x)) as [E|E]; [auto|]. right.
    split; [exact H|]. apply negb_true_iff, not_true_is_false.
    rewrite jsstring_eqb_eq. congruence.
Qed.

Lemma NoDup_list_filter {A} (f : A -> bool) (l : list A) :
  NoDup l -> NoDup (List.filter f l).
Proof.
  induction l as [|x l IH]; intros H; [constructor|].
  apply NoDup_cons in H. destruct H as [Hx Hl]. cbn [List.filter].
  destruct (f x); [|exact (IH Hl)].
  apply NoDup_cons. split; [|exact (IH Hl)].
  rewrite list_elem_of_In, filter_In. rewrite list_elem_of_In in Hx. tauto.
Qed.

Lemma distinct_NoDup l : NoDup (Plugin.distinct l).
Proof.
  induction l as [|y l IH]; cbn [Plugin.distinct]; constructor.
  - rewrite list_elem_of_In, filter_In. intros [_ H]. apply negb_true_iff in H.
    assert (E : jsstring_eqb y y = true) by (apply jsstring_eqb_eq; reflexivity).
    congruence.
  - apply NoDup_list_filter. exact IH.
Qed.

Lemma total_over_cons a rest count :
  total_over (a :: rest) count = count a + total_over rest count.
Proof. reflexivity. Qed.

Lemma total_over_ext agents (f h : jsstring -> nat) :
  (forall a, In a agents -> f a = h a) -> total_over agents f = total_over agents h.
Proof.
  induction agents as [|a rest IH]; intros H; [reflexivity|]. rewrite !total_over_cons.
  rewrite (H a (or_introl eq_refl)). f_equal. apply IH. intros b Hb. apply H. right. exact Hb.
Qed.

Lemma total_over_without_absent k count agents :
  ~ In k agents ->
  total_over (List.filter (fun y => negb (jsstring_eqb y k)) agents) count
  = total_over agents count.
Proof.
  induction agents as [|a rest IH]; intros Hk; [reflexivity|]. cbn [List.filter].
  destruct (jsstring_eqb a k) eqn:E.
  - apply jsstring_eqb_eq in E. exfalso. apply Hk. left. exact E.
  - cbn [negb]. rewrite !total_over_cons. f_equal. apply IH. intros H. apply Hk. right.
    exact H.
Qed.

Lemma total_over_split k count agents :
  NoDup agents -> In k agents ->
  total_over agents count
  = count k + total_over (List.filter (fun y => negb (jsstring_eqb y k)) agents) count.
Proof.
  induction agents as [|a rest IH]; intros Hnd Hk; [destruct Hk|].
  apply NoDup_cons in Hnd. destruct Hnd as [Ha Hnd]. rewrite list_elem_of_In in Ha.
  cbn [List.filter]. destruct (jsstring_eqb a k) eqn:E.
  - apply jsstring_eqb_eq in E. subst a. cbn [negb]. rewrite total_over_cons.
    rewrite total_over_without_absent by exact Ha. reflexivity.
  - destruct Hk as [Hk|Hk].
    + subst a. assert (E' : jsstring_eqb k k = true) by (apply jsstring_eqb_eq; reflexivity).
      congruence.
    + cbn [negb]. rewrite !total_over_cons, (IH Hnd Hk). lia.
Qed.

Lemma filter_is_pending_of a rows :
  List.filter (Plugin.is_pending_of a) rows
  = List.filter (fun r => jsstring_eqb (agent_id r) a) (List.filter Plugin.is_pending rows).
Proof.
  induction rows as [|r rows IH]; [reflexivity|]. cbn [List.filter].
  unfold Plugin.is_pending_of, Plugin.is_pending in *.
  destruct (Status_eqb (status r) pending); cbn [List.filter].
  - rewrite andb_true_r. destruct (jsstring_eqb (agent_id r) a); rewrite IH; reflexivity.
  - rewrite andb_false_r. exact IH.
Qed.

Lemma count_absent_agent k rows :
  ~ In k (List.map agent_id rows) ->
  List.filter (fun r => jsstring_eqb (agent_id r) k) rows = [].
Proof.
  induction rows as [|r rows IH]; intros H; [reflexivity|]. cbn [List.filter].
  destruct (jsstring_eqb (agent_id r) k) eqn:E.
  - apply jsstring_eqb_eq in E. exfalso. apply H. left. exact E.
  - apply IH. intros Hin. apply H. right. exact Hin.
Qed.

Lemma length_by_agent rows :
  length rows
  = total_over (Plugin.distinct (List.map agent_id rows))
      (fun a => length (List.filter (fun r => jsstring_eqb (agent_id r) a) rows)).
Proof.
  induction rows as [|x rows IH]; [reflexivity|].
  cbn [List.map Plugin.distinct]. rewrite total_over_cons.
  assert (Hxx : jsstring_eqb (agent_id x) (agent_id x) = true)
    by (apply jsstring_eqb_eq; reflexivity).
  cbn [List.filter]. rewrite Hxx. cbn [length]. rewrite Nat.add_succ_l. f_equal.
  rewrite (total_over_ext _ _
             (fun a => length (List.filter (fun r => jsstring_eqb (agent_id r) a) rows))).
  2:{ intros a Ha. apply filter_In in Ha. destruct Ha as [_ Ha].
      apply negb_true_iff in Ha. cbn [List.filter].
      destruct (jsstring_eqb (agent_id x) a) eqn:E; [|reflexivity].
      apply jsstring_eqb_eq in E. subst a. congruence. }
  rewrite IH at 1.
  destruct (decide (agent_id x ∈ Plugin.distinct (List.map agent_id rows))) as [Hin|Hout];
    rewrite list_elem_of_In in *.
  - apply (total_over_split (agent_id x)
             (fun a => length (List.filter (fun r => jsstring_eqb (agent_id r) a) rows)));
      [apply distinct_NoDup|exact Hin].
  - rewrite total_over_without_absent by exact Hout.
    rewrite count_absent_agent; [reflexivity|]. rewrite <- distinct_In. exact Hout.
Qed.

(** X17: the three queries of the store describe one and the same set of
    pending rows.  The agents listed by [getAllPendingAgents] are distinct
    and are exactly those for which [getPendingThoughts] finds something;
    for a non-empty agent id [getPendingCount] is the length of what
    [getPendingThoughts] returns; an empty agent id is counted as no agent
    id at all; and the total is the sum of the per-agent lengths over the
    listed agents. *)
Theorem pending_queries_agree (g : Plugin.Globals) :
  NoDup (Plugin.getAllPendingAgents g)
  /\ (forall a, In a (Plugin.getAllPendingAgents g) <-> Plugin.getPendingThoughts g a <> [])
  /\ (forall a, a <> [] ->
        Plugin.getPendingCount g (Some a)
        = Z.of_nat (length (Plugin.getPendingThoughts g a)))
  /\ Plugin.getPendingCount g (Some []) = Plugin.getPendingCount g None
  /\ Plugin.getPendingCount g None
     = Z.of_nat (total_over (Plugin.getAllPendingAgents g)
                   (fun a => length (Plugin.getPendingThoughts g a))).
Proof.
  unfold Plugin.getAllPendingAgents, Plugin.getPendingCount, Plugin.getPendingThoughts.
  destruct (Plugin.db g) as [d|].
  2:{ split; [constructor|]. split; [intros a; cbn; tauto|].
      split; [reflexivity|]. split; reflexivity. }
  split; [apply distinct_NoDup|]. split; [|split; [|split]].
  - intros a. rewrite distinct_In, select_pending_nil_iff, in_map_iff. split.
    + intros (r & Hr & Hin) Hnil. apply filter_In in Hin. destruct Hin as [Hin Hp].
      assert (Hf : In r (List.filter (Plugin.is_pending_of a) (Plugin.buffered_thoughts d))).
      { apply filter_In. split; [exact Hin|]. apply is_pending_of_spec. split; [exact Hr|].
        apply Status_eqb_eq. exact Hp. }
      rewrite Hnil in Hf. destruct Hf.
    + intros Hne. destruct (List.filter (Plugin.is_pending_of a) (Plugin.buffered_thoughts d))
        as [|r rest] eqn:Hf; [contradiction|].
      assert (Hin : In r (List.filter (Plugin.is_pending_of a) (Plugin.buffered_thoughts d)))
        by (rewrite Hf; left; reflexivity).
      apply filter_In in Hin. destruct Hin as [Hin Hp].
      apply is_pending_of_spec in Hp. destruct Hp as [Ha Hs].
      exists r. split; [exact Ha|]. apply filter_In. split; [exact Hin|].
      apply Status_eqb_eq. exact Hs.
  - intros a Ha. destruct a as [|u a]; [contradiction|]. cbn [length Nat.eqb].
    rewrite select_pending_length. reflexivity.
  - reflexivity.
  - f_equal. rewrite (length_by_agent (List.filter Plugin.is_pending (Plugin.buffered_thoughts d))).
    apply total_over_ext. intros a _. rewrite select_pending_length, filter_is_pending_of.
    reflexivity.
Qed.

(** ** The flush command *)

Lemma set_db_same g d : Plugin.db g = Some d -> Plugin.set_db d g = g.
Proof. destruct g. cbn. intros ->. reflexivity. Qed.

Lemma set_db_set_db d1 d2 g : Plugin.set_db d2 (Plugin.set_db d1 g) = Plugin.set_db d2 g.
Proof. reflexivity. Qed.

Lemma store_ok_transition a d events events_seq :
  store_ok d ->
  store_ok {| Plugin.buffered_thoughts :=
                List.map (synthesize_if_pending a) (Plugin.buffered_thoughts d);
              Plugin.buffered_thoughts_seq := Plugin.buffered_thoughts_seq d;
              Plugin.synthesis_events := events;
              Plugin.synthesis_events_seq := events_seq |}.
Proof.
  intros [Hnd Hseq]. split; cbn [Plugin.buffered_thoughts Plugin.buffered_thoughts_seq].
  - rewrite map_map. erewrite map_ext; [exact Hnd|]. intros r. apply synthesize_if_pending_id.
  - apply Forall_forall. intros r Hr. apply list_elem_of_In, in_map_iff in Hr.
    destruct Hr as (r0 & <- & Hr0). rewrite synthesize_if_pending_id.
    rewrite Forall_forall in Hseq. apply Hseq, list_elem_of_In. exact Hr0.
Qed.

Lemma markSynthesized_run datetime g d a output c :
  Plugin.db g = Some d ->
  NoDup (List.map id (Plugin.buffered_thoughts d)) ->
  Plugin.select_pending a d <> [] ->
  Plugin.markSynthesized datetime g a output c
  = (Plugin.set_db
       {| Plugin.buffered_thoughts :=
            List.map (synthesize_if_pending a) (Plugin.buffered_thoughts d);
          Plugin.buffered_thoughts_seq := Plugin.buffered_thoughts_seq d;
          Plugin.synthesis_events :=
            Plugin.synthesis_events d
            ++ [{| Plugin.event_id := (Plugin.synthesis_events_seq d + 1)%Z;
                   Plugin.event_agent_id := a;
                   Plugin.thoughts_count := Z.of_nat (length (Plugin.select_pending a d));
                   Plugin.final_output := Plugin.or_null output;
                   Plugin.triggered_at := datetime (wall c (reads c)) |}];
          Plugin.synthesis_events_seq := (Plugin.synthesis_events_seq d + 1)%Z |} g,
     tick c).
Proof.
  intros Hdb Hnd Hne. unfold Plugin.markSynthesized. rewrite Hdb.
  rewrite (getPendingThoughts_db g d a Hdb).
  assert (Hz : (length (Plugin.select_pending a d) =? 0)%nat = false)
    by (destruct (Plugin.select_pending a d); [contradiction|reflexivity]).
  rewrite Hz. unfold mbind, IO_bind. rewrite Date_now_run. cbn [fst snd].
  rewrite (update_by_ids d a Hnd), length_map. reflexivity.
Qed.

Lemma transition_of_nothing a rows :
  List.filter (Plugin.is_pending_of a) rows = [] ->
  List.map (synthesize_if_pending a) rows = rows.
Proof.
  intros Hnil. rewrite <- (map_id rows) at 2. apply map_ext_in. intros r Hr.
  unfold synthesize_if_pending. destruct (Plugin.is_pending_of a r) eqn:Hp; [|reflexivity].
  exfalso. assert (Hin : In r (List.filter (Plugin.is_pending_of a) rows))
    by (apply filter_In; split; assumption).
  rewrite Hnil in Hin. destruct Hin.
Qed.

Lemma select_pending_ext a d d' :
  List.filter (Plugin.is_pending_of a) (Plugin.buffered_thoughts d')
  = List.filter (Plugin.is_pending_of a) (Plugin.buffered_thoughts d) ->
  Plugin.select_pending a d' = Plugin.select_pending a d.
Proof. intros H. unfold Plugin.select_pending. rewrite H. reflexivity. Qed.

(** What one turn of the loop does to the database; [appended] is the
    event it records, if any. *)
Lemma flushAgent_step datetime g d a c :
  Plugin.db g = Some d -> store_ok d ->
  exists d1 appended block,
    Plugin.flushAgent datetime g a c
    = ((block, Plugin.set_db d1 g), {| wall := wall c; reads := reads c + length appended |})
    /\ store_ok d1
    /\ Plugin.buffered_thoughts d1
       = List.map (synthesize_if_pending a) (Plugin.buffered_thoughts d)
    /\ Plugin.synthesis_events d1 = Plugin.synthesis_events d ++ appended
    /\ List.map (fun e => (Plugin.event_agent_id e, Plugin.thoughts_count e)) appended
       = (if (length (Plugin.select_pending a d) =? 0)%nat then []
          else [(a, Z.of_nat (length (Plugin.select_pending a d)))])
    /\ length (match block with Some b => [b] | None => [] end) = length appended.
Proof.
  intros Hdb Hok. unfold Plugin.flushAgent. rewrite (getPendingThoughts_db g d a Hdb).
  destruct (Plugin.select_pending a d) as [|t0 rest] eqn:Hsel.
  - cbn [length Nat.eqb]. exists d, [], None. rewrite (set_db_same g d Hdb), <- clock_plus_0.
    split; [reflexivity|]. split; [exact Hok|]. split.
    { symmetry. apply transition_of_nothing. apply select_pending_nil_iff. exact Hsel. }
    split; [symmetry; apply app_nil_r|]. split; reflexivity.
  - cbn [length Nat.eqb]. unfold mbind, IO_bind.
    rewrite (markSynthesized_run datetime g d a _ c Hdb (proj1 Hok))
      by (rewrite Hsel; discriminate).
    cbn [fst snd]. rewrite tick_plus_1. eexists _, [_], (Some _).
    split; [reflexivity|]. split; [apply store_ok_transition; exact Hok|].
    split; [reflexivity|]. split; [reflexivity|]. rewrite Hsel. split; reflexivity.
Qed.

(** The agents of a list that have something pending, each with the number
    of its pending thoughts. *)
Lemma flushLoop_run datetime agents : forall g d results c,
  Plugin.db g = Some d -> store_ok d ->
  exists d' appended blocks,
    Plugin.flushLoop datetime agents g results c
    = ((results ++ blocks, Plugin.set_db d' g),
       {| wall := wall c; reads := reads c + length appended |})
    /\ store_ok d'
    /\ (forall a, In a agents ->
          List.filter (Plugin.is_pending_of a) (Plugin.buffered_thoughts d') = [])
    /\ (forall b, ~ In b agents ->
          List.filter (Plugin.is_pending_of b) (Plugin.buffered_thoughts d')
          = List.filter (Plugin.is_pending_of b) (Plugin.buffered_thoughts d))
    /\ List.map (Plugin.set_status pending) (Plugin.buffered_thoughts d')
       = List.map (Plugin.set_status pending) (Plugin.buffered_thoughts d)
    /\ Plugin.synthesis_events d' = Plugin.synthesis_events d ++ appended
    /\ (NoDup agents ->
        List.map (fun e => (Plugin.event_agent_id e, Plugin.thoughts_count e)) appended
        = List.map (fun a => (a, Z.of_nat (length (Plugin.select_pending a d))))
            (List.filter (fun a => negb (length (Plugin.select_pending a d) =? 0)%nat) agents))
    /\ length blocks = length appended.
Proof.
  induction agents as [|a rest IH]; intros g d results c Hdb Hok.
  - exists d, [], []. cbn [Plugin.flushLoop]. rewrite app_nil_r, (set_db_same g d Hdb).
    rewrite <- clock_plus_0. split; [reflexivity|]. split; [exact Hok|].
    split; [intros a []|]. split; [reflexivity|]. split; [reflexivity|].
    split; [symmetry; apply app_nil_r|]. split; reflexivity.
  - destruct (flushAgent_step datetime g d a c Hdb Hok)
      as (d1 & ev1 & block & Hrun & Hok1 & Hrows1 & Hev1 & Hcount1 & Hlen1).
    cbn [Plugin.flushLoop]. unfold mbind, IO_bind. rewrite Hrun. cbn [fst snd].
    set (c1 := {| wall := wall c; reads := reads c + length ev1 |}).
    set (results1 := match block with Some b => results ++ [b] | None => results end).
    assert (Hnext : (let (o, g') := (block, Plugin.set_db d1 g) in
                     match o with
                     | Some b => Plugin.flushLoop datetime rest g' (results ++ [b])
                     | None => Plugin.flushLoop datetime rest g' results
                     end) c1
                    = Plugin.flushLoop datetime rest (Plugin.set_db d1 g) results1 c1).
    { subst results1. destruct block; reflexivity. }
    cbn beta iota in Hnext. cbn beta iota. 
    destruct (IH (Plugin.set_db d1 g) d1 results1 c1 eq_refl Hok1)
      as (d' & ev & blocks & Hloop & Hok' & Hin & Hout & Hsame & Hev & Hcount & Hlen).
    exists d', (ev1 ++ ev), (match block with Some b => [b] | None => [] end ++ blocks).
    split.
    { destruct block as [b|]; cbn [fst snd] in *; subst results1;
        rewrite Hloop, set_db_set_db; rewrite <- ?app_assoc; cbn [app];
        subst c1; cbn [wall reads]; rewrite length_app, Nat.add_assoc; reflexivity. }
    split; [exact Hok'|]. split; [|split; [|split; [|split; [|split]]]].
    + intros x [<-|Hx]; [|exact (Hin x Hx)].
      destruct (decide (a ∈ rest)) as [Hr|Hr]; rewrite list_elem_of_In in Hr.
      * exact (Hin a Hr).
      * rewrite (Hout a Hr), Hrows1. apply no_pending_after_transition.
    + intros b Hb. rewrite Hout by (intros H; apply Hb; right; exact H).
      rewrite Hrows1. apply filter_after_transition. intros ->. apply Hb. left. reflexivity.
    + rewrite Hsame, Hrows1, map_map. apply map_ext. intros r. apply set_status_pending_after.
    + rewrite Hev, Hev1, app_assoc. reflexivity.
    + intros Hnd. apply NoDup_cons in Hnd. destruct Hnd as [Ha Hnd].
      rewrite list_elem_of_In in Ha. rewrite map_app, Hcount1, (Hcount Hnd).
      cbn [List.filter].
      assert (Hrest : forall b, In b rest ->
                Plugin.select_pending b d1 = Plugin.select_pending b d).
      { intros b Hb. apply select_pending_ext. rewrite Hrows1.
        apply filter_after_transition. intros ->. contradiction. }
      assert (Hfilter :
        List.filter (fun b => negb (length (Plugin.select_pending b d1) =? 0)%nat) rest
        = List.filter (fun b => negb (length (Plugin.select_pending b d) =? 0)%nat) rest).
      { apply filter_ext_in. intros b Hb. rewrite (Hrest b Hb). reflexivity. }
      rewrite Hfilter.
      assert (Hmap :
        List.map (fun b => (b, Z.of_nat (length (Plugin.select_pending b d1))))
          (List.filter (fun b => negb (length (Plugin.select_pending b d) =? 0)%nat) rest)
        = List.map (fun b => (b, Z.of_nat (length (Plugin.select_pending b d))))
            (List.filter (fun b => negb (length (Plugin.select_pending b d) =? 0)%nat) rest)).
      { apply map_ext_in. intros b Hb. apply filter_In in Hb. destruct Hb as [Hb _].
        rewrite (Hrest b Hb). reflexivity. }
      rewrite Hmap. destruct (length (Plugin.select_pending a d) =? 0)%nat; reflexivity.
    + rewrite !length_app, Hlen, Hlen1. reflexivity.
Qed.

Lemma demo_db_store_ok : store_ok demo_db.
Proof.
  split.
  - apply (bool_decide_eq_true_1 (NoDup (List.map id (Plugin.buffered_thoughts demo_db)))).
    vm_compute. reflexivity.
  - repeat constructor; cbn; lia.
Qed.

Lemma filter_keeps_all {A} (f : A -> bool) (l : list A) :
  (forall x, In x l -> f x = true) -> List.filter f l = l.
Proof.
  induction l as [|x l IH]; intros H; [reflexivity|]. cbn [List.filter].
  rewrite (H x (or_introl eq_refl)). f_equal. apply IH. intros y Hy. apply H. right. exact Hy.
Qed.

Lemma distinct_nil_iff l : Plugin.distinct l = [] <-> l = [].
Proof. destruct l; cbn; split; congruence. Qed.

Lemma nothing_pending_iff rows :
  List.filter Plugin.is_pending rows = []
  <-> forall a, List.filter (Plugin.is_pending_of a) rows = [].
Proof.
  split.
  - intros H a. rewrite filter_is_pending_of, H. reflexivity.
  - intros H. destruct (List.filter Plugin.is_pending rows) as [|r rest] eqn:E; [reflexivity|].
    exfalso. assert (Hin : In r (List.filter Plugin.is_pending rows))
      by (rewrite E; left; reflexivity).
    apply filter_In in Hin. destruct Hin as [Hin Hp].
    assert (Hf : In r (List.filter (Plugin.is_pending_of (agent_id r)) rows)).
    { apply filter_In. split; [exact Hin|]. apply is_pending_of_spec. split; [reflexivity|].
      apply Status_eqb_eq. exact Hp. }
    rewrite H in Hf. destruct Hf.
Qed.

Lemma pending_agents_In g d a :
  Plugin.db g = Some d ->
  In a (Plugin.getAllPendingAgents g)
  <-> List.filter (Plugin.is_pending_of a) (Plugin.buffered_thoughts d) <> [].
Proof.
  intros Hdb. unfold Plugin.getAllPendingAgents. rewrite Hdb, distinct_In, in_map_iff. split.
  - intros (r & Hr & Hin) Hnil. apply filter_In in Hin. destruct Hin as [Hin Hp].
    assert (Hf : In r (List.filter (Plugin.is_pending_of a) (Plugin.buffered_thoughts d))).
    { apply filter_In. split; [exact Hin|]. apply is_pending_of_spec. split; [exact Hr|].
      apply Status_eqb_eq. exact Hp. }
    rewrite Hnil in Hf. destruct Hf.
  - intros Hne. destruct (List.filter (Plugin.is_pending_of a) (Plugin.buffered_thoughts d))
      as [|r rest] eqn:Hf; [contradiction|].
    assert (Hin : In r (List.filter (Plugin.is_pending_of a) (Plugin.buffered_thoughts d)))
      by (rewrite Hf; left; reflexivity).
    apply filter_In in Hin. destruct Hin as [Hin Hp].
    apply is_pending_of_spec in Hp. destruct Hp as [Ha Hs].
    exists r. split; [exact Ha|]. apply filter_In. split; [exact Hin|].
    apply Status_eqb_eq. exact Hs.
Qed.

Lemma sum_of_counts agents (f : jsstring -> nat) :
  List.fold_right Z.add 0%Z (List.map (fun a => Z.of_nat (f a)) agents)
  = Z.of_nat (total_over agents f).
Proof.
  induction agents as [|a rest IH]; [reflexivity|].
  rewrite total_over_cons. cbn [List.map fold_right]. rewrite IH. lia.
Qed.

Lemma header_is_not_the_empty_notice rest :
  Plugin.SYNTHESIS_HEADER ++ rest <> Plugin.NO_PENDING.
Proof.
  intros H. apply (f_equal (fun s => nth 1 s 0%N)) in H. vm_compute in H. discriminate H.
Qed.

(** X18: [/flush all] empties the store of pending thoughts in one call.
    Afterwards no thought of any agent is pending; no row was added,
    removed or reordered, and only the status of rows changed; one event
    was appended per agent that had pending thoughts, in the order of
    [getAllPendingAgents], each carrying the number of thoughts of that
    agent, so that the events together account for every thought that was
    pending; the clock was read once per agent; and the reply is the
    nothing-pending notice exactly when nothing was pending. *)
Theorem flush_all_drains_the_store
    (datetime : Z -> jsstring) (g : Plugin.Globals) (d : Plugin.Database) (c : Clock) :
  Plugin.db g = Some d ->
  store_ok d ->
  let result := Plugin.flushHandler datetime true g c in
  exists d' appended,
    snd (fst result) = Plugin.set_db d' g
    /\ store_ok d'
    /\ Plugin.getPendingCount (Plugin.set_db d' g) None = 0%Z
    /\ Plugin.getAllPendingAgents (Plugin.set_db d' g) = []
    /\ List.map (Plugin.set_status pending) (Plugin.buffered_thoughts d')
       = List.map (Plugin.set_status pending) (Plugin.buffered_thoughts d)
    /\ Plugin.synthesis_events d' = Plugin.synthesis_events d ++ appended
    /\ List.map (fun e => (Plugin.event_agent_id e, Plugin.thoughts_count e)) appended
       = List.map (fun a => (a, Z.of_nat (length (Plugin.getPendingThoughts g a))))
           (Plugin.getAllPendingAgents g)
    /\ List.fold_right Z.add 0%Z (List.map Plugin.thoughts_count appended)
       = Plugin.getPendingCount g None
    /\ snd result
       = {| wall := wall c; reads := reads c + length (Plugin.getAllPendingAgents g) |}
    /\ (fst (fst result) = Plugin.NO_PENDING <-> Plugin.getPendingCount g None = 0%Z).
Proof.
  intros Hdb Hok result.
  assert (Hcount : Plugin.getPendingCount g None
                   = Z.of_nat (length (List.filter Plugin.is_pending
                                         (Plugin.buffered_thoughts d)))).
  { unfold Plugin.getPendingCount. rewrite Hdb. reflexivity. }
  assert (Hagents : Plugin.getAllPendingAgents g
                    = Plugin.distinct (List.map agent_id
                        (List.filter Plugin.is_pending (Plugin.buffered_thoughts d)))).
  { unfold Plugin.getAllPendingAgents. rewrite Hdb. reflexivity. }
  assert (Hevents_total : forall appended,
    List.map (fun e => (Plugin.event_agent_id e, Plugin.thoughts_count e)) appended
    = List.map (fun a => (a, Z.of_nat (length (Plugin.getPendingThoughts g a))))
        (Plugin.getAllPendingAgents g) ->
    List.fold_right Z.add 0%Z (List.map Plugin.thoughts_count appended)
    = Plugin.getPendingCount g None).
  { intros appended H. apply (f_equal (List.map snd)) in H. rewrite !map_map in H.
    cbn [snd] in H.
    replace (List.map Plugin.thoughts_count appended)
      with (List.map (fun a => Z.of_nat (length (Plugin.getPendingThoughts g a)))
              (Plugin.getAllPendingAgents g)) by (symmetry; exact H).
    rewrite sum_of_counts, Hcount. f_equal.
    rewrite (length_by_agent (List.filter Plugin.is_pending (Plugin.buffered_thoughts d))).
    rewrite Hagents. apply total_over_ext. intros a _.
    rewrite (getPendingThoughts_db g d a Hdb), select_pending_length, filter_is_pending_of.
    reflexivity. }
  subst result. unfold Plugin.flushHandler.
  destruct (Plugin.getAllPendingAgents g) as [|a0 agents0] eqn:Hlist.
  - assert (Hnone : List.filter Plugin.is_pending (Plugin.buffered_thoughts d) = []).
    { symmetry in Hagents. apply distinct_nil_iff in Hagents.
      destruct (List.filter Plugin.is_pending (Plugin.buffered_thoughts d));
        [reflexivity|discriminate Hagents]. }
    cbn [length Nat.eqb orb]. exists d, []. cbn [fst snd].
    rewrite (set_db_same g d Hdb), Hlist, Hcount, Hnone. cbn [length].
    split; [reflexivity|]. split; [exact Hok|]. split; [reflexivity|].
    split; [reflexivity|]. split; [reflexivity|]. split; [symmetry; apply app_nil_r|].
    split; [reflexivity|]. split; [reflexivity|]. split; [apply clock_plus_0|].
    split; reflexivity.
  - rewrite <- Hlist in *.
    assert (Hsome : forall a, In a (Plugin.getAllPendingAgents g) ->
                      (length (Plugin.select_pending a d) =? 0)%nat = false).
    { intros a Ha. apply (pending_agents_In g d a Hdb) in Ha.
      rewrite select_pending_length.
      destruct (List.filter (Plugin.is_pending_of a) (Plugin.buffered_thoughts d));
        [contradiction|reflexivity]. }
    assert (Hpos : (Plugin.getPendingCount g None =? 0)%Z = false).
    { rewrite Hcount. apply Z.eqb_neq.
      destruct (List.filter Plugin.is_pending (Plugin.buffered_thoughts d)) eqn:E.
      - rewrite Hagents in Hlist. discriminate Hlist.
      - cbn [length]. lia. }
    assert (Hlen : (length (Plugin.getAllPendingAgents g) =? 0)%nat = false)
      by (rewrite Hlist; reflexivity).
    rewrite Hlen, Hpos. cbn [orb]. unfold mbind, IO_bind.
    destruct (flushLoop_run datetime (Plugin.getAllPendingAgents g) g d [] c Hdb Hok)
      as (d' & appended & blocks & Hrun & Hok' & Hin & Hout & Hsame & Hev & Hpairs & Hblocks).
    rewrite Hrun. cbn [fst snd app].
    assert (Hnd : NoDup (Plugin.getAllPendingAgents g))
      by (rewrite Hagents; apply distinct_NoDup).
    specialize (Hpairs Hnd).
    assert (Hall : List.filter (fun a => negb (length (Plugin.select_pending a d) =? 0)%nat)
                     (Plugin.getAllPendingAgents g) = Plugin.getAllPendingAgents g).
    { apply filter_keeps_all. intros a Ha. rewrite (Hsome a Ha). reflexivity. }
    rewrite Hall in Hpairs.
    assert (Hpairs' :
      List.map (fun e => (Plugin.event_agent_id e, Plugin.thoughts_count e)) appended
      = List.map (fun a => (a, Z.of_nat (length (Plugin.getPendingThoughts g a))))
          (Plugin.getAllPendingAgents g)).
    { rewrite Hpairs. apply map_ext. intros a.
      rewrite (getPendingThoughts_db g d a Hdb). reflexivity. }
    assert (Hdrained : List.filter Plugin.is_pending (Plugin.buffered_thoughts d') = []).
    { apply nothing_pending_iff. intros a.
      destruct (decide (a ∈ Plugin.getAllPendingAgents g)) as [Ha|Ha];
        rewrite list_elem_of_In in Ha.
      - exact (Hin a Ha).
      - rewrite (Hout a Ha).
        destruct (List.filter (Plugin.is_pending_of a) (Plugin.buffered_thoughts d)) eqn:E;
          [reflexivity|].
        exfalso. apply Ha. apply (pending_agents_In g d a Hdb). rewrite E. discriminate. }
    exists d', appended. split; [reflexivity|]. split; [exact Hok'|].
    split; [unfold Plugin.getPendingCount; cbn [Plugin.db Plugin.set_db];
            rewrite Hdrained; reflexivity|].
    split; [unfold Plugin.getAllPendingAgents; cbn [Plugin.db Plugin.set_db];
            rewrite Hdrained; reflexivity|].
    split; [exact Hsame|]. split; [exact Hev|]. split; [exact Hpairs'|].
    split; [exact (Hevents_total appended Hpairs')|].
    split.
    { apply (f_equal (@length _)) in Hpairs'. rewrite !length_map in Hpairs'.
      unfold mret, IO_ret. cbn [snd]. rewrite Hpairs'. reflexivity. }
    split.
    + intros H. exfalso. exact (header_is_not_the_empty_notice _ H).
    + intros H. apply Z.eqb_neq in Hpos. contradiction.
Qed.

Lemma flush_all_drains_the_store_witness :
  Plugin.db (globals_of demo_db) = Some demo_db
  /\ store_ok demo_db
  /\ Plugin.getAllPendingAgents (globals_of demo_db) = [lit "main"; lit "other"]
  /\ exists d' appended,
       snd (fst (Plugin.flushHandler demo_datetime true (globals_of demo_db) (frozen_clock 0)))
       = Plugin.set_db d' (globals_of demo_db)
       /\ Plugin.getAllPendingAgents (Plugin.set_db d' (globals_of demo_db)) = []
       /\ List.map (fun e => (Plugin.event_agent_id e, Plugin.thoughts_count e)) appended
          = [(lit "main", 3%Z); (lit "other", 1%Z)].
Proof.
  split; [reflexivity|]. split; [exact demo_db_store_ok|]. split; [reflexivity|].
  destruct (flush_all_drains_the_store demo_datetime (globals_of demo_db) demo_db
              (frozen_clock 0) eq_refl demo_db_store_ok)
    as (d' & appended & Hg & _ & _ & Hnone & _ & _ & Hpairs & _).
  exists d', appended. split; [exact Hg|]. split; [exact Hnone|]. exact Hpairs.
Defined.

Lemma prompt_is_recorded thoughts :
  Plugin.or_null (Some (Plugin.generateSynthesisPrompt thoughts))
  = Some (Plugin.generateSynthesisPrompt thoughts).
Proof.
  unfold Plugin.generateSynthesisPrompt.
  change (lit "**SYSTEM: NETWORK RECOVERED**") with (42%N :: lit "*SYSTEM: NETWORK RECOVERED**").
  reflexivity.
Qed.

Lemma flushAgent_empty datetime g d a c :
  Plugin.db g = Some d -> Plugin.select_pending a d = [] ->
  Plugin.flushAgent datetime g a c = ((None, g), c).
Proof.
  intros Hdb Hnil. unfold Plugin.flushAgent.
  rewrite (getPendingThoughts_db g d a Hdb), Hnil. reflexivity.
Qed.

Lemma flushAgent_nonempty datetime g d a c :
  Plugin.db g = Some d ->
  NoDup (List.map id (Plugin.buffered_thoughts d)) ->
  Plugin.select_pending a d <> [] ->
  Plugin.flushAgent datetime g a c
  = ((Some (lit "### " ++ a ++ lit " (" ++ nat_toString (length (Plugin.select_pending a d))
            ++ lit " thoughts)" ++ [LF; LF]
            ++ Plugin.generateSynthesisPrompt (Plugin.select_pending a d)),
      Plugin.set_db
        {| Plugin.buffered_thoughts :=
             List.map (synthesize_if_pending a) (Plugin.buffered_thoughts d);
           Plugin.buffered_thoughts_seq := Plugin.buffered_thoughts_seq d;
           Plugin.synthesis_events :=
             Plugin.synthesis_events d
             ++ [{| Plugin.event_id := (Plugin.synthesis_events_seq d + 1)%Z;
                    Plugin.event_agent_id := a;
                    Plugin.thoughts_count := Z.of_nat (length (Plugin.select_pending a d));
                    Plugin.final_output :=
                      Some (Plugin.generateSynthesisPrompt (Plugin.select_pending a d));
                    Plugin.triggered_at := datetime (wall c (reads c)) |}];
           Plugin.synthesis_events_seq := (Plugin.synthesis_events_seq d + 1)%Z |} g),
     tick c).
Proof.
  intros Hdb Hnd Hne. unfold Plugin.flushAgent.
  rewrite (getPendingThoughts_db g d a Hdb).
  assert (Hz : (length (Plugin.select_pending a d) =? 0)%nat = false)
    by (destruct (Plugin.select_pending a d); [contradiction|reflexivity]).
  rewrite Hz. unfold mbind, IO_bind.
  rewrite (markSynthesized_run datetime g d a _ c Hdb Hnd Hne), prompt_is_recorded.
  reflexivity.
Qed.

(** X19: [/flush] without [all] serves the agent main and no other.
    Afterwards main has nothing pending and every other agent has what it
    had.  When main had nothing pending the call changes nothing and reads
    no clock, and its reply is the nothing-pending notice if the whole
    store is drained but the bare synthesis header if only other agents
    have pending thoughts.  When main had pending thoughts the reply is the
    header followed by the block of main, and the one event appended
    records as its output the prompt itself. *)
Theorem default_flush_serves_main_only
    (datetime : Z -> jsstring) (g : Plugin.Globals) (d : Plugin.Database) (c : Clock) :
  Plugin.db g = Some d ->
  store_ok d ->
  let result := Plugin.flushHandler datetime false g c in
  let g' := snd (fst result) in
  let mine := Plugin.getPendingThoughts g (lit "main") in
  Plugin.getPendingThoughts g' (lit "main") = []
  /\ (forall other, other <> lit "main" ->
        Plugin.getPendingThoughts g' other = Plugin.getPendingThoughts g other)
  /\ (mine = [] ->
        g' = g /\ snd result = c
        /\ fst (fst result)
           = if (Plugin.getPendingCount g None =? 0)%Z then Plugin.NO_PENDING
             else Plugin.SYNTHESIS_HEADER)
  /\ (mine <> [] ->
        fst (fst result)
        = Plugin.SYNTHESIS_HEADER ++ lit "### main (" ++ nat_toString (length mine)
          ++ lit " thoughts)" ++ [LF; LF] ++ Plugin.generateSynthesisPrompt mine
        /\ snd result = tick c
        /\ exists d' e,
             Plugin.db g' = Some d'
             /\ Plugin.synthesis_events d' = Plugin.synthesis_events d ++ [e]
             /\ Plugin.event_agent_id e = lit "main"
             /\ Plugin.thoughts_count e = Z.of_nat (length mine)
             /\ Plugin.final_output e = Some (Plugin.generateSynthesisPrompt mine)).
Proof.
  intros Hdb Hok result g' mine.
  assert (Hmine : mine = Plugin.select_pending (lit "main") d)
    by apply (getPendingThoughts_db g d _ Hdb).
  assert (Hcount : Plugin.getPendingCount g None
                   = Z.of_nat (length (List.filter Plugin.is_pending
                                         (Plugin.buffered_thoughts d)))).
  { unfold Plugin.getPendingCount. rewrite Hdb. reflexivity. }
  destruct (Plugin.getPendingCount g None =? 0)%Z eqn:Hzero.
  - (* nothing is pending at all *)
    assert (Hresult : result = ((Plugin.NO_PENDING, g), c)).
    { subst result. unfold Plugin.flushHandler. rewrite Hzero. reflexivity. }
    assert (Hnone : forall a, Plugin.getPendingThoughts g a = []).
    { intros a. rewrite (getPendingThoughts_db g d a Hdb). apply select_pending_nil_iff.
      apply nothing_pending_iff. apply Z.eqb_eq in Hzero. rewrite Hcount in Hzero.
      destruct (List.filter Plugin.is_pending (Plugin.buffered_thoughts d));
        [reflexivity|cbn [length] in Hzero; lia]. }
    subst g'. rewrite Hresult. cbn [fst snd].
    split; [apply Hnone|]. split; [reflexivity|].
    split; [intros _; repeat split|].
    intros Hne. exfalso. apply Hne. apply Hnone.
  - destruct (decide (Plugin.select_pending (lit "main") d = [])) as [Hnil|Hne].
    + (* only other agents have pending thoughts *)
      assert (Hresult : result = ((Plugin.SYNTHESIS_HEADER, g), c)).
      { subst result. unfold Plugin.flushHandler. rewrite Hzero.
        cbn [length Nat.eqb orb Plugin.flushLoop]. unfold mbind, IO_bind.
        rewrite (flushAgent_empty datetime g d _ c Hdb Hnil). reflexivity. }
      subst g'. rewrite Hresult. cbn [fst snd].
      split; [rewrite <- Hnil; exact Hmine|]. split; [reflexivity|].
      split; [intros _; repeat split|].
      intros H. exfalso. apply H. rewrite Hmine. exact Hnil.
    + (* main is served *)
      assert (Hrun := flushAgent_nonempty datetime g d (lit "main") c Hdb (proj1 Hok) Hne).
      rewrite <- Hmine in Hrun.
      set (d1 := {| Plugin.buffered_thoughts :=
                      List.map (synthesize_if_pending (lit "main")) (Plugin.buffered_thoughts d);
                    Plugin.buffered_thoughts_seq := Plugin.buffered_thoughts_seq d;
                    Plugin.synthesis_events := _;
                    Plugin.synthesis_events_seq := _ |}) in Hrun.
      assert (Hresult : result
                = ((Plugin.SYNTHESIS_HEADER ++ lit "### main (" ++ nat_toString (length mine)
                    ++ lit " thoughts)" ++ [LF; LF] ++ Plugin.generateSynthesisPrompt mine,
                    Plugin.set_db d1 g), tick c)).
      { subst result. unfold Plugin.flushHandler. rewrite Hzero.
        cbn [length Nat.eqb orb Plugin.flushLoop]. unfold mbind, IO_bind.
        rewrite Hrun. reflexivity. }
      subst g'. rewrite Hresult. cbn [fst snd].
      split.
      { rewrite (getPendingThoughts_db (Plugin.set_db d1 g) d1 _ eq_refl).
        apply select_pending_nil_iff.
        apply no_pending_after_transition. }
      split.
      { intros other Hother.
        rewrite (getPendingThoughts_db (Plugin.set_db d1 g) d1 _ eq_refl).
        rewrite (getPendingThoughts_db g d _ Hdb). apply select_pending_ext.
        apply filter_after_transition. congruence. }
      split; [intros H; exfalso; apply Hne; rewrite <- Hmine; exact H|].
      intros _. split; [reflexivity|]. split; [reflexivity|].
      eexists d1, _. split; [reflexivity|]. split; [reflexivity|].
      split; [reflexivity|]. split; reflexivity.
Qed.

Lemma default_flush_serves_main_only_witness :
  let others_only :=
    {| Plugin.buffered_thoughts :=
         List.filter (fun r => negb (jsstring_eqb (agent_id r) (lit "main"))) demo_rows;
       Plugin.buffered_thoughts_seq := 4;
       Plugin.synthesis_events := [];
       Plugin.synthesis_events_seq := 0 |} in
  Plugin.db (globals_of others_only) = Some others_only
  /\ store_ok others_only
  /\ Plugin.getPendingCount (globals_of others_only) None = 1%Z
  /\ fst (fst (Plugin.flushHandler demo_datetime false (globals_of others_only)
                 (frozen_clock 0))) = Plugin.SYNTHESIS_HEADER
  /\ Plugin.getPendingThoughts
       (snd (fst (Plugin.flushHandler demo_datetime false (globals_of demo_db)
                    (frozen_clock 0)))) (lit "main") = [].
Proof.
  intros others_only.
  assert (Hok : store_ok others_only).
  { split; [|repeat constructor; cbn; lia].
    apply (bool_decide_eq_true_1 (NoDup (List.map id (Plugin.buffered_thoughts others_only)))).
    vm_compute. reflexivity. }
  split; [reflexivity|]. split; [exact Hok|]. split; [reflexivity|]. split.
  - destruct (default_flush_serves_main_only demo_datetime (globals_of others_only)
                others_only (frozen_clock 0) eq_refl Hok) as (_ & _ & Hidle & _).
    destruct (Hidle eq_refl) as (_ & _ & Hreply). exact Hreply.
  - exact (proj1 (default_flush_serves_main_only demo_datetime (globals_of demo_db) demo_db
                    (frozen_clock 0) eq_refl demo_db_store_ok)).
Defined.

(** ** The buffer_thought tool *)

Lemma or_default_not_empty x fallback :
  fallback <> [] -> (length (Plugin.or_default x fallback) =? 0)%nat = false.
Proof.
  intros H. unfold Plugin.or_default. destruct x as [[|u s]|].
  - destruct fallback; [contradiction|reflexivity].
  - reflexivity.
  - destruct fallback; [contradiction|reflexivity].
Qed.

(** X20: the [buffer_thought] tool never refuses a thought for lack of
    room.  On an open database and with a priority that the table accepts,
    whatever [maxBufferSize] is, the thought is stored as it came (no
    trimming, no length limit) as a new pending row of agent main with the
    defaults filled in; the answer says so, carries the new row id and the
    pending count of main, which is one more than before; and the only
    effect of reaching the limit is the capacity warning in the hint. *)
Theorem buffer_thought_stores_without_limit
    (datetime : Z -> jsstring) (maxBuffer : Z) (g : Plugin.Globals) (d : Plugin.Database)
    (thought0 : jsstring) (channel0 target0 priority0 : option jsstring)
    (p : Priority) (c : Clock) :
  Plugin.db g = Some d ->
  Plugin.parse_priority (Plugin.or_default priority0 (lit "P1")) = Some p ->
  let before := Plugin.getPendingCount g (Some (lit "main")) in
  let result :=
    Plugin.buffer_thought datetime maxBuffer g thought0 channel0 target0 priority0 c in
  exists answer d' row,
    fst (fst result) = Plugin.Returned answer
    /\ Plugin.ok answer = true /\ Plugin.buffered answer = true
    /\ Plugin.answer_id answer = (Plugin.buffered_thoughts_seq d + 1)%Z
    /\ Plugin.answer_pending answer = (before + 1)%Z
    /\ Plugin.hint answer
       = lit "Thought buffered. Do not retry."
         ++ (if (maxBuffer <=? before + 1)%Z
             then lit " Buffer at capacity (" ++ Number_toString maxBuffer ++ lit ")."
             else [])
    /\ Plugin.db (snd (fst result)) = Some d'
    /\ Plugin.buffered_thoughts d' = Plugin.buffered_thoughts d ++ [row]
    /\ id row = Plugin.answer_id answer
    /\ agent_id row = lit "main"
    /\ content row = thought0
    /\ channel row = Plugin.or_default channel0 (lit "unknown")
    /\ target row = Plugin.or_default target0 []
    /\ priority row = p
    /\ status row = pending
    /\ Plugin.getPendingCount (snd (fst result)) (Some (lit "main"))
       = Plugin.answer_pending answer.
Proof.
  intros Hdb Hp before result. subst result. unfold Plugin.buffer_thought.
  unfold mbind, IO_bind.
  assert (Hp' : Plugin.parse_priority
                  (if (length (Plugin.or_default priority0 (lit "P1")) =? 0)%nat
                   then lit "P1" else Plugin.or_default priority0 (lit "P1")) = Some p).
  { rewrite or_default_not_empty by discriminate. exact Hp. }
  rewrite (insertThought_run datetime g d _ _ _ _ _ p c Hdb Hp'). cbn [fst snd].
  set (row := {| id := (Plugin.buffered_thoughts_seq d + 1)%Z; agent_id := lit "main";
                 channel := Plugin.or_default channel0 (lit "unknown");
                 target := Plugin.or_default target0 []; content := thought0;
                 priority := p; created_at := datetime (wall c (reads c));
                 status := pending |}).
  set (d' := {| Plugin.buffered_thoughts := Plugin.buffered_thoughts d ++ [row];
                Plugin.buffered_thoughts_seq := (Plugin.buffered_thoughts_seq d + 1)%Z;
                Plugin.synthesis_events := Plugin.synthesis_events d;
                Plugin.synthesis_events_seq := Plugin.synthesis_events_seq d |}).
  assert (Hcount : Plugin.getPendingCount (Plugin.set_db d' g) (Some (lit "main"))
                   = (before + 1)%Z).
  { subst before. unfold Plugin.getPendingCount. rewrite Hdb.
    cbn [Plugin.db Plugin.set_db]. 
    change (length (lit "main") =? 0)%nat with false. cbn iota.
    subst d'. cbn [Plugin.buffered_thoughts]. rewrite List.filter_app, length_app.
    assert (Hrow : Plugin.is_pending_of (lit "main") row = true)
      by (apply is_pending_of_spec; split; reflexivity).
    cbn [List.filter]. rewrite Hrow. cbn [length]. lia. }
  rewrite Hcount. unfold mret, IO_ret. cbn [fst snd].
  eexists _, d', row. split; [reflexivity|]. cbn [Plugin.ok Plugin.buffered Plugin.answer_id
    Plugin.answer_pending Plugin.hint].
  repeat (split; [reflexivity|]). exact Hcount.
Qed.

Lemma buffer_thought_stores_without_limit_witness :
  Plugin.db (globals_of demo_db) = Some demo_db
  /\ Plugin.parse_priority (Plugin.or_default None (lit "P1")) = Some P1
  /\ exists answer,
       fst (fst (Plugin.buffer_thought demo_datetime 2 (globals_of demo_db) long_thought
                   None None None (frozen_clock 7)))
       = Plugin.Returned answer
       /\ Plugin.answer_id answer = 5%Z
       /\ Plugin.answer_pending answer = 4%Z.
Proof.
  split; [reflexivity|]. split; [reflexivity|].
  destruct (buffer_thought_stores_without_limit demo_datetime 2 (globals_of demo_db) demo_db
              long_thought None None None P1 (frozen_clock 7) eq_refl eq_refl)
    as (answer & d' & row & Hret & _ & _ & Hid & Hpending & _).
  exists answer. split; [exact Hret|]. split; [exact Hid|exact Hpending].
Defined.

(** X21: the two ways in which [buffer_thought] stores nothing.  Without a
    database it still answers that the thought was buffered, with id -1 and
    a pending count of 0, and changes nothing.  With a database and a
    priority that is neither absent, empty, nor one of P0, P1, P2 the call
    throws, and again nothing is stored and no clock is read. *)
Theorem buffer_thought_failure_modes
    (datetime : Z -> jsstring) (maxBuffer : Z) (g : Plugin.Globals)
    (thought0 : jsstring) (channel0 target0 priority0 : option jsstring) (c : Clock) :
  (Plugin.db g = None ->
     Plugin.buffer_thought datetime maxBuffer g thought0 channel0 target0 priority0 c
     = ((Plugin.Returned
           {| Plugin.ok := true; Plugin.buffered := true; Plugin.answer_id := (-1)%Z;
              Plugin.answer_pending := 0%Z;
              Plugin.hint :=
                lit "Thought buffered. Do not retry."
                ++ (if (maxBuffer <=? 0)%Z
                    then lit " Buffer at capacity (" ++ Number_toString maxBuffer ++ lit ")."
                    else []) |}, g), c))
  /\ (forall d s, Plugin.db g = Some d -> priority0 = Some s -> ~ accepted_priority s ->
        Plugin.buffer_thought datetime maxBuffer g thought0 channel0 target0 priority0 c
        = ((Plugin.Threw Plugin.CHECK_FAILED, g), c)).
Proof.
  split.
  - intros Hdb. unfold Plugin.buffer_thought, Plugin.insertThought, Plugin.getPendingCount.
    rewrite Hdb. unfold mbind, IO_bind, mret, IO_ret. cbn [fst snd]. rewrite Hdb. reflexivity.
  - intros d s Hdb -> Hrej. unfold Plugin.buffer_thought, Plugin.insertThought.
    rewrite Hdb. pose proof (parse_priority_Some_iff s) as Hiff.
    assert (Hs : s <> []) by (intros ->; apply Hrej; left; reflexivity).
    assert (Hor : Plugin.or_default (Some s) (lit "P1") = s)
      by (destruct s; [contradiction|reflexivity]).
    rewrite Hor.
    destruct (Plugin.parse_priority (if (length s =? 0)%nat then lit "P1" else s)) eqn:Hp.
    + exfalso. apply Hrej, Hiff. eexists. reflexivity.
    + reflexivity.
Qed.

(** ** The plugin under any sequence of requests *)











(** ** Numbers given as text *)

Lemma lit_String a s : lit (String a s) = Ascii.N_of_ascii a :: lit s.
Proof. reflexivity. Qed.

Lemma leading_digits_of_uint d :
  Plugin.leading_digits (lit (NilEmpty.string_of_uint d)) = lit (NilEmpty.string_of_uint d).
Proof.
  induction d; cbn [NilEmpty.string_of_uint]; [reflexivity|..];
    rewrite lit_String; cbn [Plugin.leading_digits]; cbn [Plugin.is_digit Ascii.N_of_ascii];
    cbn; rewrite IHd; reflexivity.
Qed.

Lemma digits_value_acc d : forall acc : positive,
  List.fold_left (fun acc0 u => acc0 * 10 + (Z.of_N u - 48))%Z
    (lit (NilEmpty.string_of_uint d)) (Z.pos acc)
  = Z.pos (Pos.of_uint_acc d acc).
Proof.
  induction d; intros acc; cbn [NilEmpty.string_of_uint Pos.of_uint_acc]; [reflexivity|..];
    rewrite lit_String; cbn [List.fold_left]; rewrite <- IHd; f_equal; cbn; lia.
Qed.

Lemma digits_value_of_uint d :
  Plugin.digits_value (lit (NilEmpty.string_of_uint d)) = Z.of_N (Pos.of_uint d).
Proof.
  unfold Plugin.digits_value.
  induction d; cbn [NilEmpty.string_of_uint Pos.of_uint]; [reflexivity|..];
    rewrite lit_String; cbn [List.fold_left];
    [exact IHd|cbn [Z.of_N]; rewrite <- digits_value_acc; f_equal..].
Qed.

Lemma to_uint_head p :
  exists u rest, lit (NilEmpty.string_of_uint (Pos.to_uint p)) = u :: rest
                 /\ Plugin.is_digit u = true.
Proof.
  pose proof (DecimalPos.Unsigned.of_to p) as Hp.
  destruct (Pos.to_uint p) as [|d|d|d|d|d|d|d|d|d|d] eqn:E; cbn [NilEmpty.string_of_uint];
    [discriminate Hp|..]; rewrite lit_String; eexists _, _; split; reflexivity.
Qed.

Lemma digit_is_no_space_or_sign u :
  Plugin.is_digit u = true ->
  is_trim_space u = false /\ (u =? 45)%N = false /\ (u =? 43)%N = false.
Proof.
  unfold Plugin.is_digit, is_trim_space. intros H.
  apply andb_true_iff in H. destruct H as [H1 H2].
  apply N.leb_le in H1. apply N.leb_le in H2.
  repeat split; repeat rewrite orb_false_iff; repeat split;
    try (apply N.eqb_neq; lia);
    try (apply andb_false_iff; (left; apply N.leb_gt; lia) || (right; apply N.leb_gt; lia)).
Qed.

(** [parseInt(String(n), 10)] is [n]. *)
Lemma parseInt10_Number_toString n : Plugin.parseInt10 (Number_toString n) = Some n.
Proof.
  unfold Number_toString. destruct n as [|p|p]; [reflexivity|..];
    cbn [Z.to_int NilZero.string_of_int]; unfold NilZero.string_of_uint;
    destruct (to_uint_head p) as (u & rest & Hs & Hu);
    assert (Hnil : (match Pos.to_uint p with
                    | Decimal.Nil => "0"%string
                    | _ => NilEmpty.string_of_uint (Pos.to_uint p)
                    end) = NilEmpty.string_of_uint (Pos.to_uint p))
      by (destruct (Pos.to_uint p); [discriminate Hs|reflexivity..]);
    rewrite Hnil;
    assert (Hld : Plugin.leading_digits (u :: rest) = u :: rest)
      by (rewrite <- Hs; apply leading_digits_of_uint);
    assert (Hdv : Plugin.digits_value (u :: rest) = Z.pos p)
      by (rewrite <- Hs, digits_value_of_uint, DecimalPos.Unsigned.of_to; reflexivity);
    destruct (digit_is_no_space_or_sign u Hu) as (Hspace & Hminus & Hplus);
    unfold Plugin.parseInt10.
  - rewrite Hs. cbn [trimStart]. rewrite Hspace, Hminus, Hplus. cbn [fst snd].
    rewrite Hld, Hdv. reflexivity.
  - rewrite lit_String, Hs.
    change (trimStart (Ascii.N_of_ascii "-" :: u :: rest))
      with (Ascii.N_of_ascii "-" :: u :: rest).
    assert (Hsign : (Ascii.N_of_ascii "-" =? 45)%N = true) by reflexivity.
    cbv beta iota. rewrite Hsign. cbn [fst snd]. rewrite Hld, Hdv. reflexivity.
Qed.

(** X23: [/buffer simulate <n>], with [n] a whole number within 2^53
    written in decimal, round-trips through [parseInt]: the simulated
    latency becomes [n] clamped at 0, the halt is lifted, the forced flag is
    kept, no clock is read, and the reply announces the simulation exactly
    when [n] is positive.  Without a number the simulation is switched off.
    Unless buffering is forced, the next decision buffers with reason
    simulated as soon as the clamped value exceeds the threshold, whatever
    the tracker holds.  (Beyond 2^53 [parseInt] returns the nearest double
    and large numbers print in exponent form; they are not covered.) *)
Theorem simulate_command_sets_the_simulated_latency
    (threshold n : Z) (g : Plugin.Globals) (c : Clock) :
  exact_integer n ->
  let g' := Plugin.set_overrides (Plugin.globalForcedBuffering g) (Z.max 0 n) false g in
  Plugin.bufferHandler threshold [lit "simulate"; Number_toString n] g c
  = (Some (Plugin.TEST_TUBE
           ++ (if (0 <? n)%Z
               then lit " **Simulating " ++ Number_toString n ++ lit "ms latency**"
               else lit " **Simulation off**"), g'), c)
  /\ Plugin.bufferHandler threshold [lit "simulate"] g c
     = (Some (Plugin.TEST_TUBE ++ lit " **Simulation off**",
              Plugin.set_overrides (Plugin.globalForcedBuffering g) 0 false g), c)
  /\ (Plugin.globalForcedBuffering g = false ->
      (threshold < Z.max 0 n)%Z ->
      Plugin.shouldBuffer g' threshold c
      = ({| Core.buffering := true;
            Core.reason := lit "simulated " ++ Number_toString (Z.max 0 n) ++ lit "ms";
            Core.latencyMs := inject_Z (Z.max 0 n) |}, c)).
Proof.
  intros _ g'. split; [|split].
  - unfold Plugin.bufferHandler. cbn [List.hd List.nth_error].
    rewrite decide_False by discriminate. rewrite decide_False by discriminate.
    rewrite decide_True by reflexivity.
    assert (Harg : Plugin.or_default (Some (Number_toString n)) (lit "0") = Number_toString n).
    { pose proof (parseInt10_Number_toString n) as H.
      destruct (Number_toString n); [discriminate H|reflexivity]. }
    rewrite Harg, parseInt10_Number_toString.
    destruct (Z.ltb_spec 0 n) as [Hpos|Hneg].
    + rewrite Z.max_r by lia. assert (H : (0 <? n)%Z = true) by (apply Z.ltb_lt; lia).
      rewrite H. subst g'. rewrite Z.max_r by lia. reflexivity.
    + rewrite Z.max_l by lia. subst g'. rewrite Z.max_l by lia. reflexivity.
  - reflexivity.
  - intros Hforced Hover. unfold Plugin.shouldBuffer. subst g'.
    cbn [Plugin.systemHalted Plugin.globalForcedBuffering Plugin.simulatedLatencyMs
         Plugin.set_overrides].
    rewrite Hforced. assert (H : (threshold <? Z.max 0 n)%Z = true) by (apply Z.ltb_lt; lia).
    rewrite H. reflexivity.
Qed.

Lemma simulate_command_sets_the_simulated_latency_witness :
  exact_integer 250
  /\ Plugin.simulatedLatencyMs
       (Plugin.set_overrides false (Z.max 0 250) false (plugin_state false 0 true [])) = 250%Z
  /\ fst (Plugin.bufferHandler 100 [lit "simulate"; Number_toString 250]
            (plugin_state false 0 true []) (frozen_clock 0))
     = Some (Plugin.TEST_TUBE ++ lit " **Simulating 250ms latency**",
             Plugin.set_overrides false (Z.max 0 250) false (plugin_state false 0 true [])).
Proof.
  assert (Hn : exact_integer 250) by (unfold exact_integer, MAX_EXACT; lia).
  split; [exact Hn|]. split; [reflexivity|].
  destruct (simulate_command_sets_the_simulated_latency 100 250 (plugin_state false 0 true [])
              (frozen_clock 0) Hn) as (Hreply & _).
  rewrite Hreply. reflexivity.
Defined.

(** ** The tracker of the plugin *)

Lemma map_tail {A B} (f : A -> B) (l : list A) : List.map f (tail l) = tail (List.map f l).
Proof. destruct l; reflexivity. Qed.

Lemma push_shift_last s t d :
  0 < Core.maxSamples t -> List.last (Core.samples (Core.push_shift s t)) d = s.
Proof.
  intros Hcap. unfold Core.push_shift. cbn [Core.samples].
  destruct (Nat.ltb_spec (Core.maxSamples t) (length (Core.samples t ++ [s]))) as [H|H].
  - destruct (Core.samples t) as [|a l]; cbn [app length tail] in *; [lia|].
    apply last_last.
  - apply last_last.
Qed.

Lemma plugin_record_view x g c :
  tracker_view (fst (Plugin.record x g c))
  = Core.push_shift {| Core.ts := wall c (reads c); Core.sample_latencyMs := x |}
      (tracker_view g).
Proof.
  unfold Plugin.record, mbind, IO_bind. rewrite Date_now_run. unfold mret, IO_ret.
  cbn [fst snd]. unfold tracker_view, Core.push_shift.
  cbn [Plugin.samples Plugin.maxSamples Core.samples Core.maxSamples]. f_equal.
  rewrite !length_app, length_map. cbn [length].
  destruct (Plugin.maxSamples g <? length (Plugin.samples g) + 1)%nat.
  - rewrite map_tail, map_app. reflexivity.
  - rewrite map_app. reflexivity.
Qed.

(** X24: the tracker inside the plugin is the extracted tracker without
    the clamp.  [record] of the plugin appends the latency as it is given,
    at the same clock reading and with the same eviction of the oldest
    sample, and touches neither the overrides nor the database; so the two
    trackers stay in step on every latency that is not negative, and part
    as soon as a negative one is recorded into a tracker with room. *)
Theorem plugin_record_does_not_clamp (x : Z) (g : Plugin.Globals) (c : Clock) :
  let plugin := Plugin.record x g c in
  let core := Core.record x (tracker_view g) c in
  tracker_view (fst plugin)
  = Core.push_shift {| Core.ts := wall c (reads c); Core.sample_latencyMs := x |}
      (tracker_view g)
  /\ snd plugin = snd core
  /\ state_of (fst plugin) = state_of g
  /\ Plugin.db (fst plugin) = Plugin.db g
  /\ ((0 <= x)%Z -> tracker_view (fst plugin) = fst core)
  /\ ((x < 0)%Z -> 0 < Plugin.maxSamples g -> tracker_view (fst plugin) <> fst core).
Proof.
  intros plugin core. subst plugin core.
  split; [apply plugin_record_view|]. split; [reflexivity|]. split; [reflexivity|].
  split; [reflexivity|]. split.
  - intros Hx. rewrite plugin_record_view, record_run. cbn [fst].
    rewrite Z.max_r by exact Hx. reflexivity.
  - intros Hx Hcap Heq. rewrite plugin_record_view, record_run in Heq. cbn [fst] in Heq.
    set (d := {| Core.ts := 0%Z; Core.sample_latencyMs := 0%Z |}).
    apply (f_equal (fun t => Core.sample_latencyMs (List.last (Core.samples t) d))) in Heq.
    rewrite !push_shift_last in Heq by exact Hcap. cbn in Heq. lia.
Qed.

(** ** The status tool *)







(** ** The plugin before the rewrite (v0.2.0) *)

(** X26: in v0.2.0 the pending thoughts of an agent come back in order of
    creation time alone.  [getPendingThoughts] returns exactly the rows of
    the agent that are neither synthesized nor discarded, sorted by
    [created_at] as text, rows with equal times in insertion order; and the
    priorities play no part: replacing them in any way leaves the order of
    the returned rows as it was. *)
Theorem old_pending_is_ordered_by_time_alone
    (g : ThoughtBuffer.Globals) (d : ThoughtBuffer.Database) (agentId : jsstring) :
  ThoughtBuffer.db g = Some d ->
  let result := ThoughtBuffer.getPendingThoughts g agentId in
  (forall r, In r result
             <-> In r (ThoughtBuffer.buffered_thoughts d)
                 /\ ThoughtBuffer.agent_id r = agentId
                 /\ ThoughtBuffer.synthesized_at r = None
                 /\ ThoughtBuffer.discarded r = 0%Z)
  /\ StronglySorted
       (fun x y => text_leb (ThoughtBuffer.created_at x) (ThoughtBuffer.created_at y) = true)
       result
  /\ (forall stamp,
        List.filter (fun r => jsstring_eqb (ThoughtBuffer.created_at r) stamp) result
        = List.filter (fun r => jsstring_eqb (ThoughtBuffer.created_at r) stamp)
            (List.filter (ThoughtBuffer.is_pending_of agentId)
               (ThoughtBuffer.buffered_thoughts d)))
  /\ (forall f,
        List.map ThoughtBuffer.id
          (ThoughtBuffer.getPendingThoughts (ThoughtBuffer.set_db (relabelled f d) g) agentId)
        = List.map ThoughtBuffer.id result).
Proof.
  intros Hdb result. subst result. rewrite (old_getPendingThoughts_db g d agentId Hdb).
  unfold ThoughtBuffer.select_pending. split; [|split; [|split]].
  - intros r. rewrite stable_sort_In, filter_In, old_is_pending_of_spec. reflexivity.
  - apply (stable_sort_StronglySorted ThoughtBuffer.order_by old_order_by_total
             old_order_by_trans).
  - intros stamp. apply stable_sort_stable. intros x y Hx Hy.
    apply jsstring_eqb_eq in Hx. apply jsstring_eqb_eq in Hy.
    unfold ThoughtBuffer.order_by. rewrite Hx, Hy. apply text_leb_refl.
  - intros f.
    rewrite (old_getPendingThoughts_db (ThoughtBuffer.set_db (relabelled f d) g)
               (relabelled f d) agentId eq_refl).
    unfold ThoughtBuffer.select_pending, relabelled. cbn [ThoughtBuffer.buffered_thoughts].
    rewrite (filter_map_comm (with_priority f) (ThoughtBuffer.is_pending_of agentId)
               (ThoughtBuffer.is_pending_of agentId)) by reflexivity.
    change ThoughtBuffer.order_by
      with (fun a b : ThoughtBuffer.Thought => ThoughtBuffer.order_by a b) at 1.
    rewrite <- (stable_sort_map (with_priority f) ThoughtBuffer.order_by).
    rewrite map_map. reflexivity.
Qed.

Lemma old_pending_is_ordered_by_time_alone_witness :
  ThoughtBuffer.db (old_globals old_db) = Some old_db
  /\ List.map ThoughtBuffer.id (ThoughtBuffer.getPendingThoughts (old_globals old_db) (lit "main"))
     = [1%Z; 2%Z]
  /\ StronglySorted
       (fun x y => text_leb (ThoughtBuffer.created_at x) (ThoughtBuffer.created_at y) = true)
       (ThoughtBuffer.getPendingThoughts (old_globals old_db) (lit "main")).
Proof.
  split; [reflexivity|]. split; [reflexivity|].
  exact (proj1 (proj2 (old_pending_is_ordered_by_time_alone (old_globals old_db) old_db
                         (lit "main") eq_refl))).
Defined.

Lemma old_update_by_ids d agentId stamp :
  NoDup (List.map ThoughtBuffer.id (ThoughtBuffer.buffered_thoughts d)) ->
  ThoughtBuffer.update_synthesized
    (List.map ThoughtBuffer.id (ThoughtBuffer.select_pending agentId d)) stamp
    (ThoughtBuffer.buffered_thoughts d)
  = List.map (stamp_if_pending agentId stamp) (ThoughtBuffer.buffered_thoughts d).
Proof.
  intros Hnd. unfold ThoughtBuffer.update_synthesized. apply map_ext_in. intros r Hr.
  unfold stamp_if_pending.
  destruct (ThoughtBuffer.is_pending_of agentId r) eqn:Hp.
  - rewrite bool_decide_eq_true_2; [reflexivity|].
    apply list_elem_of_In. apply in_map. unfold ThoughtBuffer.select_pending.
    apply stable_sort_In. apply filter_In. split; assumption.
  - rewrite bool_decide_eq_false_2; [reflexivity|].
    intros Hin. apply list_elem_of_In in Hin. apply in_map_iff in Hin.
    destruct Hin as (r' & Hid & Hin). unfold ThoughtBuffer.select_pending in Hin.
    apply stable_sort_In in Hin. apply filter_In in Hin. destruct Hin as [Hin Hp'].
    assert (r' = r) by (eapply NoDup_map_inj_on; eassumption).
    subst r'. congruence.
Qed.

Lemma stamped_is_not_pending b stamp r :
  ThoughtBuffer.is_pending_of b (ThoughtBuffer.set_synthesized_at stamp r) = false.
Proof. unfold ThoughtBuffer.is_pending_of, ThoughtBuffer.is_pending. cbn. apply andb_false_r. Qed.

Lemma old_filter_after_stamp a b stamp rows :
  List.filter (ThoughtBuffer.is_pending_of b) (List.map (stamp_if_pending a stamp) rows)
  = if decide (a = b) then []
    else List.filter (ThoughtBuffer.is_pending_of b) rows.
Proof.
  induction rows as [|r rows IH]; [destruct (decide (a = b)); reflexivity|].
  cbn [List.map List.filter]. rewrite IH. unfold stamp_if_pending.
  destruct (ThoughtBuffer.is_pending_of a r) eqn:Ha.
  - rewrite (stamped_is_not_pending b). destruct (decide (a = b)) as [->|Hne].
    + reflexivity.
    + apply old_is_pending_of_spec in Ha. destruct Ha as [Ha _].
      destruct (ThoughtBuffer.is_pending_of b r) eqn:Hb; [|reflexivity].
      apply old_is_pending_of_spec in Hb. destruct Hb as [Hb _]. congruence.
  - destruct (decide (a = b)) as [->|Hne]; [rewrite Ha|]; reflexivity.
Qed.

(** X27: v0.2.0's [markSynthesized] marks before it logs, and the two steps
    are not one.  Whenever the agent has pending thoughts, the call stamps
    exactly those with the time of its first clock reading, so that
    afterwards the agent has nothing pending and every other agent has what
    it had.  If the given result is one that the log accepts, one row is
    appended to the log with the count, the result and the output (null for
    an empty or absent output) and the call returns; if not, the call
    throws and the log is as it was, but the thoughts stay stamped. *)
Theorem old_markSynthesized_marks_before_it_logs
    (datetime : Z -> jsstring) (g : ThoughtBuffer.Globals) (d : ThoughtBuffer.Database)
    (agentId result0 : jsstring) (output : option jsstring) (c : Clock) :
  ThoughtBuffer.db g = Some d ->
  NoDup (List.map ThoughtBuffer.id (ThoughtBuffer.buffered_thoughts d)) ->
  ThoughtBuffer.getPendingThoughts g agentId <> [] ->
  let mine := ThoughtBuffer.getPendingThoughts g agentId in
  let out := ThoughtBuffer.markSynthesized datetime g agentId result0 output c in
  let g' := snd (fst out) in
  exists d',
    ThoughtBuffer.db g' = Some d'
    /\ ThoughtBuffer.buffered_thoughts d'
       = List.map (stamp_if_pending agentId (datetime (wall c (reads c))))
           (ThoughtBuffer.buffered_thoughts d)
    /\ ThoughtBuffer.getPendingThoughts g' agentId = []
    /\ (forall other, other <> agentId ->
          ThoughtBuffer.getPendingThoughts g' other = ThoughtBuffer.getPendingThoughts g other)
    /\ (ThoughtBuffer.accepted_result result0 = true ->
          fst (fst out) = Plugin.Returned tt
          /\ snd out = tick (tick c)
          /\ exists row,
               ThoughtBuffer.synthesis_log d' = ThoughtBuffer.synthesis_log d ++ [row]
               /\ ThoughtBuffer.log_agent_id row = agentId
               /\ ThoughtBuffer.thought_count row = Z.of_nat (length mine)
               /\ ThoughtBuffer.result row = result0
               /\ ThoughtBuffer.output_content row = Plugin.or_null output)
    /\ (ThoughtBuffer.accepted_result result0 = false ->
          fst (fst out) = Plugin.Threw ThoughtBuffer.LOG_CHECK_FAILED
          /\ snd out = tick c
          /\ ThoughtBuffer.synthesis_log d' = ThoughtBuffer.synthesis_log d).
Proof.
  intros Hdb Hnd Hne mine out g'. subst mine out g'.
  rewrite (old_getPendingThoughts_db g d agentId Hdb) in *.
  unfold ThoughtBuffer.markSynthesized. rewrite Hdb.
  rewrite (old_getPendingThoughts_db g d agentId Hdb).
  assert (Hz : (length (List.map ThoughtBuffer.id (ThoughtBuffer.select_pending agentId d))
                =? 0)%nat = false).
  { rewrite length_map. destruct (ThoughtBuffer.select_pending agentId d);
      [contradiction|reflexivity]. }
  rewrite Hz. unfold mbind, IO_bind. rewrite Date_now_run. cbn [fst snd].
  rewrite (old_update_by_ids d agentId _ Hnd), length_map.
  assert (Hmine : forall d1,
            ThoughtBuffer.buffered_thoughts d1
            = List.map (stamp_if_pending agentId (datetime (wall c (reads c))))
                (ThoughtBuffer.buffered_thoughts d) ->
            ThoughtBuffer.getPendingThoughts (ThoughtBuffer.set_db d1 g) agentId = []
            /\ (forall other, other <> agentId ->
                  ThoughtBuffer.getPendingThoughts (ThoughtBuffer.set_db d1 g) other
                  = ThoughtBuffer.select_pending other d)).
  { intros d1 Hrows. split.
    - rewrite (old_getPendingThoughts_db (ThoughtBuffer.set_db d1 g) d1 _ eq_refl). unfold ThoughtBuffer.select_pending.
      rewrite Hrows, old_filter_after_stamp, decide_True by reflexivity. reflexivity.
    - intros other Hother. rewrite (old_getPendingThoughts_db (ThoughtBuffer.set_db d1 g) d1 _ eq_refl).
      unfold ThoughtBuffer.select_pending.
      rewrite Hrows, old_filter_after_stamp, decide_False by congruence. reflexivity. }
  destruct (ThoughtBuffer.accepted_result result0) eqn:Hacc.
  - rewrite Date_now_run. unfold mret, IO_ret. cbn [fst snd].
    eexists. split; [reflexivity|]. cbn [ThoughtBuffer.buffered_thoughts].
    split; [reflexivity|].
    split; [apply Hmine; reflexivity|].
    split.
    { intros other Hother. rewrite (old_getPendingThoughts_db g d other Hdb).
      apply Hmine; [reflexivity|exact Hother]. }
    split; [|intros H; discriminate H].
    intros _. split; [reflexivity|]. split; [reflexivity|].
    eexists. split; [reflexivity|]. repeat split.
  - unfold mret, IO_ret. cbn [fst snd].
    eexists. split; [reflexivity|]. cbn [ThoughtBuffer.buffered_thoughts].
    split; [reflexivity|].
    split; [apply Hmine; reflexivity|].
    split.
    { intros other Hother. rewrite (old_getPendingThoughts_db g d other Hdb).
      apply Hmine; [reflexivity|exact Hother]. }
    split; [intros H; discriminate H|].
    intros _. repeat split.
Qed.

Lemma old_markSynthesized_marks_before_it_logs_witness :
  ThoughtBuffer.db (old_globals old_db) = Some old_db
  /\ ThoughtBuffer.accepted_result (lit "done") = false
  /\ exists d',
       ThoughtBuffer.db (snd (fst (ThoughtBuffer.markSynthesized demo_datetime
                                     (old_globals old_db) (lit "main") (lit "done") None
                                     (frozen_clock 0)))) = Some d'
       /\ ThoughtBuffer.getPendingThoughts
            (snd (fst (ThoughtBuffer.markSynthesized demo_datetime (old_globals old_db)
                         (lit "main") (lit "done") None (frozen_clock 0)))) (lit "main") = []
       /\ ThoughtBuffer.synthesis_log d' = [].
Proof.
  split; [reflexivity|]. split; [reflexivity|].
  assert (Hnd : NoDup (List.map ThoughtBuffer.id (ThoughtBuffer.buffered_thoughts old_db))).
  { apply (bool_decide_eq_true_1
             (NoDup (List.map ThoughtBuffer.id (ThoughtBuffer.buffered_thoughts old_db)))).
    vm_compute. reflexivity. }
  assert (Hne : ThoughtBuffer.getPendingThoughts (old_globals old_db) (lit "main") <> [])
    by discriminate.
  destruct (old_markSynthesized_marks_before_it_logs demo_datetime (old_globals old_db) old_db
              (lit "main") (lit "done") None (frozen_clock 0) eq_refl Hnd Hne)
    as (d' & Hd' & _ & Hmine & _ & _ & Hrej).
  exists d'. split; [exact Hd'|]. split; [exact Hmine|].
  destruct (Hrej eq_refl) as (_ & _ & Hlog). exact Hlog.
Defined.

Lemma old_recent_view now windowMs g :
  Plugin.recent now windowMs (as_plugin g)
  = List.map (fun s => {| Plugin.ts := ThoughtBuffer.ts s;
                          Plugin.latencyMs := ThoughtBuffer.latencyMs s |})
      (ThoughtBuffer.recent now windowMs None g).
Proof.
  unfold Plugin.recent, ThoughtBuffer.recent, as_plugin. cbn [Plugin.samples ThoughtBuffer.of_channel].
  induction (ThoughtBuffer.samples g) as [|s l IH]; [reflexivity|].
  cbn [List.map List.filter Plugin.ts].
  destruct (now - ThoughtBuffer.ts s <? windowMs)%Z; cbn [List.map]; rewrite IH; reflexivity.
Qed.

Lemma old_sum_view l : forall a,
  List.fold_left (fun sum s => sum + Plugin.latencyMs s)%Z
    (List.map (fun s => {| Plugin.ts := ThoughtBuffer.ts s;
                           Plugin.latencyMs := ThoughtBuffer.latencyMs s |}) l) a
  = List.fold_left (fun sum s => sum + ThoughtBuffer.latencyMs s)%Z l a.
Proof. induction l as [|s l IH]; intros a; [reflexivity|]. cbn. apply IH. Qed.

Lemma old_getAverage_view windowMs g c :
  ThoughtBuffer.getAverage windowMs None g c = Plugin.getAverage windowMs (as_plugin g) c.
Proof.
  unfold ThoughtBuffer.getAverage, Plugin.getAverage, mbind, IO_bind.
  rewrite Date_now_run. cbn zeta. rewrite old_recent_view, length_map, old_sum_view.
  reflexivity.
Qed.

Lemma old_getMax_view windowMs g c :
  ThoughtBuffer.getMax windowMs None g c = Plugin.getMax windowMs (as_plugin g) c.
Proof.
  unfold ThoughtBuffer.getMax, Plugin.getMax, mbind, IO_bind.
  rewrite Date_now_run. cbn zeta. rewrite old_recent_view, length_map, map_map.
  reflexivity.
Qed.

Lemma frozen_getMax windowMs g c :
  frozen c -> Plugin.getMax windowMs g (tick c) = (fst (Plugin.getMax windowMs g c), tick (tick c)).
Proof.
  intros Hf. unfold Plugin.getMax, mbind, IO_bind. rewrite !Date_now_run. cbn zeta.
  cbn [tick wall reads]. rewrite (Hf (S (reads c)) (reads c)).
  destruct (length _ =? 0)%nat; reflexivity.
Qed.

Lemma frozen_getAverage windowMs g c :
  frozen c ->
  Plugin.getAverage windowMs g (tick c) = (fst (Plugin.getAverage windowMs g c), tick (tick c)).
Proof.
  intros Hf. unfold Plugin.getAverage, mbind, IO_bind. rewrite !Date_now_run. cbn zeta.
  cbn [tick wall reads]. rewrite (Hf (S (reads c)) (reads c)).
  destruct (length _ =? 0)%nat; reflexivity.
Qed.

Lemma plugin_reading_clock windowMs g c :
  snd (Plugin.getAverage windowMs g c) = tick c /\ snd (Plugin.getMax windowMs g c) = tick c.
Proof. rewrite plugin_getAverage_run, plugin_getMax_run. split; reflexivity. Qed.

(** X28: the decision of v0.2.0 and that of v0.2.1.  The older
    [shouldBuffer] reads the average and the maximum before it looks at
    any flag, so it always reads the clock twice; the newer one reads it
    only as far as its rules need.  On a clock that stands still, and with
    the plugin not halted, both reach the same verdict and report the same
    latency on the same flags and samples. *)
Theorem old_and_new_decide_alike (g : ThoughtBuffer.Globals) (threshold : Z) (c : Clock) :
  frozen c ->
  let old := ThoughtBuffer.shouldBuffer g threshold c in
  let new := Plugin.shouldBuffer (as_plugin g) threshold c in
  Core.buffering (fst old) = Core.buffering (fst new)
  /\ Core.latencyMs (fst old) = Core.latencyMs (fst new)
  /\ snd old = tick (tick c)
  /\ exists k, k <= 2 /\ snd new = {| wall := wall c; reads := reads c + k |}.
Proof.
  intros Hf old new. subst old new.
  unfold ThoughtBuffer.shouldBuffer, Plugin.shouldBuffer, mbind, IO_bind.
  rewrite old_getAverage_view.
  destruct (plugin_reading_clock 60000 (as_plugin g) c) as [Havg Hmax].
  destruct (Plugin.getAverage 60000 (as_plugin g) c) as [avg c1] eqn:Eavg.
  cbn [fst snd] in *. subst c1.
  rewrite old_getMax_view, (frozen_getMax 60000 (as_plugin g) c Hf).
  cbn [fst snd as_plugin Plugin.systemHalted Plugin.globalForcedBuffering
       Plugin.simulatedLatencyMs].
  destruct (ThoughtBuffer.globalForcedBuffering g).
  { rewrite Eavg. do 3 (split; [reflexivity|]). exists 1. split; [lia|apply tick_plus_1]. }
  destruct (threshold <? ThoughtBuffer.simulatedLatencyMs g)%Z.
  { do 3 (split; [reflexivity|]). exists 0. split; [lia|apply clock_plus_0]. }
  fold (as_plugin g).
  destruct (Plugin.getMax 60000 (as_plugin g) c) as [maxLatency c2] eqn:Emax.
  cbn [fst snd] in *. subst c2.
  rewrite ?Emax. cbn [fst snd].
  destruct (threshold <? maxLatency)%Z.
  { do 3 (split; [reflexivity|]). exists 1. split; [lia|apply tick_plus_1]. }
  rewrite (frozen_getAverage 60000 (as_plugin g) c Hf), Eavg. cbn [fst snd].
  do 3 (split; [reflexivity|]). exists 2. split; [lia|apply tick_tick_plus_2].
Qed.

Lemma old_and_new_decide_alike_witness :
  frozen (frozen_clock 1000)
  /\ Core.buffering (fst (ThoughtBuffer.shouldBuffer (old_state false 0 [7000%Z]) 5000
                            (frozen_clock 1000)))
     = Core.buffering (fst (Plugin.shouldBuffer (as_plugin (old_state false 0 [7000%Z])) 5000
                              (frozen_clock 1000)))
  /\ Core.buffering (fst (ThoughtBuffer.shouldBuffer (old_state false 0 [7000%Z]) 5000
                            (frozen_clock 1000))) = true.
Proof.
  assert (Hf : frozen (frozen_clock 1000)) by (intros i j; reflexivity).
  split; [exact Hf|]. split; [|reflexivity].
  exact (proj1 (old_and_new_decide_alike (old_state false 0 [7000%Z]) 5000
                  (frozen_clock 1000) Hf)).
Defined.


Section SortedInput.
Context {A : Type} (leb : A -> A -> bool).

Lemma stable_sort_sorted l :
  StronglySorted (fun a b => leb a b = true) l -> stable_sort leb l = l.
Proof.
  induction 1 as [|x l Hl IH Hx]; [reflexivity|].
  cbn [stable_sort fold_right]. fold (stable_sort leb l). rewrite IH.
  destruct l as [|y l']; [reflexivity|]. cbn [insert_sorted].
  apply Forall_cons in Hx. destruct Hx as [Hxy _]. rewrite Hxy. reflexivity.
Qed.

Lemma StronglySorted_snoc l y :
  StronglySorted (fun a b => leb a b = true) l ->
  Forall (fun x => leb x y = true) l ->
  StronglySorted (fun a b => leb a b = true) (l ++ [y]).
Proof.
  induction 1 as [|x l Hl IH Hx]; intros Hall; cbn [app].
  - constructor; constructor.
  - apply Forall_cons in Hall. destruct Hall as [Hxy Hall].
    constructor; [exact (IH Hall)|]. apply Forall_app. split; [exact Hx|].
    constructor; [exact Hxy|constructor].
Qed.

Lemma StronglySorted_list_filter (p : A -> bool) l :
  StronglySorted (fun a b => leb a b = true) l ->
  StronglySorted (fun a b => leb a b = true) (List.filter p l).
Proof.
  induction 1 as [|x l Hl IH Hx]; [constructor|]. cbn [List.filter].
  destruct (p x); [|exact IH]. constructor; [exact IH|].
  apply Forall_forall. intros y Hy. apply list_elem_of_In, filter_In in Hy.
  rewrite Forall_forall in Hx. apply Hx, list_elem_of_In. exact (proj1 Hy).
Qed.
End SortedInput.

(** X30: in v0.2.0 the buffer of an agent is first in, first out as long
    as the clock behind [datetime('now')] does not run backwards.  If the
    rows of the table carry creation times that do not decrease in
    insertion order, [getPendingThoughts] returns the pending rows of the
    agent in insertion order; and a thought inserted at a time that is not
    before any of them goes to the back of its agent's pending thoughts,
    whatever its priority, and leaves the table in that order again. *)
Theorem old_buffer_is_first_in_first_out
    (datetime : Z -> jsstring) (g : ThoughtBuffer.Globals) (d : ThoughtBuffer.Database)
    (agentId ch tg text prio : jsstring) (meta : option jsstring)
    (p : ThoughtBuffer.Level) (c : Clock) :
  ThoughtBuffer.db g = Some d ->
  created_in_order (ThoughtBuffer.buffered_thoughts d) ->
  Forall (fun r => text_leb (ThoughtBuffer.created_at r) (datetime (wall c (reads c))) = true)
         (ThoughtBuffer.buffered_thoughts d) ->
  ThoughtBuffer.parse_level (if (length prio =? 0)%nat then lit "normal" else prio) = Some p ->
  let g' := snd (fst (ThoughtBuffer.insertThought datetime g agentId ch tg text prio meta c)) in
  (forall a, ThoughtBuffer.getPendingThoughts g a
             = List.filter (ThoughtBuffer.is_pending_of a) (ThoughtBuffer.buffered_thoughts d))
  /\ exists d' row,
       ThoughtBuffer.db g' = Some d'
       /\ ThoughtBuffer.buffered_thoughts d' = ThoughtBuffer.buffered_thoughts d ++ [row]
       /\ created_in_order (ThoughtBuffer.buffered_thoughts d')
       /\ ThoughtBuffer.content row = text
       /\ ThoughtBuffer.priority row = p
       /\ ThoughtBuffer.getPendingThoughts g' agentId
          = ThoughtBuffer.getPendingThoughts g agentId ++ [row]
       /\ (forall other, other <> agentId ->
             ThoughtBuffer.getPendingThoughts g' other
             = ThoughtBuffer.getPendingThoughts g other).
Proof.
  intros Hdb Hsorted Hnow Hp g'.
  assert (Hfifo : forall d0 a, created_in_order (ThoughtBuffer.buffered_thoughts d0) ->
            ThoughtBuffer.select_pending a d0
            = List.filter (ThoughtBuffer.is_pending_of a) (ThoughtBuffer.buffered_thoughts d0)).
  { intros d0 a H0. unfold ThoughtBuffer.select_pending. apply stable_sort_sorted.
    apply (StronglySorted_list_filter ThoughtBuffer.order_by). exact H0. }
  split.
  { intros a. rewrite (old_getPendingThoughts_db g d a Hdb). apply Hfifo. exact Hsorted. }
  subst g'. unfold ThoughtBuffer.insertThought. rewrite Hdb, Hp.
  unfold mbind, IO_bind. rewrite Date_now_run. unfold mret, IO_ret. cbn [fst snd].
  set (row := {| ThoughtBuffer.id := (ThoughtBuffer.buffered_thoughts_seq d + 1)%Z;
                 ThoughtBuffer.agent_id := agentId; ThoughtBuffer.channel := ch;
                 ThoughtBuffer.target := tg; ThoughtBuffer.content := text;
                 ThoughtBuffer.priority := p;
                 ThoughtBuffer.created_at := datetime (wall c (reads c));
                 ThoughtBuffer.synthesized_at := None; ThoughtBuffer.discarded := 0%Z;
                 ThoughtBuffer.metadata := meta |}).
  set (d' := {| ThoughtBuffer.buffered_thoughts := ThoughtBuffer.buffered_thoughts d ++ [row];
                ThoughtBuffer.buffered_thoughts_seq := (ThoughtBuffer.buffered_thoughts_seq d + 1)%Z;
                ThoughtBuffer.synthesis_log := ThoughtBuffer.synthesis_log d;
                ThoughtBuffer.synthesis_log_seq := ThoughtBuffer.synthesis_log_seq d |}).
  assert (Hsorted' : created_in_order (ThoughtBuffer.buffered_thoughts d')).
  { apply (StronglySorted_snoc ThoughtBuffer.order_by); [exact Hsorted|exact Hnow]. }
  assert (Hrow : ThoughtBuffer.is_pending_of agentId row = true).
  { apply old_is_pending_of_spec. repeat split. }
  exists d', row. split; [reflexivity|]. split; [reflexivity|]. split; [exact Hsorted'|].
  split; [reflexivity|]. split; [reflexivity|]. split.
  - rewrite (old_getPendingThoughts_db (ThoughtBuffer.set_db d' g) d' agentId eq_refl).
    rewrite (old_getPendingThoughts_db g d agentId Hdb).
    rewrite (Hfifo d' agentId Hsorted'), (Hfifo d agentId Hsorted).
    cbn [ThoughtBuffer.buffered_thoughts d']. rewrite List.filter_app. cbn [List.filter].
    rewrite Hrow. reflexivity.
  - intros other Hother.
    rewrite (old_getPendingThoughts_db (ThoughtBuffer.set_db d' g) d' other eq_refl).
    rewrite (old_getPendingThoughts_db g d other Hdb).
    rewrite (Hfifo d' other Hsorted'), (Hfifo d other Hsorted).
    cbn [ThoughtBuffer.buffered_thoughts d']. rewrite List.filter_app. cbn [List.filter].
    assert (Hnot : ThoughtBuffer.is_pending_of other row = false).
    { destruct (ThoughtBuffer.is_pending_of other row) eqn:E; [|reflexivity].
      apply old_is_pending_of_spec in E. destruct E as [E _]. cbn in E. congruence. }
    rewrite Hnot. apply app_nil_r.
Qed.

Lemma old_buffer_is_first_in_first_out_witness :
  ThoughtBuffer.db (old_globals old_db) = Some old_db
  /\ created_in_order (ThoughtBuffer.buffered_thoughts old_db)
  /\ ThoughtBuffer.parse_level (lit "high") = Some ThoughtBuffer.high
  /\ List.map ThoughtBuffer.id (ThoughtBuffer.getPendingThoughts (old_globals old_db) (lit "main"))
     = [1%Z; 2%Z]
  /\ exists d' row,
       ThoughtBuffer.buffered_thoughts d' = ThoughtBuffer.buffered_thoughts old_db ++ [row]
       /\ ThoughtBuffer.priority row = ThoughtBuffer.high
       /\ ThoughtBuffer.getPendingThoughts
            (snd (fst (ThoughtBuffer.insertThought (fun _ => lit "2026-02-07 12:00:02")
                         (old_globals old_db) (lit "main") (lit "slack") [] (lit "urgent")
                         (lit "high") None (frozen_clock 0)))) (lit "main")
          = ThoughtBuffer.getPendingThoughts (old_globals old_db) (lit "main") ++ [row].
Proof.
  assert (Hsorted : created_in_order (ThoughtBuffer.buffered_thoughts old_db)).
  { repeat constructor. }
  assert (Hnow : Forall (fun r => text_leb (ThoughtBuffer.created_at r)
                                    (lit "2026-02-07 12:00:02") = true)
                   (ThoughtBuffer.buffered_thoughts old_db)).
  { repeat constructor. }
  split; [reflexivity|]. split; [exact Hsorted|]. split; [reflexivity|].
  split; [reflexivity|].
  destruct (old_buffer_is_first_in_first_out (fun _ => lit "2026-02-07 12:00:02")
              (old_globals old_db) old_db (lit "main") (lit "slack") [] (lit "urgent")
              (lit "high") None ThoughtBuffer.high (frozen_clock 0) eq_refl Hsorted Hnow eq_refl)
    as (_ & d' & row & _ & Hrows & _ & _ & Hprio & Hmine & _).
  exists d', row. split; [exact Hrows|]. split; [exact Hprio|exact Hmine].
Defined.
